(** * The evaluator of duckietown-challenges: job pass and polling loop

    A shallow embedding of [src/duckietown_challenges/runner.py]: the job
    pass [go_], the token lookup [get_token_from_shell_config] and the two
    driving modes of [dt_challenges_evaluator], with the properties of the
    specification proved about them.

    Everything the module asks of its environment (the server, the file
    system, [os.system], the docker client, the results reader) is answered
    by a [world]: one record of answers per job pass.  A computation maps the
    state it reads to its outcome, the state it leaves and the calls it made,
    in order. *)

From Stdlib Require Import ZArith QArith String List Lia Lqa.
From stdpp Require Import gmap strings pretty.

Set Warnings "-register-all".

Local Open Scope string_scope.
Local Open Scope list_scope.

(** ** Python values *)

(** The values that travel through the module: what [json.loads] and the
    server client return, and what is put into the reported [stats]. *)
Inductive pyval :=
| PNone
| PInt (z : Z)
| PStr (s : string)
| PList (l : list pyval)
| PDict (d : gmap string pyval).

(** Truth value of an object, as [if artifacts_image:] takes it. *)
Definition truthy (v : pyval) : bool :=
  match v with
  | PNone => false
  | PInt z => negb (Z.eqb z 0)
  | PStr s => negb (String.eqb s "")
  | PList l => match l with [] => false | _ => true end
  | PDict d => negb (bool_decide (dom d = ∅))
  end.

(** [v == s] for a string literal [s]. *)
Definition py_eq_str (v : pyval) (s : string) : bool :=
  match v with
  | PStr s' => String.eqb s' s
  | _ => false
  end.

Definition nl : string := String (Ascii.ascii_of_nat 10) EmptyString.

(** ** Exceptions *)

(** The classes the module raises, catches or lets through.  All of them
    derive from [Exception]; [KeyboardInterrupt] and [SystemExit], which do
    not, are the operator's interrupt and stay outside the model. *)
Inductive exn :=
| NothingLeft (msg : string)         (* class NothingLeft(Exception), line 102 *)
| ConnectionError (msg : string)     (* dt_shell.remote.ConnectionError *)
| InvalidEnvironment (msg : string)  (* dt_shell.env_checks.InvalidEnvironment *)
| AssertionError (condition : string) (* a failed [assert condition], no message *)
| KeyError (key : string)            (* a missing dictionary key *)
| Exception (msg : string)           (* [raise Exception(msg)] *)
| LibraryError (cls msg : string).   (* any other subclass, raised by a library *)

(** [str(e)]. *)
Definition exn_str (e : exn) : string :=
  match e with
  | NothingLeft msg | ConnectionError msg | InvalidEnvironment msg
  | Exception msg | LibraryError _ msg => msg
  | AssertionError _ => ""
  | KeyError key => "'" +:+ key +:+ "'"
  end.

Definition is_NothingLeft (e : exn) : bool :=
  match e with NothingLeft _ => true | _ => false end.

Inductive result (A : Type) :=
| Ok (a : A)
| Raise (e : exn).
Arguments Ok {A} a.
Arguments Raise {A} e.

(** ** Challenge results *)

(** Modelled from the spec: [challenge_results.py] is not among the sources.
    The status enumeration is SUCCESS, FAILED, ERROR (section 4.5). *)
Inductive ChallengeResultsStatus := SUCCESS | FAILED | ERROR.

(** Modelled from the spec: the class [ChallengeResults] of
    [challenge_results.py] is not among the sources.  A result has a status,
    a message and a mapping of scores (section 3); the constructor is called
    as [ChallengeResults(status, msg, scores={})]. *)
Record ChallengeResults := mkChallengeResults {
  cr_status : ChallengeResultsStatus;
  cr_msg : string;
  cr_scores : gmap string pyval;
}.

(** Modelled from the spec: the method [get_status] is not among the
    sources; it gives the status of the result. *)
Definition get_status (cr : ChallengeResults) : ChallengeResultsStatus :=
  cr_status cr.

(** Modelled from the spec: the method [get_stats] is not among the sources;
    section 4.7 has [stats] be the scores mapping of the result. *)
Definition get_stats (cr : ChallengeResults) : gmap string pyval :=
  cr_scores cr.

(** ** Calls on the environment *)

Inductive log_level := LogDebug | LogInfo | LogError.

Inductive event :=
| Log (lvl : log_level) (msg : string)      (* elogger.debug, .info, .error *)
| Stdout (text : string)                    (* print *)
| Stderr (text : string)                    (* sys.stderr.write *)
| ReadConfig (path : string)                (* open(path).read(), json.loads *)
| WorkSubmission (token : pyval) (submission_id : option string)
    (machine_id process_id evaluator_version : string)
| Mkdtemp (prefix : string)
| Unlink (path : string)
| Symlink (src dst : string)
| Makedirs (path : string)
| WriteFile (path content : string)
| System (cmd : string)                     (* os.system *)
| ReadChallengeResults (wd : string)
| DockerFromEnv
| ImagesBuild (path tag : string)
| ImagesGet (tag : string)
| ImagesPush (tag : string)
| ReportJob (token job_id : pyval) (stats : gmap string pyval)
    (res : ChallengeResultsStatus) (machine_id process_id : string)
    (evaluation_container : pyval) (evaluator_version : string)
| Sleep (seconds : Q).                      (* time.sleep *)

(** An image of the docker client: [image.id] and [image.attrs]. *)
Record Image := mkImage {
  image_id : string;
  image_attrs : gmap string pyval;
}.

(** The answers of the environment during one job pass. *)
Record world := mkWorld {
  w_config : result (gmap string pyval);      (* the parsed config file *)
  w_hostname : string;                        (* socket.gethostname() *)
  w_pid : Z;                                  (* os.getpid() *)
  w_work_submission : result (gmap string pyval);
  w_mkdtemp : result string;
  w_unlink : result unit;
  w_symlink : result unit;
  w_getuid : Z;
  w_getuser : result string;
  w_makedirs : string -> result unit;
  w_write : string -> string -> result unit;
  w_system : string -> Z;                     (* the exit status *)
  w_read_challenge_results : string -> result ChallengeResults;
  w_docker_from_env : result unit;            (* import docker; from_env() *)
  w_images_build : result (list pyval);
  w_images_get : result Image;
  w_images_push : result unit;
  w_report : result unit;                     (* dtserver_report_job *)
  w_repr : pyval -> string;                   (* str() of a list or a dict *)
  w_format_exc : exn -> string;               (* traceback.format_exc() *)
  w_format_exc_limit : exn -> result string;  (* traceback.format_exc(e) *)
}.

(** ['%s' % v] and [str(v)]. *)
Definition py_str (w : world) (v : pyval) : string :=
  match v with
  | PStr s => s
  | PInt z => pretty z
  | PNone => "None"
  | _ => w_repr w v
  end.

(** Constants of modules that are not among the sources: [DTShellConstants]
    of dt_shell, [__version__] of the package and the directory names of
    [constants.py]. *)
Record constants := mkConstants {
  ROOT : string;                     (* DTShellConstants.ROOT, expanded *)
  DT1_TOKEN_CONFIG_KEY : string;
  version : string;                  (* __version__ *)
  CHALLENGE_SOLUTION_OUTPUT_DIR : string;
  CHALLENGE_RESULTS_DIR : string;
  CHALLENGE_DESCRIPTION_DIR : string;
  CHALLENGE_EVALUATION_OUTPUT_DIR : string;
}.

(** ** State and computations *)

(** What a pass reads and leaves behind: the symbolic link [last] of the
    working directory, and the locals of [go_] that are assigned inside its
    [try] statement and read after it. *)
Record state := mkState {
  last_link : option string;
  evaluation_container : pyval;
  artifacts_image : pyval;
  size : pyval;
}.

Definition M (A : Type) : Type := state -> result A * state * list event.

Definition ret {A} (a : A) : M A := fun st => (Ok a, st, []).

Definition raise {A} (e : exn) : M A := fun st => (Raise e, st, []).

Definition bind {A B} (c : M A) (k : A -> M B) : M B :=
  fun st =>
    match c st with
    | (Ok a, st1, tr1) =>
        match k a st1 with
        | (r, st2, tr2) => (r, st2, tr1 ++ tr2)
        end
    | (Raise e, st1, tr1) => (Raise e, st1, tr1)
    end.

Declare Scope py_scope.
Delimit Scope py_scope with py.
Notation "x <- c ;; k" := (bind c (fun x => k))
  (at level 100, c at next level, right associativity) : py_scope.
Notation "c ;;; k" := (bind c (fun _ => k))
  (at level 100, right associativity) : py_scope.
Local Open Scope py_scope.

(** [try: c  except Exception as e: h e].  A handler for a narrower class
    re-raises what it does not handle. *)
Definition try_except {A} (c : M A) (h : exn -> M A) : M A :=
  fun st =>
    match c st with
    | (Ok a, st1, tr1) => (Ok a, st1, tr1)
    | (Raise e, st1, tr1) =>
        match h e st1 with
        | (r, st2, tr2) => (r, st2, tr1 ++ tr2)
        end
    end.

(** A call on the environment: it is recorded, and returns or raises as the
    world says. *)
Definition call {A} (ev : event) (r : result A) : M A :=
  fun st => (r, st, [ev]).

Definition emit (ev : event) : M unit := call ev (Ok tt).

(** A library function that leaves no record. *)
Definition lift {A} (r : result A) : M A := fun st => (r, st, []).

Definition get : M state := fun st => (Ok st, st, []).

Definition modify (f : state -> state) : M unit := fun st => (Ok tt, f st, []).

Definition set_last_link (l : option string) : M unit :=
  modify (fun st => mkState l (evaluation_container st) (artifacts_image st) (size st)).
Definition set_evaluation_container (v : pyval) : M unit :=
  modify (fun st => mkState (last_link st) v (artifacts_image st) (size st)).
Definition set_artifacts_image (v : pyval) : M unit :=
  modify (fun st => mkState (last_link st) (evaluation_container st) v (size st)).
Definition set_size (v : pyval) : M unit :=
  modify (fun st => mkState (last_link st) (evaluation_container st) (artifacts_image st) v).

(** [for x in l: f x]. *)
Fixpoint for_each {A} (l : list A) (f : A -> M unit) : M unit :=
  match l with
  | [] => ret tt
  | x :: l' => f x ;;; for_each l' f
  end.

(** [d[k]] on a dictionary. *)
Definition getitem_d (d : gmap string pyval) (k : string) : M pyval :=
  match d !! k with
  | Some v => ret v
  | None => raise (KeyError k)
  end.

(** [v[k]] on any value: only a dictionary can be subscripted by a name. *)
Definition getitem (v : pyval) (k : string) : M pyval :=
  match v with
  | PDict d => getitem_d d k
  | _ => raise (LibraryError "TypeError" "string indices or subscripts")
  end.

(** [os.path.join(a, b)] for two components. *)
Definition path_join (a b : string) : string :=
  if String.prefix "/" b then b
  else if String.eqb a "" then b
  else if String.eqb (String.substring (String.length a - 1) 1 a) "/" then a +:+ b
  else a +:+ "/" +:+ b.

(** [min(a, b)]: the first argument unless the second is smaller. *)
Definition py_min (a b : Q) : Q := if Qle_bool a b then a else b.

(** ** The module *)

Section Runner.

Context (K : constants).

(** Lines 27-36. *)
Definition get_token_from_shell_config (w : world) : M pyval :=
  let path := path_join (ROOT K) "config" in
  config <- call (ReadConfig path) (w_config w) ;;
  let k := DT1_TOKEN_CONFIG_KEY K in
  match config !! k with
  | None => raise (Exception "Please set a Duckietown Token using the command `dts tok set`.")
  | Some token => ret token
  end.

(** The manifest of lines 157-204. *)
Definition compose_text (w : world) (solution_container evaluation_container_ : pyval)
    (USERNAME : string) (UID : Z)
    (challenge_solution_output_dir challenge_results_dir
     challenge_description_dir challenge_evaluation_output_dir : string) : string :=
  let volumes :=
    "        - " +:+ challenge_solution_output_dir +:+ ":/" +:+ CHALLENGE_SOLUTION_OUTPUT_DIR K +:+ nl +:+
    "        - " +:+ challenge_results_dir +:+ ":/" +:+ CHALLENGE_RESULTS_DIR K +:+ nl +:+
    "        - " +:+ challenge_description_dir +:+ ":/" +:+ CHALLENGE_DESCRIPTION_DIR K +:+ nl +:+
    "        - " +:+ challenge_evaluation_output_dir +:+ ":/" +:+ CHALLENGE_EVALUATION_OUTPUT_DIR K +:+ nl in
  let environment :=
    "        environment:" +:+ nl +:+
    "            username: " +:+ USERNAME +:+ nl +:+
    "            uid: " +:+ pretty UID +:+ nl +:+
    "        " +:+ nl +:+
    "        volumes:" +:+ nl in
  nl +:+
  "        " +:+ nl +:+
  "    version: '3'" +:+ nl +:+
  "    services:" +:+ nl +:+
  "      solution:" +:+ nl +:+
  "      " +:+ nl +:+
  "        image: " +:+ py_str w solution_container +:+ nl +:+
  environment +:+ volumes +:+
  "        " +:+ nl +:+
  "      evaluator:" +:+ nl +:+
  "        image: " +:+ py_str w evaluation_container_ +:+ " " +:+ nl +:+
  environment +:+ volumes +:+
  "    # volumes:" +:+ nl +:+
  "    #   CHALLENGE_SOLUTION_OUTPUT_DIR:" +:+ nl +:+
  "    #   CHALLENGE_EVALUATION_OUTPUT_DIR:" +:+ nl +:+
  "    #   CHALLENGE_DESCRIPTION_DIR:" +:+ nl +:+
  "    #   CHALLENGE_RESULTS_DIR:" +:+ nl +:+
  "    #   " +:+ nl +:+
  "    #   " +:+ nl +:+
  "    ".

(** The image-build descriptor of lines 208-212. *)
Definition dockerfile_text (w : world) (job_id : pyval) : string :=
  nl +:+ "FROM scratch" +:+ nl +:+ "COPY . /jobs/" +:+ py_str w job_id +:+ nl +:+
  "            " +:+ nl +:+ "            ".

Definition LAST : string := "last".

(** Lines 129-218 of [go_]: the working directory, the [last] link, the
    fields of the job, the protocol check, the four directories, the two
    files.  It returns [wd] and [dcfn]. *)
Definition sandbox (w : world) (res : gmap string pyval) (job_id : pyval)
  : M (string * string) :=
  wd <- call (Mkdtemp "tmp-duckietown-challenge-evaluator-") (w_mkdtemp w) ;;
  st <- get ;;
  (match last_link st with
   | Some _ => call (Unlink LAST) (w_unlink w) ;;; set_last_link None
   | None => ret tt
   end) ;;;
  call (Symlink wd LAST) (w_symlink w) ;;;
  set_last_link (Some wd) ;;;
  challenge_name <- getitem_d res "challenge_name" ;;
  parameters <- getitem_d res "parameters" ;;
  solution_container <- getitem parameters "hash" ;;
  challenge_parameters <- getitem_d res "challenge_parameters" ;;
  emit (Stdout (py_str w challenge_parameters)) ;;;
  evaluation_protocol <- getitem challenge_parameters "protocol" ;;
  (if py_eq_str evaluation_protocol "p1" then ret tt
   else raise (AssertionError "evaluation_protocol == 'p1'")) ;;;
  container <- getitem challenge_parameters "container" ;;
  set_evaluation_container container ;;;
  let UID := w_getuid w in
  USERNAME <- lift (w_getuser w) ;;
  let challenge_solution_output_dir := path_join wd (CHALLENGE_SOLUTION_OUTPUT_DIR K) in
  let challenge_results_dir := path_join wd (CHALLENGE_RESULTS_DIR K) in
  let challenge_description_dir := path_join wd (CHALLENGE_DESCRIPTION_DIR K) in
  let challenge_evaluation_output_dir := path_join wd (CHALLENGE_EVALUATION_OUTPUT_DIR K) in
  for_each [challenge_solution_output_dir; challenge_results_dir;
            challenge_description_dir; challenge_evaluation_output_dir]
           (fun d => call (Makedirs d) (w_makedirs w d)) ;;;
  let compose := compose_text w solution_container container USERNAME UID
                   challenge_solution_output_dir challenge_results_dir
                   challenge_description_dir challenge_evaluation_output_dir in
  let df := path_join wd "Dockerfile" in
  call (WriteFile df (dockerfile_text w job_id)) (w_write w df (dockerfile_text w job_id)) ;;;
  let dcfn := path_join wd "docker-compose.yaml" in
  emit (Stdout compose) ;;;
  call (WriteFile dcfn compose) (w_write w dcfn compose) ;;;
  ret (wd, dcfn).

Definition pull_cmd (dcfn : string) : string := "docker-compose -f " +:+ dcfn +:+ " pull".
Definition up_cmd (dcfn : string) : string := "docker-compose -f " +:+ dcfn +:+ " up".

(** [ret = os.system(cmd)]. *)
Definition system (w : world) (cmd : string) : M Z :=
  call (System cmd) (Ok (w_system w cmd)).

(** Lines 220-231 of [go_]: the optional pull, then up. *)
Definition runner (w : world) (do_pull : bool) (dcfn : string) : M unit :=
  (if do_pull then
     ret_ <- system w (pull_cmd dcfn) ;;
     if negb (Z.eqb ret_ 0) then raise (Exception "Could not run docker-compose pull.")
     else ret tt
   else ret tt) ;;;
  ret_ <- system w (up_cmd dcfn) ;;
  if negb (Z.eqb ret_ 0) then raise (Exception "Could not run docker-compose.")
  else ret tt.

(** Lines 234-240 of [go_]: the results of the evaluation, or a result made
    of the failure to read them. *)
Definition extract (w : world) (wd : string) : M ChallengeResults :=
  try_except (call (ReadChallengeResults wd) (w_read_challenge_results w wd))
    (fun e =>
       trace <- lift (w_format_exc_limit w e) ;;
       let msg := "Could not read the challenge results:" +:+ nl +:+ trace in
       emit (Log LogError msg) ;;;
       let status := ERROR in
       ret (mkChallengeResults status msg ∅)).

(** Lines 242-261 of [go_]: build, resolve, measure and push the image of
    the job when a docker user name is known. *)
Definition publish (w : world) (docker_username : option string)
    (wd : string) (job_id : pyval) : M unit :=
  match docker_username with
  | Some username =>
      call DockerFromEnv (w_docker_from_env w) ;;;
      let tag := username +:+ "/jobs:" +:+ py_str w job_id in
      out <- call (ImagesBuild wd tag) (w_images_build w) ;;
      for_each out (fun line => emit (Stdout (py_str w line))) ;;;
      image <- call (ImagesGet tag) (w_images_get w) ;;
      let artifacts_image_ := tag +:+ "@" +:+ image_id image in
      set_artifacts_image (PStr artifacts_image_) ;;;
      size_ <- getitem_d (image_attrs image) "Size" ;;
      set_size size_ ;;;
      emit (Stdout artifacts_image_) ;;;
      emit (Log LogInfo ("Pushing image " +:+ tag)) ;;;
      call (ImagesPush tag) (w_images_push w)
  | None =>
      set_artifacts_image PNone ;;;
      set_size PNone
  end.

(** The body of the [try] statement of [go_], lines 129-261.  Its value is
    [cr] as the statement leaves it when no exception is raised. *)
Definition go_try (w : world) (res : gmap string pyval) (job_id : pyval)
    (do_pull : bool) (docker_username : option string) : M ChallengeResults :=
  files <- sandbox w res job_id ;;
  let wd := fst files in
  let dcfn := snd files in
  runner w do_pull dcfn ;;;
  cr <- extract w wd ;;
  publish w docker_username wd job_id ;;;
  ret cr.

(** The handlers of lines 264-270: [NothingLeft] goes on; any other
    exception becomes a result. *)
Definition go_except (w : world) (e : exn) : M ChallengeResults :=
  match e with
  | NothingLeft _ => raise e
  | _ =>
      let msg := "Uncaught exception:" +:+ nl +:+ w_format_exc w e in
      emit (Log LogError msg) ;;;
      let status := ERROR in
      ret (mkChallengeResults status msg ∅)
  end.

(** The [try] statement of [go_], lines 128-270: the one result of the job. *)
Definition job_result (w : world) (res : gmap string pyval) (job_id : pyval)
    (do_pull : bool) (docker_username : option string) : M ChallengeResults :=
  try_except (go_try w res job_id do_pull docker_username) (go_except w).

(** Lines 272-274: the reported [stats]. *)
Definition stats_of (cr : ChallengeResults) (st : state) : gmap string pyval :=
  let stats := get_stats cr in
  if truthy (artifacts_image st)
  then <["artifacts" := PDict (<["size" := size st]> {["image" := artifacts_image st]})]> stats
  else stats.

(** Lines 106-283. *)
Definition go_ (submission_id : option string) (do_pull : bool)
    (docker_username : option string) (w : world) : M unit :=
  token <- get_token_from_shell_config w ;;
  let machine_id := w_hostname w in
  let evaluator_version := version K in
  let process_id := pretty (w_pid w) in
  res <- call (WorkSubmission token submission_id machine_id process_id evaluator_version)
              (w_work_submission w) ;;
  match res !! "job_id" with
  | None =>
      explanation <- getitem_d res "msg" ;;
      let msg := "Could not find jobs: " +:+ py_str w explanation in
      raise (NothingLeft msg)
  | Some job_id =>
      emit (Log LogInfo ("Evaluating job " +:+ py_str w job_id)) ;;;
      set_evaluation_container PNone ;;;
      set_artifacts_image PNone ;;;
      set_size PNone ;;;
      cr <- job_result w res job_id do_pull docker_username ;;
      st <- get ;;
      let stats := stats_of cr st in
      call (ReportJob token job_id stats (get_status cr) machine_id process_id
                      (evaluation_container st) evaluator_version)
           (w_report w)
  end.

(** *** The two driving modes, lines 65-99 *)

Definition timeout : Q := 5.0.
Definition max_multiplier : Q := 10.

(** The handlers of the continuous loop, lines 75-85. *)
Definition loop_except (multiplier : Q) (e : exn) : M Q :=
  match e with
  | NothingLeft _ =>
      emit (Stderr ".") ;;;
      ret multiplier
  | ConnectionError _ =>
      emit (Log LogError (exn_str e)) ;;;
      ret (multiplier * 1.5)%Q
  | _ =>
      let msg := "Uncaught exception: " +:+ exn_str e in
      emit (Log LogError msg) ;;;
      ret (multiplier * 1.5)%Q
  end.

(** One turn of [while True], lines 71-87; its value is the multiplier the
    next turn starts with. *)
Definition loop_body (do_pull : bool) (docker_username : option string)
    (w : world) (multiplier : Q) : M Q :=
  let multiplier := py_min multiplier max_multiplier in
  multiplier <- try_except
                  (go_ None do_pull docker_username w ;;; ret 1.0%Q)
                  (loop_except multiplier) ;;
  emit (Sleep (timeout * multiplier)%Q) ;;;
  ret multiplier.

(** The first turns of [while True], one for each world of [ws]. *)
Fixpoint continuous_loop (do_pull : bool) (docker_username : option string)
    (ws : list world) (multiplier : Q) : M Q :=
  match ws with
  | [] => ret multiplier
  | w :: ws' =>
      multiplier <- loop_body do_pull docker_username w multiplier ;;
      continuous_loop do_pull docker_username ws' multiplier
  end.

(** Lines 95-99: one pass per listed submission, the k-th one in the k-th
    world of [ws]. *)
Fixpoint for_submissions (do_pull : bool) (docker_username : option string)
    (submissions : list (option string)) (ws : nat -> world) (k : nat) : M unit :=
  match submissions with
  | [] => ret tt
  | submission_id :: submissions' =>
      try_except (go_ submission_id do_pull docker_username (ws k))
        (fun e =>
           match e with
           | NothingLeft _ => emit (Log LogInfo "No submissions available to evaluate.")
           | _ => raise e
           end) ;;;
      for_submissions do_pull docker_username submissions' ws (S k)
  end.

(** What the start of the program finds, and its parsed arguments. *)
Record startup := mkStartup {
  s_check_docker_environment : result unit;
  s_check_executable_exists : result unit;
  s_get_dockerhub_username : result string;
}.

Record arguments := mkArguments {
  continuous : bool;
  no_pull : bool;
  extra : list string;
}.

(** Lines 39-99.  In continuous mode the loop never ends: [turns] bounds the
    part of it that is looked at, one world of [ws] for each turn. *)
Definition dt_challenges_evaluator (s : startup) (parsed : arguments)
    (ws : nat -> world) (turns : nat) : M unit :=
  emit (Log LogInfo ("dt-challenges-evaluator " +:+ version K)) ;;;
  lift (s_check_docker_environment s) ;;;
  try_except (lift (s_check_executable_exists s))
    (fun e =>
       match e with
       | InvalidEnvironment _ =>
           let msg := "Could not find docker-compose. Please install it." +:+ nl +:+ nl +:+
                      "See: https://docs.docker.com/compose/install/#install-compose" in
           raise (InvalidEnvironment msg)
       | _ => raise e
       end) ;;;
  let do_pull := negb (no_pull parsed) in
  docker_username <-
    try_except (username <- lift (s_get_dockerhub_username s) ;; ret (Some username))
      (fun _ =>
         let msg := "Skipping push because docker_username is not set." in
         emit (Log LogDebug msg) ;;;
         ret None) ;;
  if continuous parsed then
    continuous_loop do_pull docker_username (map ws (seq 0 turns)) 1.0%Q ;;;
    ret tt
  else
    let submissions := match extra parsed with
                       | [] => [None]
                       | ids => map Some ids
                       end in
    for_submissions do_pull docker_username submissions ws 0.

End Runner.

(** ** Sample inputs *)

(** The directory names are those of section 3 of the specification; the
    other constants are sample values. *)
Definition K0 : constants :=
  mkConstants "/home/duckie/.dt-shell" "token_dt1" "1.0"
    "solution-output" "results" "description" "evaluation-output".

Definition job (protocol : string) : gmap string pyval :=
  <["job_id" := PInt 7]>
  (<["challenge_name" := PStr "lane-following"]>
  (<["parameters" := PDict {["hash" := PStr "sha256:ab"]}]>
  {["challenge_parameters" :=
      PDict (<["protocol" := PStr protocol]> {["container" := PStr "evaluator:1"]})]})).

Definition no_job : gmap string pyval := {["msg" := PStr "no jobs"]}.

Definition good_results : ChallengeResults :=
  mkChallengeResults SUCCESS "done" {["score" := PInt 10]}.

Definition exn_class (e : exn) : string :=
  match e with
  | NothingLeft _ => "NothingLeft"
  | ConnectionError _ => "ConnectionError"
  | InvalidEnvironment _ => "InvalidEnvironment"
  | AssertionError _ => "AssertionError"
  | KeyError _ => "KeyError"
  | Exception _ => "Exception"
  | LibraryError cls _ => cls
  end.

(** A rendering in the manner of [traceback.format_exc], without the frames. *)
Definition sample_format_exc (e : exn) : string :=
  "Traceback (most recent call last):" +:+ nl +:+
  match e with
  | AssertionError condition => "    assert " +:+ condition +:+ nl
  | _ => ""
  end +:+ exn_class e +:+
  (if String.eqb (exn_str e) "" then "" else ": " +:+ exn_str e) +:+ nl.

(** A world in which everything outside the listed answers succeeds. *)
Definition sample_world (submission : result (gmap string pyval))
    (system_ : string -> Z) (results : result ChallengeResults)
    (build : result (list pyval)) (get_ : result Image) (push report : result unit)
  : world :=
  mkWorld (Ok {["token_dt1" := PStr "secret"]}) "host" 4242 submission
    (Ok "/tmp/tmp-duckietown-challenge-evaluator-x1") (Ok tt) (Ok tt)
    1000 (Ok "duckie") (fun _ => Ok tt) (fun _ _ => Ok tt) system_
    (fun _ => results) (Ok tt) build get_ push report
    (fun _ => "<object>") sample_format_exc (fun e => Ok (sample_format_exc e)).

Definition sample_image : Image := mkImage "sha256:cd" {["Size" := PInt 2048]}.

Definition all_zero (cmd : string) : Z := 0.
Definition pull_fails (cmd : string) : Z :=
  if String.eqb cmd (pull_cmd "/tmp/tmp-duckietown-challenge-evaluator-x1/docker-compose.yaml")
  then 256 else 0.
Definition up_fails (cmd : string) : Z :=
  if String.eqb cmd (up_cmd "/tmp/tmp-duckietown-challenge-evaluator-x1/docker-compose.yaml")
  then 256 else 0.

Definition w_good : world :=
  sample_world (Ok (job "p1")) all_zero (Ok good_results)
    (Ok []) (Ok sample_image) (Ok tt) (Ok tt).
Definition w_no_job : world :=
  sample_world (Ok no_job) all_zero (Ok good_results)
    (Ok []) (Ok sample_image) (Ok tt) (Ok tt).
Definition w_offline : world :=
  sample_world (Raise (ConnectionError "server unreachable")) all_zero (Ok good_results)
    (Ok []) (Ok sample_image) (Ok tt) (Ok tt).
Definition w_p2 : world :=
  sample_world (Ok (job "p2")) all_zero (Ok good_results)
    (Ok []) (Ok sample_image) (Ok tt) (Ok tt).
Definition w_p3 : world :=
  sample_world (Ok (job "p3")) all_zero (Ok good_results)
    (Ok []) (Ok sample_image) (Ok tt) (Ok tt).
Definition w_pull_fails : world :=
  sample_world (Ok (job "p1")) pull_fails (Ok good_results)
    (Ok []) (Ok sample_image) (Ok tt) (Ok tt).
Definition w_up_fails : world :=
  sample_world (Ok (job "p1")) up_fails (Ok good_results)
    (Ok []) (Ok sample_image) (Ok tt) (Ok tt).
Definition w_no_results : world :=
  sample_world (Ok (job "p1")) all_zero (Raise (LibraryError "IOError" "no results file"))
    (Ok []) (Ok sample_image) (Ok tt) (Ok tt).
Definition w_build_fails : world :=
  sample_world (Ok (job "p1")) all_zero (Ok good_results)
    (Raise (LibraryError "BuildError" "build failed")) (Ok sample_image) (Ok tt) (Ok tt).
Definition w_push_fails : world :=
  sample_world (Ok (job "p1")) all_zero (Ok good_results)
    (Ok []) (Ok sample_image) (Raise (LibraryError "APIError" "push refused")) (Ok tt).
(** The image has no size; the scores of the results file use the name
    artifacts. *)
Definition w_no_size : world :=
  sample_world (Ok (job "p1")) all_zero (Ok good_results)
    (Ok []) (Ok (mkImage "sha256:cd" ∅)) (Ok tt) (Ok tt).
Definition w_artifacts_score : world :=
  sample_world (Ok (job "p1")) all_zero
    (Ok (mkChallengeResults SUCCESS "done" {["artifacts" := PInt 0]}))
    (Ok []) (Ok sample_image) (Ok tt) (Ok tt).
Definition w_report_fails : world :=
  sample_world (Ok (job "p1")) all_zero (Ok good_results)
    (Ok []) (Ok sample_image) (Ok tt) (Raise (ConnectionError "report lost")).

Definition st0 : state := mkState None PNone PNone PNone.

(** A pass in which a library raises the [NothingLeft] of this module. *)
Definition w_no_work_left : world :=
  sample_world (Ok (job "p1")) all_zero (Ok good_results)
    (Raise (NothingLeft "nothing to build")) (Ok sample_image) (Ok tt) (Ok tt).

(** An answer of the server with neither a job nor an explanation. *)
Definition w_mute : world :=
  sample_world (Ok ∅) all_zero (Ok good_results) (Ok []) (Ok sample_image) (Ok tt) (Ok tt).

(** Starts of the program: no docker user name; no docker-compose. *)
Definition no_docker_user : startup :=
  mkStartup (Ok tt) (Ok tt) (Raise (Exception "docker user name not found")).

Definition no_docker_compose : startup :=
  mkStartup (Ok tt) (Raise (InvalidEnvironment "docker-compose not found")) (Ok "duckie").

(** ** Reading a run *)

Definition outcome {A} (x : result A * state * list event) : result A := fst (fst x).
Definition final {A} (x : result A * state * list event) : state := snd (fst x).
Definition trace {A} (x : result A * state * list event) : list event := snd x.

Definition is_report (ev : event) : bool :=
  match ev with ReportJob _ _ _ _ _ _ _ _ => true | _ => false end.
Definition is_system (ev : event) : bool :=
  match ev with System _ => true | _ => false end.
Definition is_docker (ev : event) : bool :=
  match ev with
  | DockerFromEnv | ImagesBuild _ _ | ImagesGet _ | ImagesPush _ => true
  | _ => false
  end.
Definition is_poll (ev : event) : bool :=
  match ev with WorkSubmission _ _ _ _ _ => true | _ => false end.
Definition is_sleep (ev : event) : bool :=
  match ev with Sleep _ => true | _ => false end.

(** The calls each part of a pass may make. *)
Definition sandbox_event (ev : event) : bool :=
  match ev with
  | Mkdtemp _ | Unlink _ | Symlink _ _ | Stdout _ | Makedirs _ | WriteFile _ _ => true
  | _ => false
  end.
Definition runner_event (ev : event) : bool := is_system ev.
Definition extract_event (ev : event) : bool :=
  match ev with ReadChallengeResults _ | Log LogError _ => true | _ => false end.
Definition publish_event (ev : event) : bool :=
  match ev with
  | DockerFromEnv | ImagesBuild _ _ | ImagesGet _ | ImagesPush _
  | Stdout _ | Log LogInfo _ => true
  | _ => false
  end.
Definition try_event (ev : event) : bool :=
  sandbox_event ev || runner_event ev || extract_event ev || publish_event ev.

(** The durations slept, in order. *)
Fixpoint sleeps (tr : list event) : list Q :=
  match tr with
  | [] => []
  | Sleep d :: tr' => d :: sleeps tr'
  | _ :: tr' => sleeps tr'
  end.

(** An answer that, if it raises, raises an exception of [P]. *)
Definition raises {A} (P : exn -> Prop) (r : result A) : Prop :=
  match r with Raise e => P e | Ok _ => True end.

(** An exception that is not the module's own [NothingLeft]. *)
Definition spared (e : exn) : Prop := is_NothingLeft e = false.

(** The libraries called inside the [try] statement of [go_] answer with
    exceptions of [P] only. *)
Record answers (P : exn -> Prop) (w : world) : Prop := mkAnswers {
  ans_mkdtemp : raises P (w_mkdtemp w);
  ans_unlink : raises P (w_unlink w);
  ans_symlink : raises P (w_symlink w);
  ans_getuser : raises P (w_getuser w);
  ans_makedirs : forall d, raises P (w_makedirs w d);
  ans_write : forall p c, raises P (w_write w p c);
  ans_format_exc_limit : forall e, raises P (w_format_exc_limit w e);
  ans_docker_from_env : raises P (w_docker_from_env w);
  ans_images_build : raises P (w_images_build w);
  ans_images_get : raises P (w_images_get w);
  ans_images_push : raises P (w_images_push w);
}.

(** No library raises the class [NothingLeft], which this module defines. *)
Definition spares_NothingLeft (w : world) : Prop := answers spared w.

(** A job was acquired: the token was found and the server answered with a
    job identifier. *)
Record acquired (K : constants) (w : world) (token : pyval)
    (res : gmap string pyval) (job_id : pyval) : Prop := mkAcquired {
  acq_config : exists config, w_config w = Ok config /\
                              config !! DT1_TOKEN_CONFIG_KEY K = Some token;
  acq_submission : w_work_submission w = Ok res;
  acq_job_id : res !! "job_id" = Some job_id;
}.

(** The locals of [go_] as lines 125-127 set them. *)
Definition fresh_locals (st : state) : state :=
  mkState (last_link st) PNone PNone PNone.

(** The calls of a pass up to the start of its [try] statement. *)
Definition acquisition (K : constants) (submission_id : option string) (w : world)
    (token job_id : pyval) : list event :=
  [ReadConfig (path_join (ROOT K) "config");
   WorkSubmission token submission_id (w_hostname w) (pretty (w_pid w)) (version K);
   Log LogInfo ("Evaluating job " +:+ py_str w job_id)].

(** The report of a result, as lines 272-283 make it from the state the
    [try] statement left. *)
Definition report_of (K : constants) (w : world) (token job_id : pyval)
    (cr : ChallengeResults) (st : state) : event :=
  ReportJob token job_id (stats_of cr st) (get_status cr) (w_hostname w)
    (pretty (w_pid w)) (evaluation_container st) (version K).

(** The result made of an exception by the handler of line 266. *)
Definition error_result (w : world) (e : exn) : ChallengeResults :=
  mkChallengeResults ERROR ("Uncaught exception:" +:+ nl +:+ w_format_exc w e) ∅.

(** A computation makes calls of [Pev] only, raises exceptions of [Pex]
    only, and keeps [Inv]. *)
Definition obeys {A} (Pev : event -> bool) (Pex : exn -> Prop) (Inv : state -> Prop)
    (c : M A) : Prop :=
  forall st, Inv st ->
    forallb Pev (trace (c st)) = true /\
    Inv (final (c st)) /\
    raises Pex (outcome (c st)).

(** The multiplier a turn of the loop ends with, given the one it was
    capped to and the way [go_] ended. *)
Definition next_multiplier (r : result unit) (capped : Q) : Q :=
  match r with
  | Ok _ => 1.0
  | Raise (NothingLeft _) => capped
  | Raise _ => capped * 1.5
  end%Q.

(** What the handlers of the loop write. *)
Definition loop_log (r : result unit) : list event :=
  match r with
  | Ok _ => []
  | Raise (NothingLeft _) => [Stderr "."]
  | Raise (ConnectionError msg) => [Log LogError msg]
  | Raise e => [Log LogError ("Uncaught exception: " +:+ exn_str e)]
  end.

(** A world that differs in the answer of the report call only. *)
Definition with_report (r : result unit) (w : world) : world :=
  mkWorld (w_config w) (w_hostname w) (w_pid w) (w_work_submission w)
    (w_mkdtemp w) (w_unlink w) (w_symlink w) (w_getuid w) (w_getuser w)
    (w_makedirs w) (w_write w) (w_system w) (w_read_challenge_results w)
    (w_docker_from_env w) (w_images_build w) (w_images_get w) (w_images_push w)
    r (w_repr w) (w_format_exc w) (w_format_exc_limit w).

(** The exceptions of the runner, lines 224-225 and 230-231. *)
Definition pull_error : exn := Exception "Could not run docker-compose pull.".
Definition up_error : exn := Exception "Could not run docker-compose.".

(** The result made of an unreadable results file, lines 237-240. *)
Definition unreadable (t : string) : ChallengeResults :=
  mkChallengeResults ERROR ("Could not read the challenge results:" +:+ nl +:+ t) ∅.

(** A computation that never returns. *)
Definition fails {A} (c : M A) : Prop :=
  forall st, exists e, outcome (c st) = Raise e.

(** The tag of the image of a job, line 246, and its reference, line 252. *)
Definition job_tag (w : world) (username : string) (job_id : pyval) : string :=
  username +:+ "/jobs:" +:+ py_str w job_id.

Definition image_ref (w : world) (username : string) (job_id : pyval)
    (image : Image) : string :=
  job_tag w username job_id +:+ "@" +:+ image_id image.

(** How a pass ends when it acquires no job, with the calls it made; [None]
    when it acquires one.  Lines 107-118. *)
Definition acquisition_failure (K : constants) (submission_id : option string)
    (w : world) : option (exn * list event) :=
  let read := ReadConfig (path_join (ROOT K) "config") in
  match w_config w with
  | Raise e => Some (e, [read])
  | Ok config =>
      match config !! DT1_TOKEN_CONFIG_KEY K with
      | None =>
          Some (Exception "Please set a Duckietown Token using the command `dts tok set`.",
                [read])
      | Some token =>
          let poll := WorkSubmission token submission_id (w_hostname w)
                        (pretty (w_pid w)) (version K) in
          match w_work_submission w with
          | Raise e => Some (e, [read; poll])
          | Ok res =>
              match res !! "job_id" with
              | Some _ => None
              | None =>
                  match res !! "msg" with
                  | Some explanation =>
                      Some (NothingLeft ("Could not find jobs: " +:+ py_str w explanation),
                            [read; poll])
                  | None => Some (KeyError "msg", [read; poll])
                  end
              end
          end
      end
  end.

(** Every sleep lasts the base interval at least, and two calls for work
    have a sleep between them.  [polled] tells whether work was asked for
    since the last sleep. *)
Fixpoint spaced (polled : bool) (tr : list event) : Prop :=
  match tr with
  | [] => True
  | WorkSubmission _ _ _ _ _ :: tr' => polled = false /\ spaced true tr'
  | Sleep d :: tr' => (timeout <= d)%Q /\ spaced false tr'
  | _ :: tr' => spaced polled tr'
  end.

(** The values the multiplier of the continuous loop takes.  They are
    dyadic rationals of a few bits, so the rational arithmetic of this model
    is that of the floating-point numbers of the source. *)
Definition multiplier_values : list Q :=
  [1; 1.5; 2.25; 3.375; 5.0625; 7.59375; 11.390625; 10; 15]%Q.

Definition among (vs : list Q) (m : Q) : Prop := Exists (fun v => (m == v)%Q) vs.

(** The submission identifiers work was asked for, in order. *)
Fixpoint polled_ids (tr : list event) : list (option string) :=
  match tr with
  | [] => []
  | WorkSubmission _ submission_id _ _ _ :: tr' => submission_id :: polled_ids tr'
  | _ :: tr' => polled_ids tr'
  end.

(** A world that differs in the parsed config file only. *)
Definition with_config (c : result (gmap string pyval)) (w : world) : world :=
  mkWorld c (w_hostname w) (w_pid w) (w_work_submission w)
    (w_mkdtemp w) (w_unlink w) (w_symlink w) (w_getuid w) (w_getuser w)
    (w_makedirs w) (w_write w) (w_system w) (w_read_challenge_results w)
    (w_docker_from_env w) (w_images_build w) (w_images_get w) (w_images_push w)
    (w_report w) (w_repr w) (w_format_exc w) (w_format_exc_limit w).

(** The calls a pass makes after the body of its [try] statement: the log
    of the handler of line 266 and the report. *)
Definition after_try (ev : event) : bool :=
  match ev with
  | Log LogError _ | ReportJob _ _ _ _ _ _ _ _ => true
  | _ => false
  end.

(** The calls of the two loops and of the start of the program themselves. *)
Definition driver_event (ev : event) : bool :=
  match ev with
  | Log _ _ | Stderr _ | Sleep _ => true
  | _ => false
  end.

(** The docker user name the passes run with: the one found at the start,
    or none when looking for it raised (lines 58-63). *)
Definition resolved_username (s : startup) : option string :=
  match s_get_dockerhub_username s with
  | Ok username => Some username
  | Raise _ => None
  end.

(** The calls of a sandbox build that returned, lines 129-218. *)
Definition sandbox_calls (K : constants) (w : world) (st : state) (wd : string)
    (challenge_parameters : pyval) (compose : string) (job_id : pyval) : list event :=
  [Mkdtemp "tmp-duckietown-challenge-evaluator-"] ++
  (match last_link st with Some _ => [Unlink LAST] | None => [] end) ++
  [Symlink wd LAST;
   Stdout (py_str w challenge_parameters);
   Makedirs (path_join wd (CHALLENGE_SOLUTION_OUTPUT_DIR K));
   Makedirs (path_join wd (CHALLENGE_RESULTS_DIR K));
   Makedirs (path_join wd (CHALLENGE_DESCRIPTION_DIR K));
   Makedirs (path_join wd (CHALLENGE_EVALUATION_OUTPUT_DIR K));
   WriteFile (path_join wd "Dockerfile") (dockerfile_text w job_id);
   Stdout compose;
   WriteFile (path_join wd "docker-compose.yaml") compose].

(** The [last] link after the first lines of the [try] statement
    (129-134), given the link before them. *)
Definition link_after (w : world) (link : option string) : option string :=
  match w_mkdtemp w with
  | Raise _ => link
  | Ok wd =>
      match link, w_unlink w with
      | Some _, Raise _ => link
      | _, _ => match w_symlink w with Ok _ => Some wd | Raise _ => None end
      end
  end.

(** The evaluation container of a job whose protocol is accepted. *)
Definition accepted (res : gmap string pyval) (container : pyval) : Prop :=
  exists cp proto,
    res !! "challenge_parameters" = Some (PDict cp) /\
    cp !! "protocol" = Some proto /\ py_eq_str proto "p1" = true /\
    cp !! "container" = Some container.

Definition is_read (ev : event) : bool :=
  match ev with ReadChallengeResults _ => true | _ => false end.

(** The calls of the three later stages of a pass: docker-compose, the
    results reader, the docker client. *)
Definition stage_call (ev : event) : bool := is_system ev || is_read ev || is_docker ev.

(** An event that is no [os.system] call, or is the up of some manifest. *)
Definition no_pull_event (ev : event) : Prop :=
  match ev with
  | System cmd => exists dcfn, cmd = up_cmd dcfn
  | _ => True
  end.

(** Whether a text occurs in another. *)
Definition mentions (needle text : string) : bool :=
  match String.index 0 needle text with
  | Some _ => true
  | None => false
  end.

(** The container line 143 assigns, when the fields of the job let the
    pass come to that line (lines 136-143). *)
Definition job_container (res : gmap string pyval) : option pyval :=
  match res !! "challenge_name" with
  | None => None
  | Some _ =>
      match res !! "parameters" with
      | Some (PDict parameters) =>
          match parameters !! "hash" with
          | None => None
          | Some _ =>
              match res !! "challenge_parameters" with
              | Some (PDict challenge_parameters) =>
                  match challenge_parameters !! "protocol" with
                  | None => None
                  | Some evaluation_protocol =>
                      if py_eq_str evaluation_protocol "p1"
                      then challenge_parameters !! "container"
                      else None
                  end
              | _ => None
              end
          end
      | _ => None
      end
  end.

(** The same, for a pass as a whole: the working directory has to be made
    and linked first (lines 129-134). *)
Definition assigned_container (w : world) (res : gmap string pyval)
    (link : option string) : option pyval :=
  match w_mkdtemp w with
  | Raise _ => None
  | Ok _ =>
      match (match link with Some _ => w_unlink w | None => Ok tt end) with
      | Raise _ => None
      | Ok _ =>
          match w_symlink w with
          | Raise _ => None
          | Ok _ => job_container res
          end
      end
  end.

(** ** Properties *)

Section Laws.

Context {A B : Type}.
Implicit Types (Pev : event -> bool) (Pex : exn -> Prop) (Inv : state -> Prop).

Lemma obeys_ret Pev Pex Inv (a : A) : obeys Pev Pex Inv (ret a).
Proof. intros st H. repeat split; auto. Qed.

Lemma obeys_raise Pev Pex Inv (e : exn) : Pex e -> obeys Pev Pex Inv (@raise A e).
Proof. intros He st H. repeat split; auto. Qed.

Lemma obeys_call Pev Pex Inv (ev : event) (r : result A) :
  Pev ev = true -> raises Pex r -> obeys Pev Pex Inv (call ev r).
Proof.
  intros Hev Hr st H. unfold call, trace, final, outcome; simpl.
  rewrite Hev. auto.
Qed.

Lemma obeys_lift Pev Pex Inv (r : result A) :
  raises Pex r -> obeys Pev Pex Inv (lift r).
Proof. intros Hr st H. repeat split; auto. Qed.

Lemma obeys_bind Pev Pex Inv (c : M A) (k : A -> M B) :
  obeys Pev Pex Inv c -> (forall a, obeys Pev Pex Inv (k a)) ->
  obeys Pev Pex Inv (bind c k).
Proof.
  intros Hc Hk st H. specialize (Hc st H). unfold bind, trace, final, outcome in *.
  destruct (c st) as [[r s1] t1]; simpl in *. destruct Hc as (Ht & Hs & Hr).
  destruct r as [a|e]; simpl; auto.
  specialize (Hk a s1 Hs). unfold trace, final, outcome in Hk.
  destruct (k a s1) as [[r2 s2] t2]; simpl in *. destruct Hk as (Ht2 & Hs2 & Hr2).
  rewrite forallb_app, Ht, Ht2. auto.
Qed.

Lemma obeys_try_except Pev Pex Pex' Inv (c : M A) (h : exn -> M A) :
  obeys Pev Pex' Inv c -> (forall e, Pex' e -> obeys Pev Pex Inv (h e)) ->
  obeys Pev Pex Inv (try_except c h).
Proof.
  intros Hc Hh st H. specialize (Hc st H). unfold try_except, trace, final, outcome in *.
  destruct (c st) as [[r s1] t1]; simpl in *. destruct Hc as (Ht & Hs & Hr).
  destruct r as [a|e]; simpl; auto.
  specialize (Hh e Hr s1 Hs). unfold trace, final, outcome in Hh.
  destruct (h e s1) as [[r2 s2] t2]; simpl in *. destruct Hh as (Ht2 & Hs2 & Hr2).
  rewrite forallb_app, Ht, Ht2. auto.
Qed.

Lemma obeys_weaken Pev Pev' Pex Pex' Inv (c : M A) :
  (forall ev, Pev ev = true -> Pev' ev = true) -> (forall e, Pex e -> Pex' e) ->
  obeys Pev Pex Inv c -> obeys Pev' Pex' Inv c.
Proof.
  intros Hev Hex Hc st H. destruct (Hc st H) as (Ht & Hs & Hr).
  repeat split; auto.
  - rewrite forallb_forall in *. auto.
  - unfold raises in *. destruct (outcome (c st)); auto.
Qed.

End Laws.

Lemma obeys_get Pev Pex Inv : obeys Pev Pex Inv get.
Proof. intros st H. repeat split; auto. Qed.

Lemma obeys_modify Pev Pex Inv (f : state -> state) :
  (forall st, Inv st -> Inv (f st)) -> obeys Pev Pex Inv (modify f).
Proof. intros Hf st H. unfold modify, trace, final, outcome; simpl. auto. Qed.

Lemma obeys_emit Pev Pex Inv (ev : event) : Pev ev = true -> obeys Pev Pex Inv (emit ev).
Proof. intros Hev. apply obeys_call; simpl; auto. Qed.

Lemma obeys_for_each {A} Pev Pex Inv (l : list A) (f : A -> M unit) :
  (forall x, obeys Pev Pex Inv (f x)) -> obeys Pev Pex Inv (for_each l f).
Proof.
  intros Hf. induction l as [|x l IH]; simpl.
  - apply obeys_ret.
  - apply obeys_bind; auto.
Qed.

Lemma obeys_getitem_d Pev Pex Inv d k :
  (forall e, spared e -> Pex e) -> obeys Pev Pex Inv (getitem_d d k).
Proof.
  intros Hown. unfold getitem_d. destruct (d !! k).
  - apply obeys_ret.
  - apply obeys_raise, Hown. reflexivity.
Qed.

Lemma obeys_getitem Pev Pex Inv v k :
  (forall e, spared e -> Pex e) -> obeys Pev Pex Inv (getitem v k).
Proof.
  intros Hown. destruct v; simpl; try (apply obeys_raise, Hown; reflexivity).
  apply obeys_getitem_d, Hown.
Qed.

(** Steps of the compositional proofs below. *)
Ltac obey_step :=
  first
    [ apply obeys_ret
    | apply obeys_get
    | apply obeys_bind; [| intros ]
    | apply obeys_emit; reflexivity
    | apply obeys_getitem_d; assumption
    | apply obeys_getitem; assumption
    | apply obeys_for_each; intros
    | apply obeys_modify; intros; simpl; solve [auto]
    | apply obeys_lift; solve [auto]
    | apply obeys_call; [reflexivity | solve [simpl; auto]]
    | match goal with
      | |- obeys _ _ _ (match ?x with _ => _ end) => destruct x
      end
    | match goal with
      | H : forall e, spared e -> ?P e |- obeys _ ?P _ (raise _) =>
          apply obeys_raise, H; reflexivity
      end ].

Ltac obey := repeat obey_step.

Section Stages.

Context (K : constants).
Implicit Types (Pex : exn -> Prop) (w : world).

Lemma sandbox_obeys Pex (Q : pyval -> pyval -> Prop) w res job_id :
  (forall e, spared e -> Pex e) -> answers Pex w ->
  obeys sandbox_event Pex (fun st => Q (artifacts_image st) (size st))
    (sandbox K w res job_id).
Proof.
  intros Hown Hw. destruct Hw.
  unfold sandbox, set_last_link, set_evaluation_container. obey.
Qed.

Lemma runner_obeys Pex Inv w do_pull dcfn :
  (forall e, spared e -> Pex e) ->
  obeys runner_event Pex Inv (runner w do_pull dcfn).
Proof.
  intros Hown. unfold runner, system. obey.
Qed.

Lemma extract_obeys Pex Inv w wd :
  answers Pex w -> obeys extract_event Pex Inv (extract w wd).
Proof.
  intros Hw. destruct Hw. unfold extract.
  apply obeys_try_except with (Pex' := fun _ => True).
  - apply obeys_call; [reflexivity | destruct (w_read_challenge_results w wd); exact I].
  - intros e _. obey.
Qed.

Lemma publish_obeys Pex w docker_username wd job_id :
  (forall e, spared e -> Pex e) -> answers Pex w ->
  obeys publish_event Pex (fun _ => True) (publish w docker_username wd job_id).
Proof.
  intros Hown Hw. destruct Hw.
  unfold publish, set_artifacts_image, set_size. obey.
Qed.

(** Without a docker user name nothing is asked of docker and no artifact
    is noted. *)
Lemma publish_None w wd job_id st :
  publish w None wd job_id st =
  (Ok tt, mkState (last_link st) (evaluation_container st) PNone PNone, []).
Proof. reflexivity. Qed.

Lemma try_event_sandbox ev : sandbox_event ev = true -> try_event ev = true.
Proof. unfold try_event. intros ->. reflexivity. Qed.
Lemma try_event_runner ev : runner_event ev = true -> try_event ev = true.
Proof. unfold try_event. intros ->. rewrite orb_true_r. reflexivity. Qed.
Lemma try_event_extract ev : extract_event ev = true -> try_event ev = true.
Proof. unfold try_event. intros ->. rewrite !orb_true_r. reflexivity. Qed.
Lemma try_event_publish ev : publish_event ev = true -> try_event ev = true.
Proof. unfold try_event. intros ->. rewrite !orb_true_r. reflexivity. Qed.

Lemma go_try_obeys Pex w res job_id do_pull docker_username :
  (forall e, spared e -> Pex e) -> answers Pex w ->
  obeys try_event Pex (fun _ => True)
    (go_try K w res job_id do_pull docker_username).
Proof.
  intros Hown Hw. unfold go_try.
  apply obeys_bind.
  { eapply obeys_weaken; [apply try_event_sandbox | |
      apply (sandbox_obeys Pex (fun _ _ => True)); assumption]. auto. }
  intros files. apply obeys_bind.
  { eapply obeys_weaken; [apply try_event_runner | | apply (runner_obeys Pex); assumption]. auto. }
  intros _. apply obeys_bind.
  { eapply obeys_weaken; [apply try_event_extract | | apply (extract_obeys Pex); assumption]. auto. }
  intros cr. apply obeys_bind.
  { eapply obeys_weaken; [apply try_event_publish | | apply (publish_obeys Pex); assumption]. auto. }
  intros _. apply obeys_ret.
Qed.

Lemma answers_any w : answers (fun _ => True) w.
Proof.
  split; intros; unfold raises;
    match goal with |- match ?r with _ => _ end => destruct r; exact I end.
Qed.

(** The handler of line 266 turns every exception but [NothingLeft] into a
    result. *)
Lemma go_except_spared w e st :
  spared e ->
  go_except w e st =
  (Ok (error_result w e), st, [Log LogError (cr_msg (error_result w e))]).
Proof. intros He. destruct e; try discriminate He; reflexivity. Qed.

Lemma go_except_NothingLeft w msg st :
  go_except w (NothingLeft msg) st = (Raise (NothingLeft msg), st, []).
Proof. reflexivity. Qed.

(** In any world the [try] statement makes calls of the stages only. *)
Lemma job_result_events w res job_id do_pull docker_username :
  obeys try_event (fun _ => True) (fun _ => True)
    (job_result K w res job_id do_pull docker_username).
Proof.
  unfold job_result.
  apply obeys_try_except with (Pex' := fun _ => True).
  - apply go_try_obeys; [auto | apply answers_any].
  - intros e _. destruct e; simpl; obey; apply obeys_raise; exact I.
Qed.


End Stages.

Lemma filter_none (P Q : event -> bool) (t : list event) :
  forallb P t = true -> (forall ev, P ev = true -> Q ev = false) ->
  List.filter Q t = [].
Proof.
  intros Ht HPQ. induction t as [|ev t IH]; simpl in *; [reflexivity|].
  apply andb_true_iff in Ht as [Hev Ht]. rewrite (HPQ ev Hev). auto.
Qed.

Lemma try_event_not_report ev : try_event ev = true -> is_report ev = false.
Proof. destruct ev; simpl; auto; discriminate. Qed.

Lemma try_event_not_poll ev : try_event ev = true -> is_poll ev = false.
Proof. destruct ev; simpl; auto; discriminate. Qed.

Lemma try_event_not_sleep ev : try_event ev = true -> is_sleep ev = false.
Proof. destruct ev; simpl; auto; discriminate. Qed.

Lemma sandbox_event_not_system ev : sandbox_event ev = true -> is_system ev = false.
Proof. destruct ev; simpl; auto; discriminate. Qed.

Lemma sandbox_event_not_docker ev : sandbox_event ev = true -> is_docker ev = false.
Proof. destruct ev; simpl; auto; discriminate. Qed.

Lemma runner_event_not_docker ev : runner_event ev = true -> is_docker ev = false.
Proof. destruct ev; simpl; auto; discriminate. Qed.

Lemma extract_event_not_docker ev : extract_event ev = true -> is_docker ev = false.
Proof. destruct ev as [[]| | | | | | | | | | | | | | | | |]; simpl; auto; discriminate. Qed.

Section Pass.

Context (K : constants).

Lemma get_token_acquired w token res job_id st :
  acquired K w token res job_id ->
  get_token_from_shell_config K w st =
  (Ok token, st, [ReadConfig (path_join (ROOT K) "config")]).
Proof.
  intros [(config & Hc & Ht) _ _].
  unfold get_token_from_shell_config, bind, call. rewrite Hc, Ht. reflexivity.
Qed.

(** A pass that acquired a job is its [try] statement followed by the
    report, unless the statement lets an exception through. *)
Lemma go_acquired submission_id do_pull docker_username w token res job_id st :
  acquired K w token res job_id ->
  go_ K submission_id do_pull docker_username w st =
  let x := job_result K w res job_id do_pull docker_username (fresh_locals st) in
  match outcome x with
  | Ok cr =>
      (w_report w, final x,
       acquisition K submission_id w token job_id ++ trace x ++
       [report_of K w token job_id cr (final x)])
  | Raise e => (Raise e, final x, acquisition K submission_id w token job_id ++ trace x)
  end.
Proof.
  intros Hacq. pose proof (get_token_acquired _ _ _ _ st Hacq) as Htok.
  destruct Hacq as [_ Hsub Hjob].
  unfold go_. unfold bind at 1. rewrite Htok.
  unfold bind at 1. unfold call at 1. rewrite Hsub, Hjob.
  unfold bind at 1. unfold emit at 1, call at 1.
  unfold bind at 1. unfold set_evaluation_container at 1, modify at 1.
  unfold bind at 1. unfold set_artifacts_image at 1, modify at 1.
  unfold bind at 1. unfold set_size at 1, modify at 1.
  unfold bind at 1. cbn [last_link evaluation_container artifacts_image size].
  change (mkState (last_link st) PNone PNone PNone) with (fresh_locals st).
  unfold outcome, final, trace.
  destruct (job_result K w res job_id do_pull docker_username (fresh_locals st))
    as [[r s1] t1].
  cbn [fst snd]. destruct r as [cr|e]; reflexivity.
Qed.

(** The result of the [try] statement when its body raises. *)
Lemma job_result_raised w res job_id do_pull docker_username st e :
  outcome (go_try K w res job_id do_pull docker_username st) = Raise e ->
  spared e ->
  job_result K w res job_id do_pull docker_username st =
  (Ok (error_result w e),
   final (go_try K w res job_id do_pull docker_username st),
   trace (go_try K w res job_id do_pull docker_username st) ++
   [Log LogError (cr_msg (error_result w e))]).
Proof.
  intros Hr He. unfold job_result, try_except, outcome, final, trace in *.
  destruct (go_try K w res job_id do_pull docker_username st) as [[r s1] t1].
  simpl in *. subst r. rewrite go_except_spared by exact He. reflexivity.
Qed.

(** The result of the [try] statement when its body ends. *)
Lemma job_result_returned w res job_id do_pull docker_username st cr :
  outcome (go_try K w res job_id do_pull docker_username st) = Ok cr ->
  job_result K w res job_id do_pull docker_username st =
  go_try K w res job_id do_pull docker_username st.
Proof.
  intros Hr. unfold job_result, try_except, outcome in *.
  destruct (go_try K w res job_id do_pull docker_username st) as [[r s1] t1].
  simpl in *. subst r. reflexivity.
Qed.


End Pass.

(** ** Stepping through a computation *)

Lemma outcome_bind {A B} (c : M A) (k : A -> M B) st :
  outcome (bind c k st) =
  match outcome (c st) with
  | Ok a => outcome (k a (final (c st)))
  | Raise e => Raise e
  end.
Proof.
  unfold bind, outcome, final. destruct (c st) as [[[a|e] s] t]; simpl; [|reflexivity].
  destruct (k a s) as [[r2 s2] t2]. reflexivity.
Qed.

Lemma step_ok {A B} (c : M A) (k : A -> M B) st a :
  outcome (c st) = Ok a -> outcome (bind c k st) = outcome (k a (final (c st))).
Proof. intros H. rewrite outcome_bind, H. reflexivity. Qed.

Lemma step_call {A B} ev (r : result A) a (k : A -> M B) st :
  r = Ok a -> outcome (bind (call ev r) k st) = outcome (k a st).
Proof. intros ->. apply (step_ok (call ev (Ok a))). reflexivity. Qed.

Lemma step_getitem_d {B} d key v (k : pyval -> M B) st :
  d !! key = Some v -> outcome (bind (getitem_d d key) k st) = outcome (k v st).
Proof.
  intros H. rewrite outcome_bind. unfold getitem_d. rewrite H. reflexivity.
Qed.

Lemma bind_raised {A B} (c : M A) (k : A -> M B) st e :
  outcome (c st) = Raise e -> bind c k st = (Raise e, final (c st), trace (c st)).
Proof.
  unfold bind, outcome, final, trace. destruct (c st) as [[r s] t]; simpl.
  intros ->. reflexivity.
Qed.

Lemma fails_raise {A} e : fails (@raise A e).
Proof. intros st. exists e. reflexivity. Qed.

Lemma fails_bind_l {A B} (c : M A) (k : A -> M B) : fails c -> fails (bind c k).
Proof.
  intros Hc st. destruct (Hc st) as [e He]. exists e.
  rewrite outcome_bind, He. reflexivity.
Qed.

Lemma fails_bind_r {A B} (c : M A) (k : A -> M B) :
  (forall a, fails (k a)) -> fails (bind c k).
Proof.
  intros Hk st. rewrite outcome_bind. destruct (outcome (c st)) as [a|e].
  - apply Hk.
  - exists e. reflexivity.
Qed.

Lemma fails_bind_getitem_d {B} d key v (k : pyval -> M B) :
  d !! key = Some v -> fails (k v) -> fails (bind (getitem_d d key) k).
Proof.
  intros Hd Hk st. rewrite (step_getitem_d _ _ _ _ _ Hd). apply Hk.
Qed.

(** The laws of [obeys] that keep what is known of the value bound. *)

Lemma obeys_bind_ret {A B} Pev Pex Inv (a : A) (k : A -> M B) :
  obeys Pev Pex Inv (k a) -> obeys Pev Pex Inv (bind (ret a) k).
Proof.
  intros Hk st Hst. specialize (Hk st Hst).
  unfold bind, ret. destruct (k a st) as [[r s2] t2]. exact Hk.
Qed.

Lemma obeys_bind_raise {A B} Pev Pex Inv (e : exn) (k : A -> M B) :
  Pex e -> obeys Pev Pex Inv (bind (raise e) k).
Proof. intros He st Hst. repeat split; auto. Qed.

Lemma obeys_bind_getitem_d {B} Pev Pex Inv d key (k : pyval -> M B) :
  Pex (KeyError key) ->
  (forall v, d !! key = Some v -> obeys Pev Pex Inv (k v)) ->
  obeys Pev Pex Inv (bind (getitem_d d key) k).
Proof.
  intros He Hk. unfold getitem_d. destruct (d !! key) as [v|] eqn:Hv.
  - apply obeys_bind_ret, Hk. reflexivity.
  - apply obeys_bind_raise, He.
Qed.

Lemma obeys_bind_getitem {B} Pev Pex Inv x key (k : pyval -> M B) :
  (forall e, spared e -> Pex e) ->
  (forall d v, x = PDict d -> d !! key = Some v -> obeys Pev Pex Inv (k v)) ->
  obeys Pev Pex Inv (bind (getitem x key) k).
Proof.
  intros He Hk. destruct x; simpl; try (apply obeys_bind_raise, He; reflexivity).
  apply obeys_bind_getitem_d; [apply He; reflexivity|]. intros v Hv. eapply Hk; eauto.
Qed.

Section Protocol.

Context (K : constants).

(** The [try] statement of [go_], stage by stage. *)
Lemma go_try_stages w res job_id do_pull docker_username st :
  go_try K w res job_id do_pull docker_username st =
  match sandbox K w res job_id st with
  | (Raise e, s1, t1) => (Raise e, s1, t1)
  | (Ok files, s1, t1) =>
      match runner w do_pull (snd files) s1 with
      | (Raise e, s2, t2) => (Raise e, s2, t1 ++ t2)
      | (Ok _, s2, t2) =>
          match extract w (fst files) s2 with
          | (Raise e, s3, t3) => (Raise e, s3, t1 ++ t2 ++ t3)
          | (Ok cr, s3, t3) =>
              match publish w docker_username (fst files) job_id s3 with
              | (Raise e, s4, t4) => (Raise e, s4, t1 ++ t2 ++ t3 ++ t4)
              | (Ok _, s4, t4) => (Ok cr, s4, t1 ++ t2 ++ t3 ++ t4)
              end
          end
      end
  end.
Proof.
  unfold go_try, bind.
  destruct (sandbox K w res job_id st) as [[[files|e] s1] t1]; [|reflexivity].
  destruct (runner w do_pull (snd files) s1) as [[[[]|e] s2] t2]; [|reflexivity].
  destruct (extract w (fst files) s2) as [[[cr|e] s3] t3]; [|reflexivity].
  destruct (publish w docker_username (fst files) job_id s3) as [[[[]|e] s4] t4];
    [|reflexivity].
  unfold ret. rewrite app_nil_r. reflexivity.
Qed.

(** With a protocol other than p1 the sandbox build never returns. *)
Lemma sandbox_unsupported w res job_id cp proto :
  res !! "challenge_parameters" = Some (PDict cp) ->
  cp !! "protocol" = Some proto ->
  py_eq_str proto "p1" = false ->
  fails (sandbox K w res job_id).
Proof.
  intros Hcp Hproto Hne. unfold sandbox.
  do 8 (apply fails_bind_r; intros ?).
  eapply fails_bind_getitem_d; [exact Hcp|].
  apply fails_bind_r; intros _.
  eapply fails_bind_getitem_d; [exact Hproto|].
  rewrite Hne. apply fails_bind_l, fails_raise.
Qed.

(** When the steps before the check succeed, it is the check that raises. *)
Lemma sandbox_assertion w res job_id st cp proto wd cn ps h :
  res !! "challenge_parameters" = Some (PDict cp) ->
  cp !! "protocol" = Some proto ->
  py_eq_str proto "p1" = false ->
  w_mkdtemp w = Ok wd ->
  (last_link st = None \/ w_unlink w = Ok tt) ->
  w_symlink w = Ok tt ->
  res !! "challenge_name" = Some cn ->
  res !! "parameters" = Some (PDict ps) ->
  ps !! "hash" = Some h ->
  outcome (sandbox K w res job_id st)
    = Raise (AssertionError "evaluation_protocol == 'p1'").
Proof.
  intros Hcp Hproto Hne Hmk Hlast Hsym Hcn Hps Hh.
  unfold sandbox.
  rewrite (step_call _ _ _ _ _ Hmk).
  rewrite (step_ok get _ _ st) by reflexivity.
  erewrite step_ok with (a := tt).
  2:{ destruct Hlast as [->|Hu]; [reflexivity|].
      destruct (last_link st); [|reflexivity].
      rewrite (step_call _ _ _ _ _ Hu). reflexivity. }
  rewrite (step_call _ _ _ _ _ Hsym).
  rewrite (step_ok (set_last_link _) _ _ tt) by reflexivity.
  rewrite (step_getitem_d _ _ _ _ _ Hcn), (step_getitem_d _ _ _ _ _ Hps).
  change (getitem (PDict ps) "hash") with (getitem_d ps "hash").
  rewrite (step_getitem_d _ _ _ _ _ Hh), (step_getitem_d _ _ _ _ _ Hcp).
  rewrite (step_ok (emit _) _ _ tt) by reflexivity.
  change (getitem (PDict cp) "protocol") with (getitem_d cp "protocol").
  rewrite (step_getitem_d _ _ _ _ _ Hproto), Hne.
  rewrite outcome_bind. reflexivity.
Qed.

(** A pass whose sandbox build raises: nothing is run, the exception is
    made a result and reported. *)
Lemma go_sandbox_raised submission_id do_pull docker_username w token res job_id st e :
  acquired K w token res job_id ->
  spares_NothingLeft w ->
  outcome (sandbox K w res job_id (fresh_locals st)) = Raise e ->
  let sb := sandbox K w res job_id (fresh_locals st) in
  go_ K submission_id do_pull docker_username w st
    = (w_report w, final sb,
       acquisition K submission_id w token job_id ++
       (trace sb ++ [Log LogError (cr_msg (error_result w e))]) ++
       [report_of K w token job_id (error_result w e) (final sb)]) /\
  forallb sandbox_event (trace sb) = true.
Proof.
  intros Hacq Hw He sb. subst sb.
  pose proof (sandbox_obeys K spared (fun _ _ => True) w res job_id (fun e H => H) Hw
                (fresh_locals st) I) as (Hev & _ & Hsp).
  split; [|exact Hev].
  rewrite He in Hsp. simpl in Hsp.
  assert (Htry : go_try K w res job_id do_pull docker_username (fresh_locals st)
                 = (Raise e, final (sandbox K w res job_id (fresh_locals st)),
                    trace (sandbox K w res job_id (fresh_locals st)))).
  { rewrite go_try_stages. unfold outcome, final, trace in *.
    destruct (sandbox K w res job_id (fresh_locals st)) as [[r s1] t1]; simpl in *.
    subst r. reflexivity. }
  rewrite (go_acquired K submission_id do_pull docker_username w token res job_id st Hacq).
  rewrite (job_result_raised K w res job_id do_pull docker_username (fresh_locals st) e)
    by (try rewrite Htry; auto).
  rewrite Htry. reflexivity.
Qed.

(** With a protocol other than p1 the build stops before line 143: the
    evaluation container is left as it was. *)
Lemma sandbox_unsupported_container w res job_id cp proto st :
  res !! "challenge_parameters" = Some (PDict cp) ->
  cp !! "protocol" = Some proto ->
  py_eq_str proto "p1" = false ->
  evaluation_container (final (sandbox K w res job_id st)) = evaluation_container st.
Proof.
  intros Hcp Hproto Hne.
  assert (Hsp : forall e, spared e -> (fun _ : exn => True) e) by auto.
  destruct (answers_any w).
  assert (H : obeys sandbox_event (fun _ => True)
                (fun s => evaluation_container s = evaluation_container st)
                (sandbox K w res job_id)).
  { unfold sandbox.
    do 8 (apply obeys_bind; [obey|intros ?]).
    apply obeys_bind_getitem_d; [exact I|intros cpv Hcpv].
    apply obeys_bind; [obey|intros _].
    apply obeys_bind_getitem; [exact Hsp|intros cp' proto' -> Hproto'].
    assert (cp' = cp) as -> by congruence.
    assert (proto' = proto) as -> by congruence.
    rewrite Hne. apply obeys_bind_raise. exact I. }
  apply (H st eq_refl).
Qed.

(** C4, amended.  For every job whose challenge_parameters.protocol is not
    p1 the sandbox build raises before any container runs: the pass makes no
    [os.system] call (neither docker-compose pull nor up) and makes one
    report, of a status-ERROR result, without stats and without evaluation
    container, the same whatever protocol was received.  When the steps
    before the check succeed, the exception is the failed assertion
    [evaluation_protocol == 'p1'] of line 141, which has no message of its
    own, and the message of the result is the traceback of that assertion
    after the words Uncaught exception: the protocol that was received is no
    part of it. *)
Theorem unsupported_protocol_is_reported submission_id do_pull docker_username w
    token res job_id st cp proto :
  acquired K w token res job_id ->
  spares_NothingLeft w ->
  res !! "challenge_parameters" = Some (PDict cp) ->
  cp !! "protocol" = Some proto ->
  py_eq_str proto "p1" = false ->
  exists e st1 tr1,
    sandbox K w res job_id (fresh_locals st) = (Raise e, st1, tr1) /\
    let tr := trace (go_ K submission_id do_pull docker_username w st) in
    List.filter is_system tr = [] /\
    List.filter is_report tr = [report_of K w token job_id (error_result w e) st1] /\
    report_of K w token job_id (error_result w e) st1
      = ReportJob token job_id ∅ ERROR (w_hostname w) (pretty (w_pid w)) PNone
          (version K) /\
    get_status (error_result w e) = ERROR /\
    (forall wd cn ps h,
       w_mkdtemp w = Ok wd ->
       last_link st = None \/ w_unlink w = Ok tt ->
       w_symlink w = Ok tt ->
       res !! "challenge_name" = Some cn ->
       res !! "parameters" = Some (PDict ps) ->
       ps !! "hash" = Some h ->
       e = AssertionError "evaluation_protocol == 'p1'" /\
       exn_str e = EmptyString /\
       cr_msg (error_result w e) =
         "Uncaught exception:" +:+ nl +:+
         w_format_exc w (AssertionError "evaluation_protocol == 'p1'")).
Proof.
  intros Hacq Hw Hcp Hproto Hne.
  destruct (sandbox_unsupported w res job_id cp proto Hcp Hproto Hne (fresh_locals st))
    as [e He].
  destruct (go_sandbox_raised submission_id do_pull docker_username w token res job_id
              st e Hacq Hw He) as [Hgo Hev].
  pose proof (sandbox_unsupported_container w res job_id cp proto (fresh_locals st)
                Hcp Hproto Hne) as Hec.
  pose proof (sandbox_obeys K spared (fun a _ => a = PNone) w res job_id (fun e H => H) Hw
                (fresh_locals st) eq_refl) as (_ & Hart & _).
  destruct (sandbox K w res job_id (fresh_locals st)) as [[r st1] tr1] eqn:Hsb.
  unfold outcome, final, trace in He, Hgo, Hev, Hec, Hart;
    simpl in He, Hgo, Hev, Hec, Hart. subst r.
  exists e, st1, tr1. split; [reflexivity|]. cbv zeta.
  rewrite Hgo. unfold trace, acquisition. cbn [snd].
  split; [|split; [|split; [|split; [reflexivity|]]]].
  - cbn [app List.filter is_system]. rewrite !List.filter_app.
    rewrite (filter_none sandbox_event is_system tr1 Hev sandbox_event_not_system).
    reflexivity.
  - cbn [app List.filter is_report]. rewrite !List.filter_app.
    rewrite (filter_none sandbox_event is_report tr1 Hev).
    + reflexivity.
    + intros ev H. apply try_event_not_report, try_event_sandbox, H.
  - unfold report_of, stats_of. rewrite Hart, Hec. reflexivity.
  - intros wd cn ps h H H0 H1 H2 H3 H4.
    pose proof (sandbox_assertion w res job_id (fresh_locals st) cp proto wd cn ps h
                  Hcp Hproto Hne H H0 H1 H2 H3 H4) as Ha.
    rewrite Hsb in Ha. unfold outcome in Ha; simpl in Ha.
    injection Ha as ->. repeat split; reflexivity.
Qed.

End Protocol.

Section Runner_and_extractor.

Context (K : constants).

Lemma runner_without_pull w dcfn st :
  runner w false dcfn st =
  (if Z.eqb (w_system w (up_cmd dcfn)) 0 then Ok tt else Raise up_error,
   st, [System (up_cmd dcfn)]).
Proof.
  unfold runner, system, bind, call, ret, raise.
  destruct (Z.eqb (w_system w (up_cmd dcfn)) 0); reflexivity.
Qed.

Lemma runner_pull_failed w dcfn st :
  w_system w (pull_cmd dcfn) <> 0%Z ->
  runner w true dcfn st = (Raise pull_error, st, [System (pull_cmd dcfn)]).
Proof.
  intros H. apply Z.eqb_neq in H.
  unfold runner, system, bind, call, ret, raise. rewrite H. reflexivity.
Qed.

Lemma runner_pulled w dcfn st :
  w_system w (pull_cmd dcfn) = 0%Z ->
  runner w true dcfn st =
  (if Z.eqb (w_system w (up_cmd dcfn)) 0 then Ok tt else Raise up_error,
   st, [System (pull_cmd dcfn); System (up_cmd dcfn)]).
Proof.
  intros H. unfold runner, system, bind, call, ret, raise. rewrite H.
  destruct (Z.eqb (w_system w (up_cmd dcfn)) 0); reflexivity.
Qed.

(** The [try] statement when the stage named raises, the ones before it
    having returned. *)
Lemma job_result_of_raise w res job_id do_pull docker_username st e s t :
  go_try K w res job_id do_pull docker_username st = (Raise e, s, t) ->
  spared e ->
  job_result K w res job_id do_pull docker_username st
    = (Ok (error_result w e), s, t ++ [Log LogError (cr_msg (error_result w e))]).
Proof.
  intros Htry He.
  rewrite (job_result_raised K w res job_id do_pull docker_username st e);
    [rewrite Htry; reflexivity | rewrite Htry; reflexivity | exact He].
Qed.

Lemma go_of_result submission_id do_pull docker_username w token res job_id st cr s t :
  acquired K w token res job_id ->
  job_result K w res job_id do_pull docker_username (fresh_locals st) = (Ok cr, s, t) ->
  go_ K submission_id do_pull docker_username w st
    = (w_report w, s,
       acquisition K submission_id w token job_id ++ t ++
       [report_of K w token job_id cr s]).
Proof.
  intros Hacq Hjr.
  rewrite (go_acquired K submission_id do_pull docker_username w token res job_id st Hacq).
  rewrite Hjr. reflexivity.
Qed.

Lemma reports_of_go submission_id w token job_id t ev :
  forallb try_event t = true -> is_report ev = true ->
  List.filter is_report (acquisition K submission_id w token job_id ++ t ++ [ev]) = [ev].
Proof.
  intros Ht Hev. unfold acquisition. cbn [app List.filter is_report].
  rewrite List.filter_app, (filter_none try_event is_report t Ht try_event_not_report).
  simpl. rewrite Hev. reflexivity.
Qed.

(** C9.  In the runner, pull is attempted, and before up, only when pulling
    is enabled; a non-zero exit of pull raises at once and up is not
    attempted; a non-zero exit of up raises likewise; both are raised as
    [Exception] with their message, and both surface as the status-ERROR
    result whose message renders that exception, with no further stage
    run. *)
Theorem runner_pull_then_up w dcfn st :
  trace (runner w false dcfn st) = [System (up_cmd dcfn)] /\
  (w_system w (pull_cmd dcfn) <> 0%Z ->
   runner w true dcfn st
     = (Raise (Exception "Could not run docker-compose pull."), st,
        [System (pull_cmd dcfn)])) /\
  (w_system w (pull_cmd dcfn) = 0%Z ->
   trace (runner w true dcfn st) = [System (pull_cmd dcfn); System (up_cmd dcfn)]) /\
  (forall do_pull,
     do_pull = false \/ w_system w (pull_cmd dcfn) = 0%Z ->
     w_system w (up_cmd dcfn) <> 0%Z ->
     outcome (runner w do_pull dcfn st)
       = Raise (Exception "Could not run docker-compose.")) /\
  (forall do_pull e,
     outcome (runner w do_pull dcfn st) = Raise e ->
     exists msg, e = Exception msg /\ exn_str e = msg /\
       cr_status (error_result w e) = ERROR /\
       cr_msg (error_result w e)
         = "Uncaught exception:" +:+ nl +:+ w_format_exc w (Exception msg)) /\
  (forall submission_id do_pull docker_username token res job_id st0 wd s1 t1 e s2 t2,
     acquired K w token res job_id ->
     sandbox K w res job_id (fresh_locals st0) = (Ok (wd, dcfn), s1, t1) ->
     runner w do_pull dcfn s1 = (Raise e, s2, t2) ->
     go_ K submission_id do_pull docker_username w st0
       = (w_report w, s2,
          acquisition K submission_id w token job_id ++
          (t1 ++ t2 ++ [Log LogError (cr_msg (error_result w e))]) ++
          [report_of K w token job_id (error_result w e) s2])).
Proof.
  split; [|split; [|split; [|split; [|split]]]].
  - rewrite runner_without_pull. reflexivity.
  - apply runner_pull_failed.
  - intros H. rewrite runner_pulled by exact H. reflexivity.
  - intros do_pull [->|Hp] Hup; apply Z.eqb_neq in Hup.
    + rewrite runner_without_pull, Hup. reflexivity.
    + destruct do_pull.
      * rewrite runner_pulled by exact Hp. rewrite Hup. reflexivity.
      * rewrite runner_without_pull, Hup. reflexivity.
  - intros do_pull e He.
    assert (Hcases : e = pull_error \/ e = up_error).
    { destruct do_pull.
      - destruct (Z.eq_dec (w_system w (pull_cmd dcfn)) 0%Z) as [Hp|Hp].
        + rewrite runner_pulled in He by exact Hp. unfold outcome in He; simpl in He.
          destruct (Z.eqb (w_system w (up_cmd dcfn)) 0); [discriminate|].
          injection He as <-. auto.
        + rewrite runner_pull_failed in He by exact Hp. injection He as <-. auto.
      - rewrite runner_without_pull in He. unfold outcome in He; simpl in He.
        destruct (Z.eqb (w_system w (up_cmd dcfn)) 0); [discriminate|].
        injection He as <-. auto. }
    destruct Hcases as [->| ->]; eexists; repeat split.
  - intros submission_id do_pull docker_username token res job_id st0 wd s1 t1 e s2 t2
           Hacq Hsb Hrun.
    assert (He : spared e).
    { pose proof (runner_obeys spared (fun _ => True) w do_pull dcfn (fun e H => H) s1 I)
        as (_ & _ & Hr).
      rewrite Hrun in Hr. exact Hr. }
    apply (go_of_result _ _ _ _ _ res); [exact Hacq|].
    rewrite app_assoc. apply job_result_of_raise; [|exact He].
    rewrite go_try_stages, Hsb. cbn [fst snd]. rewrite Hrun. reflexivity.
Qed.

(** What the extraction gives. *)
Lemma extract_read w wd st cr :
  w_read_challenge_results w wd = Ok cr ->
  extract w wd st = (Ok cr, st, [ReadChallengeResults wd]).
Proof. intros H. unfold extract, try_except, call. rewrite H. reflexivity. Qed.

Lemma extract_unreadable w wd st e t :
  w_read_challenge_results w wd = Raise e ->
  w_format_exc_limit w e = Ok t ->
  extract w wd st
    = (Ok (unreadable t), st,
       [ReadChallengeResults wd; Log LogError (cr_msg (unreadable t))]).
Proof.
  intros H Ht. unfold extract, try_except, call, bind, lift. rewrite H, Ht. reflexivity.
Qed.

Lemma extract_unrendered w wd st e e' :
  w_read_challenge_results w wd = Raise e ->
  w_format_exc_limit w e = Raise e' ->
  extract w wd st = (Raise e', st, [ReadChallengeResults wd]).
Proof.
  intros H Ht. unfold extract, try_except, call, bind, lift. rewrite H, Ht. reflexivity.
Qed.

(** The result the [try] statement ends with is the one its body returned
    or the one made of the exception its body raised. *)
Lemma job_result_cases w res job_id do_pull docker_username st :
  spares_NothingLeft w ->
  let x := go_try K w res job_id do_pull docker_username st in
  match outcome x with
  | Ok cr => job_result K w res job_id do_pull docker_username st = x
  | Raise e =>
      spared e /\
      job_result K w res job_id do_pull docker_username st
        = (Ok (error_result w e), final x,
           trace x ++ [Log LogError (cr_msg (error_result w e))])
  end.
Proof.
  intros Hw x.
  pose proof (go_try_obeys K spared w res job_id do_pull docker_username
                (fun e H => H) Hw st I) as (_ & _ & Hsp).
  fold x in Hsp. destruct (outcome x) as [cr|e] eqn:Hx.
  - apply (job_result_returned K w res job_id do_pull docker_username st cr Hx).
  - split; [exact Hsp|]. apply job_result_raised; assumption.
Qed.

End Runner_and_extractor.

Section Results.

Context (K : constants).

Lemma job_result_trace w res job_id do_pull docker_username st cr s t :
  job_result K w res job_id do_pull docker_username st = (Ok cr, s, t) ->
  forallb try_event t = true.
Proof.
  intros H.
  pose proof (job_result_events K w res job_id do_pull docker_username st I) as (Hev & _).
  rewrite H in Hev. exact Hev.
Qed.

(** The one report of a pass whose [try] statement ended with [cr]. *)
Lemma go_reports submission_id do_pull docker_username w token res job_id st cr s t :
  acquired K w token res job_id ->
  job_result K w res job_id do_pull docker_username (fresh_locals st) = (Ok cr, s, t) ->
  List.filter is_report (trace (go_ K submission_id do_pull docker_username w st))
    = [report_of K w token job_id cr s].
Proof.
  intros Hacq Hjr.
  rewrite (go_of_result K submission_id do_pull docker_username w token res job_id
             st cr s t Hacq Hjr).
  apply reports_of_go; [|reflexivity].
  apply (job_result_trace _ _ _ _ _ _ _ _ _ Hjr).
Qed.

(** C7.  When reading the results raises, the extraction is contained: it
    gives a status-ERROR result whose message is the rendered failure and
    whose scores, and so the reported stats, are the empty mapping; and
    whatever follows, the pass ends with a status-ERROR result with empty
    scores and reports it. *)
Theorem unreadable_results_are_reported submission_id do_pull docker_username w
    token res job_id st wd dcfn s1 t1 s2 t2 e :
  acquired K w token res job_id ->
  spares_NothingLeft w ->
  sandbox K w res job_id (fresh_locals st) = (Ok (wd, dcfn), s1, t1) ->
  runner w do_pull dcfn s1 = (Ok tt, s2, t2) ->
  w_read_challenge_results w wd = Raise e ->
  (forall t,
     w_format_exc_limit w e = Ok t ->
     exists cr0,
       extract w wd s2
         = (Ok cr0, s2, [ReadChallengeResults wd; Log LogError (cr_msg cr0)]) /\
       cr_status cr0 = ERROR /\
       cr_msg cr0 = "Could not read the challenge results:" +:+ nl +:+ t /\
       cr_scores cr0 = ∅ /\ get_stats cr0 = ∅) /\
  exists cr st' tr,
    job_result K w res job_id do_pull docker_username (fresh_locals st)
      = (Ok cr, st', tr) /\
    get_status cr = ERROR /\ cr_scores cr = ∅ /\
    (forall t,
       w_format_exc_limit w e = Ok t ->
       outcome (publish w docker_username wd job_id s2) = Ok tt ->
       cr_msg cr = "Could not read the challenge results:" +:+ nl +:+ t) /\
    List.filter is_report (trace (go_ K submission_id do_pull docker_username w st))
      = [report_of K w token job_id cr st'].
Proof.
  intros Hacq Hw Hsb Hrun Hread. split.
  { intros t Ht. exists (unreadable t).
    rewrite (extract_unreadable w wd s2 e t Hread Ht). repeat split. }
  pose proof (job_result_cases K w res job_id do_pull docker_username (fresh_locals st) Hw)
    as Hcases. cbv zeta in Hcases.
  rewrite go_try_stages, Hsb in Hcases. cbn [fst snd] in Hcases. rewrite Hrun in Hcases.
  destruct (w_format_exc_limit w e) as [t|e'] eqn:Ht.
  - rewrite (extract_unreadable w wd s2 e t Hread Ht) in Hcases.
    destruct (publish w docker_username wd job_id s2) as [[[[]|e2] s4] t4] eqn:Hpub.
    + unfold outcome in Hcases; cbn [fst snd] in Hcases.
      eexists _, _, _. split; [exact Hcases|]. repeat split.
      * intros t' Heq _. injection Heq as <-. reflexivity.
      * eapply go_reports; [exact Hacq | exact Hcases].
    + unfold outcome in Hcases; cbn [fst snd] in Hcases. destruct Hcases as [_ Hjr].
      eexists _, _, _. split; [exact Hjr|]. repeat split.
      * intros t' _ Hok. discriminate Hok.
      * eapply go_reports; [exact Hacq | exact Hjr].
  - rewrite (extract_unrendered w wd s2 e e' Hread Ht) in Hcases.
    unfold outcome in Hcases; cbn [fst snd] in Hcases. destruct Hcases as [_ Hjr].
    eexists _, _, _. split; [exact Hjr|]. repeat split.
    + intros t' Heq. discriminate Heq.
    + eapply go_reports; [exact Hacq | exact Hjr].
Qed.

End Results.

Ltac find_in := repeat (rewrite in_app_iff || simpl In); auto 12.

Lemma for_each_emit {A} (l : list A) (f : A -> event) st :
  for_each l (fun x => emit (f x)) st = (Ok tt, st, map f l).
Proof.
  induction l as [|x l IH]; [reflexivity|].
  simpl. unfold bind at 1. unfold emit at 1, call at 1. rewrite IH. reflexivity.
Qed.

(** The publication with a docker user name, answer by answer. *)
Lemma publish_Some w username wd job_id st :
  let tag := job_tag w username job_id in
  publish w (Some username) wd job_id st =
  match w_docker_from_env w with
  | Raise e => (Raise e, st, [DockerFromEnv])
  | Ok _ =>
      match w_images_build w with
      | Raise e => (Raise e, st, [DockerFromEnv; ImagesBuild wd tag])
      | Ok out =>
          let built := [DockerFromEnv; ImagesBuild wd tag] ++
                       map (fun line => Stdout (py_str w line)) out ++ [ImagesGet tag] in
          match w_images_get w with
          | Raise e => (Raise e, st, built)
          | Ok image =>
              let ref := image_ref w username job_id image in
              match image_attrs image !! "Size" with
              | None =>
                  (Raise (KeyError "Size"),
                   mkState (last_link st) (evaluation_container st) (PStr ref) (size st),
                   built)
              | Some sz =>
                  (w_images_push w,
                   mkState (last_link st) (evaluation_container st) (PStr ref) sz,
                   built ++ [Stdout ref; Log LogInfo ("Pushing image " +:+ tag);
                             ImagesPush tag])
              end
          end
      end
  end.
Proof.
  intros tag. unfold publish. fold (job_tag w username job_id). fold tag.
  unfold bind at 1. unfold call at 1.
  destruct (w_docker_from_env w) as [[]|e]; [|reflexivity].
  unfold bind at 1. unfold call at 1.
  destruct (w_images_build w) as [out|e]; [|reflexivity].
  unfold bind at 1. rewrite for_each_emit.
  unfold bind at 1. unfold call at 1.
  destruct (w_images_get w) as [image|e]; [|reflexivity].
  unfold bind at 1. unfold set_artifacts_image at 1, modify at 1.
  unfold bind at 1. unfold getitem_d.
  destruct (image_attrs image !! "Size") as [sz|].
  - unfold ret at 1. unfold bind. unfold set_size, modify, emit, call.
    cbn. rewrite <- app_assoc. reflexivity.
  - reflexivity.
Qed.

Lemma image_ref_truthy w username job_id image :
  truthy (PStr (image_ref w username job_id image)) = true.
Proof. unfold image_ref, job_tag. destruct username; reflexivity. Qed.

Section Publishing.

Context (K : constants).

(** No artifact is noted before the publication starts. *)
Lemma no_artifacts_before_publish w res job_id do_pull st r1 s1 t1 dcfn r2 s2 t2
    wd r3 s3 t3 :
  artifacts_image st = PNone ->
  sandbox K w res job_id st = (r1, s1, t1) ->
  runner w do_pull dcfn s1 = (r2, s2, t2) ->
  extract w wd s2 = (r3, s3, t3) ->
  artifacts_image s3 = PNone.
Proof.
  intros Hst Hsb Hrun Hex.
  pose proof (sandbox_obeys K (fun _ => True) (fun a _ => a = PNone) w res job_id
                (fun _ _ => I) (answers_any w) st Hst) as (_ & Hs1 & _).
  rewrite Hsb in Hs1.
  pose proof (runner_obeys (fun _ => True) (fun s => artifacts_image s = PNone) w do_pull
                dcfn (fun _ _ => I) s1 Hs1) as (_ & Hs2 & _).
  rewrite Hrun in Hs2.
  pose proof (extract_obeys (fun _ => True) (fun s => artifacts_image s = PNone) w
                wd (answers_any w) s2 Hs2) as (_ & Hs3 & _).
  rewrite Hex in Hs3. exact Hs3.
Qed.

(** The artifact the [try] statement leaves noted: none, or the image
    that was built and resolved for the docker user name. *)
Lemma go_try_artifacts w res job_id do_pull docker_username st :
  artifacts_image st = PNone ->
  let x := go_try K w res job_id do_pull docker_username st in
  (artifacts_image (final x) = PNone /\
   (docker_username = None \/ exists e, outcome x = Raise e) /\
   (docker_username = None -> List.filter is_docker (trace x) = [])) \/
  (exists username image wd,
     docker_username = Some username /\ w_images_get w = Ok image /\
     artifacts_image (final x) = PStr (image_ref w username job_id image) /\
     In (ImagesBuild wd (job_tag w username job_id)) (trace x) /\
     In (ImagesGet (job_tag w username job_id)) (trace x) /\
     (forall cr, outcome x = Ok cr ->
        exists sz, image_attrs image !! "Size" = Some sz /\ size (final x) = sz /\
                   In (ImagesPush (job_tag w username job_id)) (trace x))).
Proof.
  intros Hst x. subst x. rewrite go_try_stages.
  pose proof (sandbox_obeys K (fun _ => True) (fun a _ => a = PNone) w res job_id
                (fun _ _ => I) (answers_any w) st Hst) as (Hev1 & Hs1 & _).
  destruct (sandbox K w res job_id st) as [[[files|e] s1] t1];
    unfold trace, final, outcome in *; cbn [fst snd] in *.
  2:{ left. split; [exact Hs1|]. split; [right; eauto|]. intros _.
      apply (filter_none sandbox_event _ _ Hev1 sandbox_event_not_docker). }
  pose proof (runner_obeys (fun _ => True) (fun s => artifacts_image s = PNone) w do_pull
                (snd files) (fun _ _ => I) s1 Hs1) as (Hev2 & Hs2 & _).
  destruct (runner w do_pull (snd files) s1) as [[[[]|e] s2] t2];
    unfold trace, final, outcome in *; cbn [fst snd] in *.
  2:{ left. split; [exact Hs2|]. split; [right; eauto|]. intros _.
      rewrite List.filter_app,
        (filter_none sandbox_event _ _ Hev1 sandbox_event_not_docker),
        (filter_none runner_event _ _ Hev2 runner_event_not_docker). reflexivity. }
  pose proof (extract_obeys (fun _ => True) (fun s => artifacts_image s = PNone) w
                (fst files) (answers_any w) s2 Hs2) as (Hev3 & Hs3 & _).
  destruct (extract w (fst files) s2) as [[[cr|e] s3] t3];
    unfold trace, final, outcome in *; cbn [fst snd] in *.
  2:{ left. split; [exact Hs3|]. split; [right; eauto|]. intros _.
      rewrite !List.filter_app,
        (filter_none sandbox_event _ _ Hev1 sandbox_event_not_docker),
        (filter_none runner_event _ _ Hev2 runner_event_not_docker),
        (filter_none extract_event _ _ Hev3 extract_event_not_docker). reflexivity. }
  destruct docker_username as [username|].
  - rewrite publish_Some. cbv zeta.
    destruct (w_docker_from_env w) as [[]|e].
    2:{ left. split; [exact Hs3|]. split; [right; eauto|]. discriminate. }
    destruct (w_images_build w) as [out|e].
    2:{ left. split; [exact Hs3|]. split; [right; eauto|]. discriminate. }
    destruct (w_images_get w) as [image|e].
    2:{ left. split; [exact Hs3|]. split; [right; eauto|]. discriminate. }
    right. exists username, image, (fst files). split; [reflexivity|]. split; [reflexivity|].
    destruct (image_attrs image !! "Size") as [sz|].
    + destruct (w_images_push w) as [[]|e]; cbn [fst snd artifacts_image size].
      * split; [reflexivity|]. split; [find_in|]. split; [find_in|].
        intros cr' _. exists sz. repeat split. find_in.
      * split; [reflexivity|]. split; [find_in|]. split; [find_in|].
        intros cr' Hc. discriminate Hc.
    + cbn [fst snd artifacts_image size].
      split; [reflexivity|]. split; [find_in|]. split; [find_in|].
      intros cr' Hc. discriminate Hc.
  - rewrite publish_None. left. cbn [fst snd artifacts_image].
    split; [reflexivity|]. split; [left; reflexivity|]. intros _.
    rewrite !List.filter_app,
      (filter_none sandbox_event _ _ Hev1 sandbox_event_not_docker),
      (filter_none runner_event _ _ Hev2 runner_event_not_docker),
      (filter_none extract_event _ _ Hev3 extract_event_not_docker). reflexivity.
Qed.

(** A result the body of the [try] statement returns was read from the
    results file, or has no scores. *)
Lemma go_try_scores w res job_id do_pull docker_username st cr :
  outcome (go_try K w res job_id do_pull docker_username st) = Ok cr ->
  (exists wd, w_read_challenge_results w wd = Ok cr) \/ cr_scores cr = ∅.
Proof.
  rewrite go_try_stages.
  destruct (sandbox K w res job_id st) as [[[files|e] s1] t1]; [|discriminate].
  destruct (runner w do_pull (snd files) s1) as [[[[]|e] s2] t2]; [|discriminate].
  destruct (extract w (fst files) s2) as [[[cr'|e] s3] t3] eqn:Hex; [|discriminate].
  destruct (publish w docker_username (fst files) job_id s3) as [[[[]|e] s4] t4];
    [|discriminate].
  unfold outcome; cbn [fst]. intros [= ->].
  unfold extract, try_except, call, bind, lift in Hex.
  destruct (w_read_challenge_results w (fst files)) as [cr0|e] eqn:Hread.
  - injection Hex as -> _ _. left. eauto.
  - destruct (w_format_exc_limit w e); [|discriminate].
    injection Hex as <- _ _. right. reflexivity.
Qed.

End Publishing.

Section Artifacts.

Context (K : constants).

Lemma job_result_shape w res job_id do_pull docker_username st :
  spares_NothingLeft w ->
  let x := go_try K w res job_id do_pull docker_username st in
  exists cr tr1,
    job_result K w res job_id do_pull docker_username st = (Ok cr, final x, tr1) /\
    ((outcome x = Ok cr /\ tr1 = trace x) \/
     (exists e, outcome x = Raise e /\ spared e /\ cr = error_result w e /\
                tr1 = trace x ++ [Log LogError (cr_msg cr)])).
Proof.
  intros Hw x.
  pose proof (job_result_cases K w res job_id do_pull docker_username st Hw) as Hc.
  cbv zeta in Hc. fold x in Hc.
  destruct (outcome x) as [cr|e] eqn:Hx.
  - exists cr, (trace x). split; [|left; auto].
    rewrite Hc. unfold outcome, final, trace in *. destruct x as [[r s] t]; simpl in *.
    subst r. reflexivity.
  - destruct Hc as [He Hjr]. exists (error_result w e), (trace x ++ [Log LogError (cr_msg (error_result w e))]).
    split; [exact Hjr|]. right. exists e. auto.
Qed.

Lemma docker_of_go submission_id w token job_id t cr s :
  List.filter is_docker
    (acquisition K submission_id w token job_id ++ t ++ [report_of K w token job_id cr s])
  = List.filter is_docker t.
Proof.
  unfold acquisition. cbn [app List.filter is_docker].
  rewrite List.filter_app. simpl. apply app_nil_r.
Qed.

(** C8, amended.  Without a docker user name the publisher is skipped:
    nothing is asked of docker and the pass adds no artifacts key, the
    reported stats being the stats of the result as they are (so without an
    artifacts key when the scores read from the results file have none).
    The pass puts an artifacts entry into the stats only when there is a
    docker user name and the image was built and resolved, and after a
    publication that ran to its end the entry holds the image reference and
    the size. *)
Theorem artifacts_only_when_published submission_id do_pull docker_username w
    token res job_id st :
  acquired K w token res job_id ->
  spares_NothingLeft w ->
  exists cr st1 tr1,
    job_result K w res job_id do_pull docker_username (fresh_locals st)
      = (Ok cr, st1, tr1) /\
    let tr := trace (go_ K submission_id do_pull docker_username w st) in
    List.filter is_report tr = [report_of K w token job_id cr st1] /\
    (docker_username = None ->
       List.filter is_docker tr = [] /\
       stats_of cr st1 = get_stats cr /\
       ((forall wd cr', w_read_challenge_results w wd = Ok cr' ->
                        cr_scores cr' !! "artifacts" = None) ->
        stats_of cr st1 !! "artifacts" = None)) /\
    (truthy (artifacts_image st1) = true ->
       exists username image wd,
         docker_username = Some username /\ w_images_get w = Ok image /\
         In (ImagesBuild wd (job_tag w username job_id)) tr /\
         In (ImagesGet (job_tag w username job_id)) tr /\
         stats_of cr st1 !! "artifacts"
           = Some (PDict (<["size" := size st1]>
                            {["image" := PStr (image_ref w username job_id image)]}))) /\
    (forall username cr0,
       docker_username = Some username ->
       outcome (go_try K w res job_id do_pull docker_username (fresh_locals st)) = Ok cr0 ->
       exists image sz,
         w_images_get w = Ok image /\ image_attrs image !! "Size" = Some sz /\
         In (ImagesPush (job_tag w username job_id)) tr /\
         stats_of cr st1
           = <["artifacts" := PDict (<["size" := sz]>
                  {["image" := PStr (image_ref w username job_id image)]})]>
               (get_stats cr)).
Proof.
  intros Hacq Hw.
  destruct (job_result_shape w res job_id do_pull docker_username (fresh_locals st) Hw)
    as (cr & tr1 & Hjr & Hshape).
  pose proof (go_try_artifacts K w res job_id do_pull docker_username (fresh_locals st)
                eq_refl) as Hart. cbv zeta in Hart.
  set (x := go_try K w res job_id do_pull docker_username (fresh_locals st)) in *.
  exists cr, (final x), tr1. split; [exact Hjr|]. cbv zeta.
  rewrite (go_of_result K submission_id do_pull docker_username w token res job_id
             st cr (final x) tr1 Hacq Hjr).
  unfold trace at 1 2 3 4 5. cbn [snd].
  assert (Hin : forall ev, In ev (trace x) ->
            In ev (acquisition K submission_id w token job_id ++ tr1 ++
                   [report_of K w token job_id cr (final x)])).
  { intros ev Hev. rewrite !in_app_iff. right; left.
    destruct Hshape as [[_ ->]|(e & _ & _ & _ & ->)]; [exact Hev|].
    rewrite in_app_iff. auto. }
  assert (Hdocker : List.filter is_docker tr1 = List.filter is_docker (trace x)).
  { destruct Hshape as [[_ ->]|(e & _ & _ & _ & ->)]; [reflexivity|].
    rewrite List.filter_app. simpl. apply app_nil_r. }
  split; [|split; [|split]].
  - apply reports_of_go; [|reflexivity]. apply (job_result_trace K _ _ _ _ _ _ _ _ _ Hjr).
  - intros Hnone.
    destruct Hart as [(Hno & _ & Hquiet)|(u & image & wd & Hu & _)]; [|congruence].
    assert (Hstats : stats_of cr (final x) = get_stats cr).
    { unfold stats_of. rewrite Hno. reflexivity. }
    split; [|split].
    + rewrite docker_of_go, Hdocker. apply Hquiet, Hnone.
    + exact Hstats.
    + intros Hscores. rewrite Hstats. unfold get_stats.
      destruct Hshape as [[Hok _]|(e & _ & _ & -> & _)]; [|reflexivity].
      destruct (go_try_scores K w res job_id do_pull docker_username (fresh_locals st)
                  cr Hok) as [[wd Hread]| ->]; [|reflexivity].
      apply (Hscores wd cr Hread).
  - intros Htruthy.
    destruct Hart as [(Hno & _)|(u & image & wd & Hu & Hget & Himg & Hb & Hg & _)].
    { rewrite Hno in Htruthy. discriminate Htruthy. }
    exists u, image, wd. repeat split; auto.
    unfold stats_of. rewrite Htruthy, Himg. apply lookup_insert_eq.
  - intros username cr0 Hu Hok.
    destruct Hart as [(_ & [Hnone|[e He]] & _)|(u & image & wd & Hu' & Hget & Himg & _ & _ & Hend)].
    { congruence. }
    { fold x in Hok. congruence. }
    assert (u = username) as -> by congruence.
    destruct (Hend cr0 Hok) as (sz & Hsz & Hsize & Hpush).
    exists image, sz. repeat split; auto.
    unfold stats_of. rewrite Himg, image_ref_truthy, Hsize. reflexivity.
Qed.

(** C3, as the code has it.  When the publication raises after a result was
    computed, the pass still makes its one report, but of a new status-ERROR
    result made of the exception, with empty scores, in place of the
    computed one; when the failure is that of the docker client, of the
    build or of the resolution of the image, the reported stats hold no
    artifacts entry. *)
Theorem publish_failure_reports_error submission_id do_pull docker_username w
    token res job_id st wd dcfn s1 t1 s2 t2 cr0 s3 t3 e s4 t4 :
  acquired K w token res job_id ->
  sandbox K w res job_id (fresh_locals st) = (Ok (wd, dcfn), s1, t1) ->
  runner w do_pull dcfn s1 = (Ok tt, s2, t2) ->
  extract w wd s2 = (Ok cr0, s3, t3) ->
  publish w docker_username wd job_id s3 = (Raise e, s4, t4) ->
  spared e ->
  let cr := error_result w e in
  go_ K submission_id do_pull docker_username w st
    = (w_report w, s4,
       acquisition K submission_id w token job_id ++
       (t1 ++ t2 ++ t3 ++ t4 ++ [Log LogError (cr_msg cr)]) ++
       [report_of K w token job_id cr s4]) /\
  List.filter is_report (trace (go_ K submission_id do_pull docker_username w st))
    = [report_of K w token job_id cr s4] /\
  get_status cr = ERROR /\ cr_scores cr = ∅ /\
  cr_msg cr = "Uncaught exception:" +:+ nl +:+ w_format_exc w e /\
  ((exists e', w_docker_from_env w = Raise e') \/
   (exists e', w_images_build w = Raise e') \/
   (exists e', w_images_get w = Raise e') ->
   stats_of cr s4 = ∅ /\ stats_of cr s4 !! "artifacts" = None).
Proof.
  intros Hacq Hsb Hrun Hex Hpub He cr.
  assert (Htry : go_try K w res job_id do_pull docker_username (fresh_locals st)
                 = (Raise e, s4, t1 ++ t2 ++ t3 ++ t4)).
  { rewrite go_try_stages, Hsb. cbn [fst snd]. rewrite Hrun, Hex, Hpub. reflexivity. }
  pose proof (job_result_of_raise K w res job_id do_pull docker_username (fresh_locals st)
                e s4 _ Htry He) as Hjr.
  assert (Hgo := go_of_result K submission_id do_pull docker_username w token res job_id
                   st _ _ _ Hacq Hjr).
  split; [|split; [|split; [|split; [|split]]]]; try reflexivity.
  - rewrite Hgo. fold cr. rewrite <- !app_assoc. reflexivity.
  - eapply go_reports; [exact Hacq | exact Hjr].
  - intros Hearly.
    assert (Hs3 : artifacts_image s3 = PNone).
    { eapply (no_artifacts_before_publish K w res job_id do_pull (fresh_locals st));
        [reflexivity | exact Hsb | exact Hrun | exact Hex]. }
    assert (Hs4 : artifacts_image s4 = PNone).
    { destruct docker_username as [username|]; [|discriminate Hpub].
      rewrite publish_Some in Hpub. cbv zeta in Hpub.
      destruct (w_docker_from_env w) as [[]|e1].
      2:{ injection Hpub as _ <- _. exact Hs3. }
      destruct (w_images_build w) as [out|e1].
      2:{ injection Hpub as _ <- _. exact Hs3. }
      destruct (w_images_get w) as [image|e1].
      2:{ injection Hpub as _ <- _. exact Hs3. }
      destruct Hearly as [[e' H]|[[e' H]|[e' H]]]; discriminate H. }
    unfold stats_of. rewrite Hs4. split; reflexivity.
Qed.

End Artifacts.

(** ** The polling loop *)

Lemma py_min_cap (m : Q) :
  (py_min m max_multiplier <= 10)%Q /\ (py_min m max_multiplier <= m)%Q /\
  ((m <= 10)%Q -> py_min m max_multiplier = m) /\
  ((1 <= m)%Q -> (1 <= py_min m max_multiplier)%Q).
Proof.
  unfold py_min, max_multiplier.
  destruct (Qle_bool m 10) eqn:H.
  - apply Qle_bool_iff in H. repeat split; auto; try lra.
  - assert (~ (m <= 10)%Q) by (rewrite <- Qle_bool_iff; congruence).
    repeat split; intros; try lra; contradiction.
Qed.

Lemma acquisition_failure_with_report K submission_id r w :
  acquisition_failure K submission_id (with_report r w)
  = acquisition_failure K submission_id w.
Proof. reflexivity. Qed.

Lemma job_result_with_report K r w res job_id do_pull docker_username st :
  job_result K (with_report r w) res job_id do_pull docker_username st
  = job_result K w res job_id do_pull docker_username st.
Proof. reflexivity. Qed.

Section Loop.

Context (K : constants).

Lemma go_not_acquired submission_id do_pull docker_username w e t st :
  acquisition_failure K submission_id w = Some (e, t) ->
  go_ K submission_id do_pull docker_username w st = (Raise e, st, t).
Proof.
  unfold acquisition_failure, go_, get_token_from_shell_config.
  unfold bind at 1. unfold bind at 1. unfold call at 1.
  destruct (w_config w) as [config|e0]; [|intros [= <- <-]; reflexivity].
  destruct (config !! DT1_TOKEN_CONFIG_KEY K) as [token|];
    [|intros [= <- <-]; reflexivity].
  unfold ret at 1. unfold bind at 1. unfold call at 1.
  destruct (w_work_submission w) as [res|e0]; [|intros [= <- <-]; reflexivity].
  destruct (res !! "job_id") as [job_id|]; [discriminate|].
  unfold getitem_d.
  destruct (res !! "msg") as [explanation|]; intros [= <- <-]; reflexivity.
Qed.

Lemma go_acquires submission_id w :
  acquisition_failure K submission_id w = None ->
  exists token res job_id, acquired K w token res job_id.
Proof.
  unfold acquisition_failure.
  destruct (w_config w) as [config|e0] eqn:Hc; [|discriminate].
  destruct (config !! DT1_TOKEN_CONFIG_KEY K) as [token|] eqn:Ht; [|discriminate].
  destruct (w_work_submission w) as [res|e0] eqn:Hs; [|discriminate].
  destruct (res !! "job_id") as [job_id|] eqn:Hj.
  - intros _. exists token, res, job_id. split; eauto.
  - destruct (res !! "msg"); discriminate.
Qed.

Lemma acquisition_failure_trace submission_id w e t :
  acquisition_failure K submission_id w = Some (e, t) ->
  List.filter is_sleep t = [] /\ List.filter is_report t = [] /\
  (length (List.filter is_poll t) <= 1)%nat.
Proof.
  unfold acquisition_failure.
  destruct (w_config w) as [config|e0]; [|intros [= <- <-]; simpl; auto].
  destruct (config !! DT1_TOKEN_CONFIG_KEY K) as [token|];
    [|intros [= <- <-]; simpl; auto].
  destruct (w_work_submission w) as [res|e0]; [|intros [= <- <-]; simpl; auto].
  destruct (res !! "job_id") as [job_id|]; [discriminate|].
  destruct (res !! "msg") as [explanation|]; intros [= <- <-]; simpl; auto.
Qed.

(** A pass asks for work once at most and never sleeps. *)
Lemma go_trace_shape submission_id do_pull docker_username w st :
  let t := trace (go_ K submission_id do_pull docker_username w st) in
  List.filter is_sleep t = [] /\ (length (List.filter is_poll t) <= 1)%nat.
Proof.
  cbv zeta.
  destruct (acquisition_failure K submission_id w) as [[e t]|] eqn:Hf.
  - rewrite (go_not_acquired _ do_pull docker_username _ _ _ st Hf).
    destruct (acquisition_failure_trace _ _ _ _ Hf) as (Hs & _ & Hp). auto.
  - destruct (go_acquires _ _ Hf) as (token & res & job_id & Hacq).
    rewrite (go_acquired K submission_id do_pull docker_username w token res job_id st Hacq).
    cbv zeta.
    pose proof (job_result_events K w res job_id do_pull docker_username
                  (fresh_locals st) I) as (Hev & _).
    destruct (job_result K w res job_id do_pull docker_username (fresh_locals st))
      as [[[cr|e] s] t]; unfold outcome, final, trace in *; cbn [fst snd] in *.
    + unfold acquisition. cbn [app List.filter is_sleep is_poll].
      rewrite !List.filter_app.
      rewrite (filter_none try_event is_sleep t Hev try_event_not_sleep).
      rewrite (filter_none try_event is_poll t Hev try_event_not_poll).
      simpl. auto.
    + unfold acquisition. cbn [app List.filter is_sleep is_poll].
      rewrite (filter_none try_event is_sleep t Hev try_event_not_sleep).
      rewrite (filter_none try_event is_poll t Hev try_event_not_poll).
      simpl. auto.
Qed.

(** One turn of the loop, whatever the pass did. *)
Lemma loop_body_eq do_pull docker_username w m st :
  let x := go_ K None do_pull docker_username w st in
  let m' := next_multiplier (outcome x) (py_min m max_multiplier) in
  loop_body K do_pull docker_username w m st
    = (Ok m', final x, trace x ++ loop_log (outcome x) ++ [Sleep (timeout * m')%Q]).
Proof.
  cbv zeta. unfold loop_body, bind, try_except, outcome, final, trace.
  destruct (go_ K None do_pull docker_username w st) as [[[[]|e] s] t]; cbn [fst snd].
  - unfold ret, emit, call. cbn. rewrite app_nil_r. reflexivity.
  - destruct e; cbn; rewrite <- ?app_assoc; reflexivity.
Qed.

Lemma next_multiplier_bounds (r : result unit) (m : Q) :
  (1 <= m)%Q -> (m <= 10)%Q ->
  (1 <= next_multiplier r m)%Q /\ (next_multiplier r m <= 15)%Q.
Proof.
  intros H1 H10. destruct r as [[]|[]]; simpl; split; lra.
Qed.

End Loop.

Lemma sleeps_app (a b : list event) : sleeps (a ++ b) = sleeps a ++ sleeps b.
Proof.
  induction a as [|ev a IH]; [reflexivity|].
  destruct ev; simpl; rewrite IH; reflexivity.
Qed.

Lemma sleeps_none (t : list event) : List.filter is_sleep t = [] -> sleeps t = [].
Proof.
  induction t as [|ev t IH]; [reflexivity|].
  destruct ev; simpl; auto; discriminate.
Qed.

Lemma loop_log_quiet (r : result unit) :
  List.filter is_sleep (loop_log r) = [] /\ List.filter is_poll (loop_log r) = [].
Proof. destruct r as [[]|[]]; simpl; auto. Qed.

Lemma spaced_pass (t : list event) (d : Q) (rest : list event) (polled : bool) :
  List.filter is_sleep t = [] ->
  (if polled then List.filter is_poll t = []
   else (length (List.filter is_poll t) <= 1)%nat) ->
  (timeout <= d)%Q -> spaced false rest ->
  spaced polled (t ++ Sleep d :: rest).
Proof.
  intros Hs Hp Hd Hrest. revert polled Hs Hp.
  induction t as [|ev t IH]; intros polled Hs Hp.
  - simpl. auto.
  - destruct ev; simpl in *; try discriminate; try (apply IH; assumption).
    destruct polled; [discriminate|]. split; [reflexivity|].
    apply IH; [assumption|]. simpl in Hp.
    destruct (List.filter is_poll t); [reflexivity|simpl in Hp; lia].
Qed.

Section Backoff.

Context (K : constants).

(** The loop goes on for as many turns as it is given worlds, whatever the
    passes do; it sleeps once a turn. *)
Lemma continuous_loop_runs do_pull docker_username ws m st :
  (1 <= m)%Q -> (m <= 15)%Q ->
  exists m' st' tr,
    continuous_loop K do_pull docker_username ws m st = (Ok m', st', tr) /\
    (1 <= m')%Q /\ (m' <= 15)%Q /\
    length (sleeps tr) = length ws /\
    Forall (fun d => (timeout <= d)%Q) (sleeps tr) /\
    spaced false tr.
Proof.
  revert m st. induction ws as [|w ws IH]; intros m st H1 H15.
  - exists m, st, []. simpl. repeat split; auto.
  - simpl. unfold bind. rewrite loop_body_eq. cbv zeta.
    destruct (py_min_cap m) as (Hc10 & _ & _ & Hc1). specialize (Hc1 H1).
    destruct (next_multiplier_bounds
                (outcome (go_ K None do_pull docker_username w st))
                (py_min m max_multiplier) Hc1 Hc10) as [Hn1 Hn15].
    destruct (go_trace_shape K None do_pull docker_username w st) as [Hsl Hpo].
    destruct (loop_log_quiet (outcome (go_ K None do_pull docker_username w st)))
      as [Hls Hlp].
    set (x := go_ K None do_pull docker_username w st) in *.
    set (m1 := next_multiplier (outcome x) (py_min m max_multiplier)) in *.
    destruct (IH m1 (final x) Hn1 Hn15) as (m' & st' & tr & Hrun & Hm1 & Hm15 & Hlen & Hall & Hsp).
    rewrite Hrun. exists m', st', ((trace x ++ loop_log (outcome x) ++ [Sleep (timeout * m1)%Q]) ++ tr).
    assert (Hd : (timeout <= timeout * m1)%Q) by (unfold timeout; lra).
    split; [reflexivity|]. split; [exact Hm1|]. split; [exact Hm15|].
    rewrite !sleeps_app, (sleeps_none _ Hsl), (sleeps_none _ Hls). simpl.
    split; [congruence|]. split; [constructor; assumption|].
    rewrite <- !app_assoc. rewrite app_assoc. simpl.
    apply spaced_pass; try assumption.
    + rewrite List.filter_app, Hsl, Hls. reflexivity.
    + rewrite List.filter_app, Hlp, app_nil_r. exact Hpo.
Qed.

(** C2, as the code has it.  A turn of the continuous loop caps the
    multiplier it starts with at 10, and then: a pass that raises anything
    but [NothingLeft] multiplies it by 1.5, which never lowers it; a pass
    that returns sets it to 1; a pass that ends in [NothingLeft] leaves it
    as capped.  It stays between 1 and 15. *)
Theorem backoff_multiplier_step do_pull docker_username w m st :
  (1 <= m)%Q -> (m <= 15)%Q ->
  let r := outcome (go_ K None do_pull docker_username w st) in
  let capped := py_min m max_multiplier in
  exists m' st' tr',
    loop_body K do_pull docker_username w m st = (Ok m', st', tr') /\
    (capped <= 10)%Q /\
    (r = Ok tt -> m' = 1.0%Q) /\
    (forall msg, r = Raise (NothingLeft msg) -> m' = capped /\ (m' <= m)%Q) /\
    (forall e, r = Raise e -> spared e -> m' = (capped * 1.5)%Q /\ (m <= m')%Q) /\
    (1 <= m')%Q /\ (m' <= 15)%Q.
Proof.
  intros H1 H15 r capped. rewrite loop_body_eq. cbv zeta. fold r. fold capped.
  destruct (py_min_cap m) as (Hc10 & Hcm & Hceq & Hc1). specialize (Hc1 H1).
  fold capped in Hc10, Hcm, Hceq, Hc1.
  destruct (next_multiplier_bounds r capped Hc1 Hc10) as [Hn1 Hn15].
  eexists _, _, _. split; [reflexivity|]. split; [exact Hc10|].
  split; [|split; [|split; [|split]]]; auto.
  - intros ->. reflexivity.
  - intros msg ->. simpl. auto.
  - intros e -> He. destruct e; try discriminate He; simpl; split; try reflexivity.
    all: destruct (Qlt_le_dec 10 m) as [Hgt|Hle];
      [ unfold capped, py_min, max_multiplier in *;
        destruct (Qle_bool m 10) eqn:Hb;
        [apply Qle_bool_iff in Hb; lra | lra]
      | rewrite (Hceq Hle); lra ].
Qed.

(** C10.  Every turn of the continuous loop ends with one sleep, of the
    base interval (5 seconds) times the multiplier the turn ends with,
    whether its pass returned, ended in [NothingLeft] or raised; from the
    start of the loop every sleep lasts the base interval at least, there is
    one for each turn, and two calls for work have a sleep between them. *)
Theorem sleeps_after_every_pass do_pull docker_username ws st :
  (forall w m st0, exists m' t,
      loop_body K do_pull docker_username w m st0
        = (Ok m', final (go_ K None do_pull docker_username w st0),
           t ++ [Sleep (timeout * m')%Q]) /\
      List.filter is_sleep t = []) /\
  timeout = 5.0%Q /\
  exists m st' tr,
    continuous_loop K do_pull docker_username ws 1.0%Q st = (Ok m, st', tr) /\
    length (sleeps tr) = length ws /\
    Forall (fun d => (timeout <= d)%Q) (sleeps tr) /\
    spaced false tr.
Proof.
  split; [|split; [reflexivity|]].
  - intros w m st0. rewrite loop_body_eq. cbv zeta.
    eexists _, (_ ++ _). split; [rewrite <- app_assoc; reflexivity|].
    destruct (go_trace_shape K None do_pull docker_username w st0) as [Hsl _].
    destruct (loop_log_quiet (outcome (go_ K None do_pull docker_username w st0)))
      as [Hls _].
    rewrite List.filter_app, Hsl, Hls. reflexivity.
  - destruct (continuous_loop_runs do_pull docker_username ws 1.0%Q st)
      as (m & st' & tr & Hrun & _ & _ & Hlen & Hall & Hsp); [lra | lra |].
    exists m, st', tr. auto.
Qed.

End Backoff.

Section Nothing_left.

Context (K : constants).

(** A pass in which the server names no job. *)
Lemma go_nothing_left submission_id do_pull docker_username w st config token res
    explanation :
  w_config w = Ok config ->
  config !! DT1_TOKEN_CONFIG_KEY K = Some token ->
  w_work_submission w = Ok res ->
  res !! "job_id" = None ->
  res !! "msg" = Some explanation ->
  go_ K submission_id do_pull docker_username w st
    = (Raise (NothingLeft ("Could not find jobs: " +:+ py_str w explanation)), st,
       [ReadConfig (path_join (ROOT K) "config");
        WorkSubmission token submission_id (w_hostname w) (pretty (w_pid w))
          (version K)]).
Proof.
  intros Hc Ht Hs Hj Hm. apply go_not_acquired.
  unfold acquisition_failure. rewrite Hc, Ht, Hs, Hj, Hm. reflexivity.
Qed.

(** A pass that acquired a job ends as its report call does. *)
Lemma go_outcome_acquired submission_id do_pull docker_username w token res job_id st :
  acquired K w token res job_id ->
  spares_NothingLeft w ->
  outcome (go_ K submission_id do_pull docker_username w st) = w_report w.
Proof.
  intros Hacq Hw.
  destruct (job_result_shape K w res job_id do_pull docker_username (fresh_locals st) Hw)
    as (cr & tr1 & Hjr & _).
  rewrite (go_of_result K submission_id do_pull docker_username w token res job_id
             st cr _ tr1 Hacq Hjr).
  reflexivity.
Qed.

(** C5.  The acquisition raises [NothingLeft] when the answer of the server
    has no job_id, with the explanation of the server in its message, and
    only then; no report is made in that pass and nothing is left behind;
    the explicit list logs it at level info and goes on with the next
    identifier; the continuous loop writes a dot, logs no error and leaves
    the multiplier as it is. *)
Theorem no_job_is_not_a_fault submission_id do_pull docker_username w st config
    token res :
  w_config w = Ok config ->
  config !! DT1_TOKEN_CONFIG_KEY K = Some token ->
  w_work_submission w = Ok res ->
  let polled sid :=
    [ReadConfig (path_join (ROOT K) "config");
     WorkSubmission token sid (w_hostname w) (pretty (w_pid w)) (version K)] in
  (forall explanation,
     res !! "job_id" = None ->
     res !! "msg" = Some explanation ->
     let e := NothingLeft ("Could not find jobs: " +:+ py_str w explanation) in
     go_ K submission_id do_pull docker_username w st
       = (Raise e, st, polled submission_id) /\
     List.filter is_report
       (trace (go_ K submission_id do_pull docker_username w st)) = [] /\
     (forall submissions ws k,
        ws k = w ->
        let rest := for_submissions K do_pull docker_username submissions ws (S k) st in
        for_submissions K do_pull docker_username (submission_id :: submissions) ws k st
          = (outcome rest, final rest,
             (polled submission_id ++
              [Log LogInfo "No submissions available to evaluate."]) ++ trace rest)) /\
     (forall m,
        loop_body K do_pull docker_username w m st
          = (Ok (py_min m max_multiplier), st,
             polled None ++
             [Stderr "."; Sleep (timeout * py_min m max_multiplier)%Q]))) /\
  (forall job_id msg,
     res !! "job_id" = Some job_id ->
     spares_NothingLeft w ->
     raises spared (w_report w) ->
     outcome (go_ K submission_id do_pull docker_username w st)
       <> Raise (NothingLeft msg)).
Proof.
  intros Hc Ht Hs polled. split.
  - intros explanation Hj Hm e.
    pose proof (fun sid s => go_nothing_left sid do_pull docker_username w s config token
                  res explanation Hc Ht Hs Hj Hm) as Hgo.
    fold e in Hgo. split; [apply Hgo|]. split; [rewrite Hgo; reflexivity|]. split.
    + intros submissions ws k Hk rest. subst rest. simpl.
      unfold bind, try_except. rewrite Hk, Hgo. unfold e. cbn.
      destruct (for_submissions K do_pull docker_username submissions ws (S k) st)
        as [[r s] t]. reflexivity.
    + intros m. rewrite loop_body_eq. cbv zeta. rewrite Hgo. reflexivity.
  - intros job_id msg Hj Hw Hrep.
    assert (Hacq : acquired K w token res job_id) by (split; eauto).
    rewrite (go_outcome_acquired submission_id do_pull docker_username w token res
               job_id st Hacq Hw).
    intros Heq. rewrite Heq in Hrep. discriminate Hrep.
Qed.

End Nothing_left.

Section Report.

Context (K : constants).

(** The answer of the report call decides how a pass ends and nothing
    else: neither the calls made nor the state left. *)
Lemma go_with_report submission_id do_pull docker_username r w st :
  let x := go_ K submission_id do_pull docker_username (with_report (Ok tt) w) st in
  go_ K submission_id do_pull docker_username (with_report r w) st
    = (match outcome x with Ok _ => r | Raise e => Raise e end, final x, trace x).
Proof.
  cbv zeta.
  destruct (acquisition_failure K submission_id w) as [[e t]|] eqn:Hf.
  - rewrite (go_not_acquired K submission_id do_pull docker_username
               (with_report r w) e t st)
      by (rewrite acquisition_failure_with_report; exact Hf).
    rewrite (go_not_acquired K submission_id do_pull docker_username
               (with_report (Ok tt) w) e t st)
      by (rewrite acquisition_failure_with_report; exact Hf).
    reflexivity.
  - destruct (go_acquires K _ _ Hf) as (token & res & job_id & [Hc Hs Hj]).
    assert (Hacq : forall r', acquired K (with_report r' w) token res job_id)
      by (intros r'; split; assumption).
    rewrite (go_acquired K submission_id do_pull docker_username _ token res job_id st
               (Hacq r)).
    rewrite (go_acquired K submission_id do_pull docker_username _ token res job_id st
               (Hacq (Ok tt))).
    cbv zeta. rewrite !job_result_with_report.
    destruct (job_result K w res job_id do_pull docker_username (fresh_locals st))
      as [[[cr|e] s] t]; reflexivity.
Qed.

(** A pass reads nothing of the state it starts in but the [last] link. *)
Lemma go_local submission_id do_pull docker_username w st1 st2 :
  last_link st1 = last_link st2 ->
  outcome (go_ K submission_id do_pull docker_username w st1)
    = outcome (go_ K submission_id do_pull docker_username w st2) /\
  trace (go_ K submission_id do_pull docker_username w st1)
    = trace (go_ K submission_id do_pull docker_username w st2).
Proof.
  intros Hl.
  destruct (acquisition_failure K submission_id w) as [[e t]|] eqn:Hf.
  - rewrite !(go_not_acquired K submission_id do_pull docker_username w e t _ Hf).
    split; reflexivity.
  - destruct (go_acquires K _ _ Hf) as (token & res & job_id & Hacq).
    rewrite !(go_acquired K submission_id do_pull docker_username w token res job_id _
                Hacq).
    unfold fresh_locals. rewrite Hl. split; reflexivity.
Qed.

(** C6.  In the continuous loop a report call that raises is logged at
    level error and the loop goes on: the turn ends like any failed turn,
    with the multiplier raised; the calls the pass made and the state it
    leaves are those of the same pass with a report that succeeds, and the
    next pass reads nothing of that state but the [last] link, which each
    pass replaces. *)
Theorem report_failure_is_contained do_pull docker_username w m st e :
  spared e ->
  outcome (go_ K None do_pull docker_username (with_report (Ok tt) w) st) = Ok tt ->
  let x := go_ K None do_pull docker_username (with_report (Ok tt) w) st in
  let m' := (py_min m max_multiplier * 1.5)%Q in
  go_ K None do_pull docker_username (with_report (Raise e) w) st
    = (Raise e, final x, trace x) /\
  (exists msg, loop_log (Raise e) = [Log LogError msg]) /\
  loop_body K do_pull docker_username (with_report (Raise e) w) m st
    = (Ok m', final x, trace x ++ loop_log (Raise e) ++ [Sleep (timeout * m')%Q]) /\
  loop_body K do_pull docker_username (with_report (Ok tt) w) m st
    = (Ok 1.0%Q, final x, trace x ++ [Sleep (timeout * 1.0)%Q]) /\
  (forall submission_id w' st1 st2,
     last_link st1 = last_link st2 ->
     outcome (go_ K submission_id do_pull docker_username w' st1)
       = outcome (go_ K submission_id do_pull docker_username w' st2) /\
     trace (go_ K submission_id do_pull docker_username w' st1)
       = trace (go_ K submission_id do_pull docker_username w' st2)).
Proof.
  intros He Hok x m'.
  assert (Hgo : go_ K None do_pull docker_username (with_report (Raise e) w) st
                = (Raise e, final x, trace x)).
  { rewrite go_with_report. cbv zeta. rewrite Hok. reflexivity. }
  split; [exact Hgo|]. split; [|split; [|split]].
  - destruct e; try discriminate He; simpl; eauto.
  - rewrite loop_body_eq. cbv zeta. rewrite Hgo. unfold outcome, final, trace; cbn [fst snd].
    destruct e; try discriminate He; reflexivity.
  - rewrite loop_body_eq. cbv zeta. rewrite Hok. simpl. rewrite app_nil_r || idtac. reflexivity.
  - intros submission_id w' st1 st2. apply go_local.
Qed.

End Report.

Ltac pick_value :=
  unfold among, multiplier_values;
  repeat first [ solve [apply Exists_cons_hd; lra] | apply Exists_cons_tl ].

Lemma next_multiplier_values (r : result unit) (m : Q) :
  among multiplier_values m ->
  among multiplier_values (next_multiplier r (py_min m max_multiplier)).
Proof.
  intros Hm.
  assert (Hcap : forall v, (m == v)%Q ->
            (v <= 10)%Q /\ (py_min m max_multiplier == v)%Q \/
            (10 < v)%Q /\ (py_min m max_multiplier == 10)%Q).
  { intros v Hv. unfold py_min, max_multiplier.
    destruct (Qle_bool m 10) eqn:Hb.
    - apply Qle_bool_iff in Hb. left. split; [lra | exact Hv].
    - assert (~ (m <= 10)%Q) by (rewrite <- Qle_bool_iff; congruence).
      right. split; [lra | reflexivity]. }
  unfold among, multiplier_values in Hm.
  repeat match goal with
         | H : Exists _ (_ :: _) |- _ => apply Exists_cons in H; destruct H as [H|H]
         | H : Exists _ [] |- _ => apply Exists_nil in H; destruct H
         end;
    destruct (Hcap _ Hm) as [[Hle Hc]|[Hgt Hc]]; try lra;
    destruct r as [[]|[]]; simpl; pick_value.
Qed.

Section Start.

Context (K : constants).

(** From its start the loop only ever holds one of nine multipliers. *)
Lemma continuous_loop_values do_pull docker_username ws m st :
  among multiplier_values m ->
  among multiplier_values
    (match outcome (continuous_loop K do_pull docker_username ws m st) with
     | Ok m' => m'
     | Raise _ => m
     end).
Proof.
  revert m st. induction ws as [|w ws IH]; intros m st Hm; [exact Hm|].
  simpl. rewrite outcome_bind, loop_body_eq. cbv zeta. unfold outcome at 1; cbn [fst].
  unfold final at 1; cbn [fst snd].
  pose proof (next_multiplier_values
                (outcome (go_ K None do_pull docker_username w st)) m Hm) as Hnext.
  specialize (IH _ (final (go_ K None do_pull docker_username w st)) Hnext).
  destruct (outcome (continuous_loop K do_pull docker_username ws _ _)); [exact IH|].
  exact Hm.
Qed.

(** The program in continuous mode, once its checks have passed: pulling
    is enabled unless --no-pull was given, the docker user name is the one
    found at the start, if any, and the loop starts with the multiplier 1. *)
Lemma evaluator_continuous s parsed ws turns st :
  s_check_docker_environment s = Ok tt ->
  s_check_executable_exists s = Ok tt ->
  continuous parsed = true ->
  let docker_username :=
    match s_get_dockerhub_username s with Ok u => Some u | Raise _ => None end in
  let loop := continuous_loop K (negb (no_pull parsed)) docker_username
                (map ws (seq 0 turns)) 1.0%Q st in
  outcome (dt_challenges_evaluator K s parsed ws turns st)
    = match outcome loop with Ok _ => Ok tt | Raise e => Raise e end /\
  final (dt_challenges_evaluator K s parsed ws turns st) = final loop /\
  List.filter is_report (trace (dt_challenges_evaluator K s parsed ws turns st))
    = List.filter is_report (trace loop).
Proof.
  intros Hd Hc Hcont. cbv zeta.
  unfold dt_challenges_evaluator. rewrite Hd, Hc, Hcont.
  unfold bind, try_except, emit, call, lift, ret, outcome, final, trace.
  destruct (s_get_dockerhub_username s) as [u|e]; cbn [fst snd];
    destruct (continuous_loop K _ _ _ _ st) as [[[m|e'] s'] t]; cbn;
    rewrite ?app_nil_r; auto.
Qed.

(** The program with a list of submissions, or with none. *)
Lemma evaluator_explicit s parsed ws turns st :
  s_check_docker_environment s = Ok tt ->
  s_check_executable_exists s = Ok tt ->
  continuous parsed = false ->
  let docker_username :=
    match s_get_dockerhub_username s with Ok u => Some u | Raise _ => None end in
  let submissions :=
    match extra parsed with [] => [None] | ids => map Some ids end in
  let passes := for_submissions K (negb (no_pull parsed)) docker_username
                  submissions ws 0 st in
  outcome (dt_challenges_evaluator K s parsed ws turns st) = outcome passes /\
  final (dt_challenges_evaluator K s parsed ws turns st) = final passes /\
  List.filter is_report (trace (dt_challenges_evaluator K s parsed ws turns st))
    = List.filter is_report (trace passes).
Proof.
  intros Hd Hc Hcont. cbv zeta.
  unfold dt_challenges_evaluator. rewrite Hd, Hc, Hcont.
  unfold bind, try_except, emit, call, lift, ret, outcome, final, trace.
  destruct (s_get_dockerhub_username s) as [u|e]; cbn [fst snd];
    destruct (for_submissions K _ _ _ _ _ st) as [[r s'] t]; cbn; auto.
Qed.

End Start.

(** ** The properties on the sample inputs *)

Lemma sample_world_acquired system_ results build get_ push report res job_id :
  res !! "job_id" = Some job_id ->
  acquired K0 (sample_world (Ok res) system_ results build get_ push report)
    (PStr "secret") res job_id.
Proof.
  intros Hj. split; [|reflexivity|exact Hj].
  eexists. split; reflexivity.
Qed.

Lemma sample_world_spares submission system_ results build get_ push report :
  raises spared build -> raises spared get_ -> raises spared push ->
  spares_NothingLeft (sample_world submission system_ results build get_ push report).
Proof. intros Hb Hg Hp. split; simpl; auto. Qed.

Definition sample_wd : string := "/tmp/tmp-duckietown-challenge-evaluator-x1".
Definition sample_dcfn : string :=
  "/tmp/tmp-duckietown-challenge-evaluator-x1/docker-compose.yaml".

(** The report of the pass in which everything succeeds and the image is
    published. *)
Example published_pass :
  List.filter is_report (trace (go_ K0 None true (Some "duckie") w_good st0))
  = [ReportJob (PStr "secret") (PInt 7)
       (<["artifacts" := PDict (<["size" := PInt 2048]>
                                  {["image" := PStr "duckie/jobs:7@sha256:cd"]})]>
          {["score" := PInt 10]})
       SUCCESS "host" "4242" (PStr "evaluator:1") "1.0"].
Proof. vm_compute. reflexivity. Qed.

(** The same pass without a docker user name. *)
Example unpublished_pass :
  List.filter is_report (trace (go_ K0 None true None w_good st0))
  = [ReportJob (PStr "secret") (PInt 7) {["score" := PInt 10]}
       SUCCESS "host" "4242" (PStr "evaluator:1") "1.0"].
Proof. vm_compute. reflexivity. Qed.

(** A pull that fails: up is not attempted and the job is reported as an
    error. *)
Example failed_pull_pass :
  List.filter (fun ev => is_system ev || is_report ev)
    (trace (go_ K0 None true None w_pull_fails st0))
  = [System (pull_cmd sample_dcfn);
     ReportJob (PStr "secret") (PInt 7) ∅ ERROR "host" "4242" (PStr "evaluator:1") "1.0"].
Proof. vm_compute. reflexivity. Qed.

Example failed_up_pass :
  List.filter (fun ev => is_system ev || is_report ev)
    (trace (go_ K0 None true None w_up_fails st0))
  = [System (pull_cmd sample_dcfn); System (up_cmd sample_dcfn);
     ReportJob (PStr "secret") (PInt 7) ∅ ERROR "host" "4242" (PStr "evaluator:1") "1.0"].
Proof. vm_compute. reflexivity. Qed.

(** With a list of submissions a report call that raises is not caught:
    the second submission is never asked for. *)
Example explicit_list_stops_at_failed_report :
  outcome (for_submissions K0 true None [None; None] (fun _ => w_report_fails) 0 st0)
    = Raise (ConnectionError "report lost") /\
  length (List.filter is_poll
            (trace (for_submissions K0 true None [None; None]
                      (fun _ => w_report_fails) 0 st0))) = 1%nat.
Proof. split; vm_compute; reflexivity. Qed.

(** The result made of a job with the protocol p2. *)
Example unsupported_protocol_result :
  outcome (job_result K0 w_p2 (job "p2") (PInt 7) true None (fresh_locals st0))
  = Ok (mkChallengeResults ERROR
          ("Uncaught exception:" +:+ nl +:+
           "Traceback (most recent call last):" +:+ nl +:+
           "    assert evaluation_protocol == 'p1'" +:+ nl +:+
           "AssertionError" +:+ nl)
          ∅).
Proof. vm_compute. reflexivity. Qed.


Lemma backoff_multiplier_step_witness :
  (1 <= 1.5)%Q /\ (1.5 <= 15)%Q /\
  exists m' st' tr',
    loop_body K0 true None w_offline 1.5%Q st0 = (Ok m', st', tr') /\
    m' = (py_min 1.5 max_multiplier * 1.5)%Q /\ (1.5 <= m')%Q.
Proof.
  assert (H1 : (1 <= 1.5)%Q) by (unfold Qle; simpl; lia).
  assert (H15 : (1.5 <= 15)%Q) by (unfold Qle; simpl; lia).
  split; [exact H1|]. split; [exact H15|].
  destruct (backoff_multiplier_step K0 true None w_offline 1.5%Q st0 H1 H15)
    as (m' & st' & tr' & Hrun & _ & _ & _ & Hfail & _).
  exists m', st', tr'. split; [exact Hrun|].
  apply (Hfail (ConnectionError "server unreachable")); reflexivity.
Defined.

(** C2, as stated, fails.  After a pass that failed and a pass that ended
    in [NothingLeft] the multiplier is 1.5, not 1; and the seventh of seven
    failed passes in a row is followed by a sleep of 75 seconds, more than
    10 times the base interval. *)
Lemma backoff_not_as_stated :
  (exists m st tr,
     continuous_loop K0 true None [w_offline; w_no_job] 1.0%Q st0 = (Ok m, st, tr) /\
     (m == 1.5)%Q /\ ~ (m == 1)%Q /\
     outcome (go_ K0 None true None w_no_job st)
       = Raise (NothingLeft "Could not find jobs: no jobs")) /\
  (exists d,
     nth_error (sleeps (trace (continuous_loop K0 true None (repeat w_offline 7)
                                 1.0%Q st0))) 6 = Some d /\
     (d == 75)%Q /\ (10 * timeout < d)%Q).
Proof.
  split.
  - eexists _, _, _. split; [vm_compute; reflexivity|].
    split; [reflexivity|]. split; [|vm_compute; reflexivity].
    intros H. vm_compute in H. discriminate H.
  - eexists. split; [vm_compute; reflexivity|].
    split; [reflexivity|]. reflexivity.
Qed.

Lemma publish_failure_reports_error_witness :
  sandbox K0 w_build_fails (job "p1") (PInt 7) (fresh_locals st0)
    = (Ok (sample_wd, sample_dcfn),
       final (sandbox K0 w_build_fails (job "p1") (PInt 7) (fresh_locals st0)),
       trace (sandbox K0 w_build_fails (job "p1") (PInt 7) (fresh_locals st0))) /\
  extract w_build_fails sample_wd (mkState (Some sample_wd) (PStr "evaluator:1") PNone PNone)
    = (Ok good_results, mkState (Some sample_wd) (PStr "evaluator:1") PNone PNone,
       [ReadChallengeResults sample_wd]) /\
  publish w_build_fails (Some "duckie") sample_wd (PInt 7)
      (mkState (Some sample_wd) (PStr "evaluator:1") PNone PNone)
    = (Raise (LibraryError "BuildError" "build failed"),
       mkState (Some sample_wd) (PStr "evaluator:1") PNone PNone,
       [DockerFromEnv; ImagesBuild sample_wd "duckie/jobs:7"]) /\
  List.filter is_report (trace (go_ K0 None true (Some "duckie") w_build_fails st0))
    = [ReportJob (PStr "secret") (PInt 7) ∅ ERROR "host" "4242" (PStr "evaluator:1") "1.0"].
Proof.
  set (s := mkState (Some sample_wd) (PStr "evaluator:1") PNone PNone).
  assert (Ha : acquired K0 w_build_fails (PStr "secret") (job "p1") (PInt 7))
    by (apply sample_world_acquired; reflexivity).
  assert (Hsb : sandbox K0 w_build_fails (job "p1") (PInt 7) (fresh_locals st0)
    = (Ok (sample_wd, sample_dcfn), s,
       trace (sandbox K0 w_build_fails (job "p1") (PInt 7) (fresh_locals st0))))
    by (vm_compute; reflexivity).
  assert (Hrun : runner w_build_fails true sample_dcfn s
    = (Ok tt, s, [System (pull_cmd sample_dcfn); System (up_cmd sample_dcfn)]))
    by (vm_compute; reflexivity).
  assert (Hex : extract w_build_fails sample_wd s
    = (Ok good_results, s, [ReadChallengeResults sample_wd]))
    by (vm_compute; reflexivity).
  assert (Hpub : publish w_build_fails (Some "duckie") sample_wd (PInt 7) s
    = (Raise (LibraryError "BuildError" "build failed"), s,
       [DockerFromEnv; ImagesBuild sample_wd "duckie/jobs:7"]))
    by (vm_compute; reflexivity).
  split; [vm_compute; reflexivity|]. split; [exact Hex|]. split; [exact Hpub|].
  destruct (publish_failure_reports_error K0 None true (Some "duckie") w_build_fails
              (PStr "secret") (job "p1") (PInt 7) st0 sample_wd sample_dcfn
              _ _ _ _ _ _ _ _ _ _ Ha Hsb Hrun Hex Hpub eq_refl)
    as (_ & Hrep & _).
  rewrite Hrep. vm_compute. reflexivity.
Defined.

(** C3, as stated, fails.  The results were read, with status SUCCESS and a
    score, and the build of the image then fails: the report is that of an
    ERROR result without scores, not of the result that was read.  And when
    it is the push that fails, the reported stats do hold an artifacts
    entry. *)
Lemma publish_failure_not_as_stated :
  w_read_challenge_results w_build_fails sample_wd = Ok good_results /\
  get_status good_results = SUCCESS /\
  get_stats good_results !! "score" = Some (PInt 10) /\
  List.filter is_report (trace (go_ K0 None true (Some "duckie") w_build_fails st0))
    = [ReportJob (PStr "secret") (PInt 7) ∅ ERROR "host" "4242" (PStr "evaluator:1") "1.0"] /\
  w_images_push w_push_fails = Raise (LibraryError "APIError" "push refused") /\
  List.filter is_report (trace (go_ K0 None true (Some "duckie") w_push_fails st0))
    = [ReportJob (PStr "secret") (PInt 7)
         {["artifacts" := PDict (<["size" := PInt 2048]>
                                   {["image" := PStr "duckie/jobs:7@sha256:cd"]})]}
         ERROR "host" "4242" (PStr "evaluator:1") "1.0"].
Proof. repeat split; vm_compute; reflexivity. Qed.

Lemma unsupported_protocol_is_reported_witness :
  acquired K0 w_p2 (PStr "secret") (job "p2") (PInt 7) /\
  spares_NothingLeft w_p2 /\
  py_eq_str (PStr "p2") "p1" = false /\
  List.filter is_system (trace (go_ K0 None true None w_p2 st0)) = [] /\
  List.filter is_report (trace (go_ K0 None true None w_p2 st0))
    = [ReportJob (PStr "secret") (PInt 7) ∅ ERROR "host" "4242" PNone "1.0"].
Proof.
  assert (Ha : acquired K0 w_p2 (PStr "secret") (job "p2") (PInt 7))
    by (apply sample_world_acquired; reflexivity).
  assert (Hs : spares_NothingLeft w_p2)
    by (apply sample_world_spares; simpl; auto).
  split; [exact Ha|]. split; [exact Hs|]. split; [reflexivity|].
  assert (Hcp : job "p2" !! "challenge_parameters"
                = Some (PDict (<["protocol" := PStr "p2"]>
                                 {["container" := PStr "evaluator:1"]})))
    by (vm_compute; reflexivity).
  assert (Hproto : (<["protocol" := PStr "p2"]> {["container" := PStr "evaluator:1"]}
                    : gmap string pyval) !! "protocol" = Some (PStr "p2"))
    by (vm_compute; reflexivity).
  destruct (unsupported_protocol_is_reported K0 None true None w_p2
              (PStr "secret") (job "p2") (PInt 7) st0 _ (PStr "p2")
              Ha Hs Hcp Hproto eq_refl)
    as (e & st1 & tr1 & Hsb & Hsys & Hrep & _).
  split; [exact Hsys|]. vm_compute. reflexivity.
Defined.

(** C4, as stated, fails.  For a job of protocol p2 the result reported is
    the very one of a job of protocol p3, and so is the report; its message
    is the traceback of the bare assertion and has no occurrence of p2. *)
Lemma unsupported_protocol_not_mentioned :
  exists cr s t,
    job_result K0 w_p2 (job "p2") (PInt 7) true None (fresh_locals st0) = (Ok cr, s, t) /\
    outcome (job_result K0 w_p3 (job "p3") (PInt 7) true None (fresh_locals st0)) = Ok cr /\
    cr_msg cr
      = "Uncaught exception:" +:+ nl +:+ "Traceback (most recent call last):" +:+ nl +:+
        "    assert evaluation_protocol == 'p1'" +:+ nl +:+ "AssertionError" +:+ nl /\
    mentions "p2" (cr_msg cr) = false /\
    List.filter is_report (trace (go_ K0 None true None w_p2 st0))
      = List.filter is_report (trace (go_ K0 None true None w_p3 st0)).
Proof. eexists _, _, _. repeat split; vm_compute; reflexivity. Qed.

Lemma no_job_is_not_a_fault_witness :
  w_config w_no_job = Ok {["token_dt1" := PStr "secret"]} /\
  w_work_submission w_no_job = Ok no_job /\
  no_job !! "job_id" = None /\
  go_ K0 None true None w_no_job st0
    = (Raise (NothingLeft "Could not find jobs: no jobs"), st0,
       [ReadConfig "/home/duckie/.dt-shell/config";
        WorkSubmission (PStr "secret") None "host" "4242" "1.0"]).
Proof.
  split; [reflexivity|]. split; [reflexivity|]. split; [vm_compute; reflexivity|].
  destruct (no_job_is_not_a_fault K0 None true None w_no_job st0
              {["token_dt1" := PStr "secret"]} (PStr "secret") no_job
              eq_refl eq_refl eq_refl) as [Hnone _].
  assert (Hj : no_job !! "job_id" = None) by (vm_compute; reflexivity).
  assert (Hm : no_job !! "msg" = Some (PStr "no jobs")) by (vm_compute; reflexivity).
  destruct (Hnone (PStr "no jobs") Hj Hm) as [Hgo _]. exact Hgo.
Defined.

Lemma report_failure_is_contained_witness :
  outcome (go_ K0 None true None (with_report (Ok tt) w_good) st0) = Ok tt /\
  outcome (loop_body K0 true None
             (with_report (Raise (ConnectionError "report lost")) w_good) 1.0%Q st0)
    = Ok (py_min 1.0 max_multiplier * 1.5)%Q /\
  final (loop_body K0 true None
           (with_report (Raise (ConnectionError "report lost")) w_good) 1.0%Q st0)
    = final (loop_body K0 true None (with_report (Ok tt) w_good) 1.0%Q st0).
Proof.
  assert (Hok : outcome (go_ K0 None true None (with_report (Ok tt) w_good) st0) = Ok tt)
    by (vm_compute; reflexivity).
  split; [exact Hok|].
  destruct (report_failure_is_contained K0 true None w_good 1.0%Q st0
              (ConnectionError "report lost") eq_refl Hok)
    as (_ & _ & Hko & Hgood & _).
  rewrite Hko, Hgood. split; reflexivity.
Defined.

Lemma unreadable_results_are_reported_witness :
  w_read_challenge_results w_no_results sample_wd
    = Raise (LibraryError "IOError" "no results file") /\
  List.filter is_report (trace (go_ K0 None true None w_no_results st0))
    = [ReportJob (PStr "secret") (PInt 7) ∅ ERROR "host" "4242" (PStr "evaluator:1") "1.0"].
Proof.
  set (s := mkState (Some sample_wd) (PStr "evaluator:1") PNone PNone).
  assert (Ha : acquired K0 w_no_results (PStr "secret") (job "p1") (PInt 7))
    by (apply sample_world_acquired; reflexivity).
  assert (Hs : spares_NothingLeft w_no_results)
    by (apply sample_world_spares; simpl; auto).
  assert (Hsb : sandbox K0 w_no_results (job "p1") (PInt 7) (fresh_locals st0)
    = (Ok (sample_wd, sample_dcfn), s,
       trace (sandbox K0 w_no_results (job "p1") (PInt 7) (fresh_locals st0))))
    by (vm_compute; reflexivity).
  assert (Hrun : runner w_no_results true sample_dcfn s
    = (Ok tt, s, [System (pull_cmd sample_dcfn); System (up_cmd sample_dcfn)]))
    by (vm_compute; reflexivity).
  split; [reflexivity|].
  destruct (unreadable_results_are_reported K0 None true None w_no_results
              (PStr "secret") (job "p1") (PInt 7) st0 sample_wd sample_dcfn
              _ _ _ _ (LibraryError "IOError" "no results file") Ha Hs Hsb Hrun eq_refl)
    as (_ & cr & st' & tr & Hjr & Hst & Hsc & _ & Hrep).
  rewrite Hrep. vm_compute in Hjr. injection Hjr as <- <- _. vm_compute. reflexivity.
Defined.

Lemma artifacts_only_when_published_witness :
  acquired K0 w_good (PStr "secret") (job "p1") (PInt 7) /\
  spares_NothingLeft w_good /\
  List.filter is_docker (trace (go_ K0 None true None w_good st0)) = [] /\
  List.filter is_report (trace (go_ K0 None true None w_good st0))
    = [ReportJob (PStr "secret") (PInt 7) {["score" := PInt 10]}
         SUCCESS "host" "4242" (PStr "evaluator:1") "1.0"].
Proof.
  assert (Ha : acquired K0 w_good (PStr "secret") (job "p1") (PInt 7))
    by (apply sample_world_acquired; reflexivity).
  assert (Hs : spares_NothingLeft w_good)
    by (apply sample_world_spares; simpl; auto).
  split; [exact Ha|]. split; [exact Hs|].
  destruct (artifacts_only_when_published K0 None true None w_good
              (PStr "secret") (job "p1") (PInt 7) st0 Ha Hs)
    as (cr & st1 & tr1 & Hjr & Hrep & Hnone & _).
  destruct (Hnone eq_refl) as (Hdocker & _).
  split; [exact Hdocker|]. vm_compute. reflexivity.
Defined.

(** C8, as stated, fails.  The registry refuses the push, so that nothing
    is published, and the report holds an artifacts entry all the same;
    when the image has no size the push is not even tried and the entry
    holds the size [None].  And without a docker user name the stats do
    hold an artifacts key when the scores themselves have one. *)
Lemma artifacts_without_publication :
  w_images_push w_push_fails = Raise (LibraryError "APIError" "push refused") /\
  List.filter is_report (trace (go_ K0 None true (Some "duckie") w_push_fails st0))
    = [ReportJob (PStr "secret") (PInt 7)
         {["artifacts" := PDict (<["size" := PInt 2048]>
                                   {["image" := PStr "duckie/jobs:7@sha256:cd"]})]}
         ERROR "host" "4242" (PStr "evaluator:1") "1.0"] /\
  List.filter is_docker (trace (go_ K0 None true (Some "duckie") w_no_size st0))
    = [DockerFromEnv; ImagesBuild sample_wd "duckie/jobs:7"; ImagesGet "duckie/jobs:7"] /\
  List.filter is_report (trace (go_ K0 None true (Some "duckie") w_no_size st0))
    = [ReportJob (PStr "secret") (PInt 7)
         {["artifacts" := PDict (<["size" := PNone]>
                                   {["image" := PStr "duckie/jobs:7@sha256:cd"]})]}
         ERROR "host" "4242" (PStr "evaluator:1") "1.0"] /\
  List.filter is_docker (trace (go_ K0 None true None w_artifacts_score st0)) = [] /\
  List.filter is_report (trace (go_ K0 None true None w_artifacts_score st0))
    = [ReportJob (PStr "secret") (PInt 7) {["artifacts" := PInt 0]}
         SUCCESS "host" "4242" (PStr "evaluator:1") "1.0"].
Proof. repeat split; vm_compute; reflexivity. Qed.

(** ** Further properties of the module *)

Lemma polled_ids_app (a b : list event) :
  polled_ids (a ++ b) = polled_ids a ++ polled_ids b.
Proof.
  induction a as [|ev a IH]; [reflexivity|].
  destruct ev; simpl; rewrite IH; reflexivity.
Qed.

Lemma polled_ids_none (t : list event) :
  List.filter is_poll t = [] -> polled_ids t = [].
Proof.
  induction t as [|ev t IH]; [reflexivity|].
  destruct ev; simpl; auto; discriminate.
Qed.

Lemma reports_app_length (a b : list event) :
  length (List.filter is_report (a ++ b))
  = (length (List.filter is_report a) + length (List.filter is_report b))%nat.
Proof. rewrite List.filter_app, length_app. reflexivity. Qed.

Lemma trace_mk {A} (r : result A) s t : trace (r, s, t) = t.
Proof. reflexivity. Qed.

Lemma outcome_mk {A} (r : result A) s t : outcome (r, s, t) = r.
Proof. reflexivity. Qed.

Lemma final_mk {A} (r : result A) s t : final (r, s, t) = s.
Proof. reflexivity. Qed.

Section Passes.

Context (K : constants).

Lemma acquisition_failure_polls submission_id w e t :
  acquisition_failure K submission_id w = Some (e, t) ->
  (polled_ids t = [] \/ polled_ids t = [submission_id]).
Proof.
  unfold acquisition_failure.
  destruct (w_config w) as [config|e0]; [|intros [= <- <-]; simpl; auto].
  destruct (config !! DT1_TOKEN_CONFIG_KEY K) as [token|];
    [|intros [= <- <-]; simpl; auto].
  destruct (w_work_submission w) as [res|e0]; [|intros [= <- <-]; simpl; auto].
  destruct (res !! "job_id") as [job_id|]; [discriminate|].
  destruct (res !! "msg") as [explanation|]; intros [= <- <-]; simpl; auto.
Qed.

(** A pass asks for work at most once, for the submission it was given,
    reports only after it asked, and never sleeps. *)
Lemma go_pass_calls submission_id do_pull docker_username w st :
  let t := trace (go_ K submission_id do_pull docker_username w st) in
  (polled_ids t = [] \/ polled_ids t = [submission_id]) /\
  (length (List.filter is_report t) <= length (polled_ids t))%nat /\
  List.filter is_sleep t = [].
Proof.
  cbv zeta.
  destruct (go_trace_shape K submission_id do_pull docker_username w st) as [Hsl _].
  split; [|split; [|exact Hsl]].
  - destruct (acquisition_failure K submission_id w) as [[e t]|] eqn:Hf.
    + rewrite (go_not_acquired K _ do_pull docker_username _ _ _ st Hf).
      apply (acquisition_failure_polls _ _ _ _ Hf).
    + destruct (go_acquires K _ _ Hf) as (token & res & job_id & Hacq).
      rewrite (go_acquired K submission_id do_pull docker_username w token res job_id st
                 Hacq). cbv zeta.
      pose proof (job_result_events K w res job_id do_pull docker_username
                    (fresh_locals st) I) as (Hev & _).
      pose proof (polled_ids_none _
                    (filter_none try_event is_poll _ Hev try_event_not_poll)) as Hp.
      destruct (job_result K w res job_id do_pull docker_username (fresh_locals st))
        as [[[cr|e] s] t]; unfold outcome, final, trace in *; cbn [fst snd] in *;
        right; rewrite !polled_ids_app, Hp; reflexivity.
  - destruct (acquisition_failure K submission_id w) as [[e t]|] eqn:Hf.
    + rewrite (go_not_acquired K _ do_pull docker_username _ _ _ st Hf).
      destruct (acquisition_failure_trace K _ _ _ _ Hf) as (_ & Hr & _).
      unfold trace; cbn [snd]. rewrite Hr. simpl. lia.
    + destruct (go_acquires K _ _ Hf) as (token & res & job_id & Hacq).
      rewrite (go_acquired K submission_id do_pull docker_username w token res job_id st
                 Hacq). cbv zeta.
      pose proof (job_result_events K w res job_id do_pull docker_username
                    (fresh_locals st) I) as (Hev & _).
      pose proof (filter_none try_event is_report _ Hev try_event_not_report) as Hr.
      pose proof (polled_ids_none _
                    (filter_none try_event is_poll _ Hev try_event_not_poll)) as Hp.
      destruct (job_result K w res job_id do_pull docker_username (fresh_locals st))
        as [[[cr|e] s] t]; unfold outcome, final, trace in *; cbn [fst snd] in *;
        rewrite !polled_ids_app, Hp, !List.filter_app, Hr; simpl; lia.
Qed.

Lemma for_submissions_cons do_pull docker_username sid subs ws k st :
  for_submissions K do_pull docker_username (sid :: subs) ws k st =
  let x := go_ K sid do_pull docker_username (ws k) st in
  let y := for_submissions K do_pull docker_username subs ws (S k) (final x) in
  match outcome x with
  | Ok _ => (outcome y, final y, trace x ++ trace y)
  | Raise (NothingLeft _) =>
      (outcome y, final y,
       (trace x ++ [Log LogInfo "No submissions available to evaluate."]) ++ trace y)
  | Raise e => (Raise e, final x, trace x)
  end.
Proof.
  cbv zeta. simpl. unfold bind, try_except, outcome, final, trace.
  destruct (go_ K sid do_pull docker_username (ws k) st) as [[[[]|e] s1] t1]; cbn [fst snd].
  - destruct (for_submissions K do_pull docker_username subs ws (S k) s1) as [[r2 s2] t2].
    reflexivity.
  - destruct e; cbn; rewrite ?app_nil_r; try reflexivity.
    destruct (for_submissions K do_pull docker_username subs ws (S k) s1) as [[r2 s2] t2].
    reflexivity.
Qed.

(** X1.  With a list of submissions the program asks for work for the
    listed identifiers only, in their order, each one at most once; it
    reports no more often than it asked, never sleeps, and never ends in
    [NothingLeft]. *)
Theorem explicit_list_asks_in_order do_pull docker_username submissions ws k st :
  let x := for_submissions K do_pull docker_username submissions ws k st in
  sublist (polled_ids (trace x)) submissions /\
  (length (List.filter is_report (trace x)) <= length (polled_ids (trace x)))%nat /\
  List.filter is_sleep (trace x) = [] /\
  (forall msg, outcome x <> Raise (NothingLeft msg)).
Proof.
  cbv zeta. revert k st. induction submissions as [|sid subs IH]; intros k st.
  - simpl. repeat split; auto; try constructor; try discriminate.
  - rewrite for_submissions_cons. cbv zeta.
    destruct (go_pass_calls sid do_pull docker_username (ws k) st) as (Hp & Hr & Hs).
    cbv zeta in Hp, Hr, Hs.
    set (x := go_ K sid do_pull docker_username (ws k) st) in *.
    destruct (IH (S k) (final x)) as (IHp & IHr & IHs & IHn).
    set (y := for_submissions K do_pull docker_username subs ws (S k) (final x)) in *.
    assert (Hsub : forall l, sublist l subs ->
              sublist (polled_ids (trace x) ++ l) (sid :: subs)).
    { intros l Hl. destruct Hp as [-> | ->]; simpl.
      - apply sublist_cons, Hl.
      - apply sublist_skip, Hl. }
    destruct (outcome x) as [[]|e] eqn:Hx.
    + rewrite !trace_mk, outcome_mk.
      rewrite polled_ids_app, reports_app_length, length_app, List.filter_app, Hs, IHs.
      repeat split; auto. lia.
    + destruct e; rewrite !trace_mk, outcome_mk;
        try (rewrite <- (app_nil_r (polled_ids (trace x)));
             repeat split; [apply Hsub, sublist_nil_l | rewrite app_nil_r; exact Hr
                           | exact Hs | discriminate ]).
      rewrite !polled_ids_app, !reports_app_length, !length_app, !List.filter_app, Hs, IHs.
      cbn [polled_ids List.filter is_report is_sleep length app].
      rewrite app_nil_r. repeat split; auto. lia.
Qed.

(** X2.  With a list of submissions only [NothingLeft] is caught: a pass
    that raises anything else ends the program there, with that exception,
    and the identifiers that follow are never asked for. *)
Theorem explicit_list_ends_at_failure do_pull docker_username submission_id rest
    ws k st e :
  outcome (go_ K submission_id do_pull docker_username (ws k) st) = Raise e ->
  spared e ->
  for_submissions K do_pull docker_username (submission_id :: rest) ws k st
    = (Raise e,
       final (go_ K submission_id do_pull docker_username (ws k) st),
       trace (go_ K submission_id do_pull docker_username (ws k) st)) /\
  sublist (polled_ids
             (trace (for_submissions K do_pull docker_username
                       (submission_id :: rest) ws k st)))
          [submission_id].
Proof.
  intros Hgo He. rewrite for_submissions_cons. cbv zeta. rewrite Hgo.
  assert (Heq : match e with
                | NothingLeft _ =>
                    (outcome (for_submissions K do_pull docker_username rest ws (S k)
                       (final (go_ K submission_id do_pull docker_username (ws k) st))),
                     final (for_submissions K do_pull docker_username rest ws (S k)
                       (final (go_ K submission_id do_pull docker_username (ws k) st))),
                     (trace (go_ K submission_id do_pull docker_username (ws k) st) ++
                      [Log LogInfo "No submissions available to evaluate."]) ++
                     trace (for_submissions K do_pull docker_username rest ws (S k)
                       (final (go_ K submission_id do_pull docker_username (ws k) st))))
                | _ => (Raise e,
                        final (go_ K submission_id do_pull docker_username (ws k) st),
                        trace (go_ K submission_id do_pull docker_username (ws k) st))
                end
                = (Raise e,
                   final (go_ K submission_id do_pull docker_username (ws k) st),
                   trace (go_ K submission_id do_pull docker_username (ws k) st))).
  { destruct e; try discriminate He; reflexivity. }
  rewrite Heq. split; [reflexivity|]. rewrite trace_mk.
  destruct (go_pass_calls submission_id do_pull docker_username (ws k) st)
    as ([-> | ->] & _); [apply sublist_nil_l | reflexivity].
Qed.

End Passes.

Lemma explicit_list_ends_at_failure_witness :
  for_submissions K0 true None [Some "12"; Some "13"] (fun _ => w_offline) 0 st0
    = (Raise (ConnectionError "server unreachable"),
       final (go_ K0 (Some "12") true None w_offline st0),
       trace (go_ K0 (Some "12") true None w_offline st0)) /\
  sublist (polled_ids
             (trace (for_submissions K0 true None [Some "12"; Some "13"]
                       (fun _ => w_offline) 0 st0)))
          [Some "12"].
Proof.
  apply (explicit_list_ends_at_failure K0 true None (Some "12") [Some "13"]
           (fun _ => w_offline) 0 st0 (ConnectionError "server unreachable")).
  - vm_compute. reflexivity.
  - reflexivity.
Defined.

Lemma loop_log_calls (r : result unit) :
  polled_ids (loop_log r) = [] /\ List.filter is_report (loop_log r) = [] /\
  sleeps (loop_log r) = [].
Proof. destruct r as [[]|[]]; simpl; auto. Qed.

Section Turns.

Context (K : constants).

(** X3.  The continuous loop goes on whatever its passes do: no exception
    of a pass ends it.  It asks for any job (no submission identifier), at
    most once a turn, reports no more often than it asked, and sleeps once a
    turn. *)
Theorem continuous_loop_goes_on do_pull docker_username ws m st :
  exists m' st' tr,
    continuous_loop K do_pull docker_username ws m st = (Ok m', st', tr) /\
    Forall (fun submission_id => submission_id = None) (polled_ids tr) /\
    (length (polled_ids tr) <= length ws)%nat /\
    (length (List.filter is_report tr) <= length (polled_ids tr))%nat /\
    length (sleeps tr) = length ws.
Proof.
  revert m st. induction ws as [|w ws IH]; intros m st.
  - exists m, st, []. simpl. repeat split; auto.
  - simpl. unfold bind. rewrite loop_body_eq. cbv zeta.
    destruct (go_pass_calls K None do_pull docker_username w st) as (Hp & Hr & Hs).
    cbv zeta in Hp, Hr, Hs.
    destruct (loop_log_calls (outcome (go_ K None do_pull docker_username w st)))
      as (Hlp & Hlr & Hls).
    set (x := go_ K None do_pull docker_username w st) in *.
    set (m1 := next_multiplier (outcome x) (py_min m max_multiplier)).
    destruct (IH m1 (final x)) as (m' & st' & tr & Hrun & Hall & Hlen & Hrep & Hsl).
    rewrite Hrun. eexists _, _, _. split; [reflexivity|].
    rewrite !polled_ids_app, !reports_app_length, !sleeps_app, !length_app.
    rewrite Hlp, Hlr, Hls, (sleeps_none _ Hs).
    cbn [polled_ids List.filter is_report sleeps length app]. rewrite app_nil_r.
    assert (Hone : (length (polled_ids (trace x)) <= 1)%nat)
      by (destruct Hp as [-> | ->]; simpl; lia).
    repeat split; try lia.
    apply Forall_app. split; [|exact Hall].
    destruct Hp as [-> | ->]; repeat constructor.
Qed.

(** X4.  From the start of the continuous loop every sleep lasts between
    5 and 75 seconds: the base interval times a multiplier that stays
    between 1 and 15. *)
Theorem sleeps_are_bounded do_pull docker_username ws st :
  Forall (fun d => (5 <= d)%Q /\ (d <= 75)%Q)
    (sleeps (trace (continuous_loop K do_pull docker_username ws 1.0%Q st))).
Proof.
  assert (H : forall m st0, (1 <= m)%Q -> (m <= 15)%Q ->
            Forall (fun d => (5 <= d)%Q /\ (d <= 75)%Q)
              (sleeps (trace (continuous_loop K do_pull docker_username ws m st0)))).
  { induction ws as [|w ws IH]; intros m st0 H1 H15; [constructor|].
    simpl. unfold bind. rewrite loop_body_eq. cbv zeta.
    destruct (py_min_cap m) as (Hc10 & _ & _ & Hc1). specialize (Hc1 H1).
    destruct (next_multiplier_bounds
                (outcome (go_ K None do_pull docker_username w st0))
                (py_min m max_multiplier) Hc1 Hc10) as [Hn1 Hn15].
    destruct (go_pass_calls K None do_pull docker_username w st0) as (_ & _ & Hs).
    cbv zeta in Hs.
    destruct (loop_log_calls (outcome (go_ K None do_pull docker_username w st0)))
      as (_ & _ & Hls).
    set (x := go_ K None do_pull docker_username w st0) in *.
    set (m1 := next_multiplier (outcome x) (py_min m max_multiplier)) in *.
    specialize (IH m1 (final x) Hn1 Hn15).
    destruct (continuous_loop K do_pull docker_username ws m1 (final x))
      as [[r2 s2] t2].
    rewrite trace_mk in *.
    rewrite !sleeps_app, Hls, (sleeps_none _ Hs). simpl.
    constructor; [unfold timeout; split; lra | exact IH]. }
  apply H; lra.
Qed.

End Turns.

Lemma extract_event_not_system ev : extract_event ev = true -> is_system ev = false.
Proof. destruct ev as [[]| | | | | | | | | | | | | | | | |]; simpl; auto; discriminate. Qed.

Lemma publish_event_not_system ev : publish_event ev = true -> is_system ev = false.
Proof. destruct ev as [[]| | | | | | | | | | | | | | | | |]; simpl; auto; discriminate. Qed.

Section Calls.
Context (K : constants).

(** The calls of a pass that acquired a job: those of the acquisition,
    those of the body of its [try] statement, then the log of the handler
    and the report, if any. *)
Lemma go_acquired_trace submission_id do_pull docker_username w token res job_id st :
  acquired K w token res job_id ->
  exists l,
    trace (go_ K submission_id do_pull docker_username w st)
      = acquisition K submission_id w token job_id ++
        trace (go_try K w res job_id do_pull docker_username (fresh_locals st)) ++ l /\
    forallb after_try l = true /\
    final (go_ K submission_id do_pull docker_username w st)
      = final (go_try K w res job_id do_pull docker_username (fresh_locals st)).
Proof.
  intros Hacq.
  rewrite (go_acquired K submission_id do_pull docker_username w token res job_id st Hacq).
  cbv zeta. unfold job_result, try_except.
  destruct (go_try K w res job_id do_pull docker_username (fresh_locals st))
    as [[[cr|e] s] t].
  - rewrite outcome_mk, !trace_mk, !final_mk. eexists. split; [reflexivity|].
    split; reflexivity.
  - destruct e; cbn; rewrite ?app_nil_r.
    1: exists []; rewrite app_nil_r; repeat split.
    all: eexists; rewrite <- !app_assoc; split; [reflexivity|]; split; reflexivity.
Qed.

Lemma runner_calls w do_pull dcfn st :
  final (runner w do_pull dcfn st) = st /\
  (trace (runner w do_pull dcfn st) = [System (up_cmd dcfn)] /\ do_pull = false \/
   trace (runner w do_pull dcfn st) = [System (pull_cmd dcfn)] /\ do_pull = true /\
     w_system w (pull_cmd dcfn) <> 0%Z \/
   trace (runner w do_pull dcfn st) = [System (pull_cmd dcfn); System (up_cmd dcfn)] /\
     do_pull = true /\ w_system w (pull_cmd dcfn) = 0%Z).
Proof.
  destruct do_pull.
  - destruct (Z.eq_dec (w_system w (pull_cmd dcfn)) 0%Z) as [Hp|Hp].
    + rewrite (runner_pulled w dcfn st Hp). split; [reflexivity|]. right; right. auto.
    + rewrite (runner_pull_failed w dcfn st Hp). split; [reflexivity|]. right; left. auto.
  - rewrite runner_without_pull. split; [reflexivity|]. left. auto.
Qed.

Lemma filter_all (P : event -> bool) t : forallb P t = true -> List.filter P t = t.
Proof.
  induction t as [|ev t IH]; [reflexivity|]. simpl.
  intros H. apply andb_true_iff in H as [-> Ht]. rewrite IH by exact Ht. reflexivity.
Qed.

(** The [os.system] calls of the body of the [try] statement are those of
    the runner, which runs only when the sandbox build returned. *)
Lemma go_try_systems w res job_id do_pull docker_username st :
  List.filter is_system (trace (go_try K w res job_id do_pull docker_username st)) =
  match sandbox K w res job_id st with
  | (Ok files, s1, _) => trace (runner w do_pull (snd files) s1)
  | _ => []
  end.
Proof.
  rewrite go_try_stages.
  pose proof (sandbox_obeys K (fun _ => True) (fun _ _ => True) w res job_id
                (fun _ _ => I) (answers_any w) st I) as (Hev1 & _).
  destruct (sandbox K w res job_id st) as [[[files|e] s1] t1]; unfold trace in *; cbn [snd] in *.
  2:{ apply (filter_none _ _ _ Hev1 sandbox_event_not_system). }
  pose proof (runner_obeys (fun _ => True) (fun _ => True) w do_pull (snd files)
                (fun _ _ => I) s1 I) as (Hev2 & _).
  pose proof (filter_none _ _ _ Hev1 sandbox_event_not_system) as H1.
  pose proof (filter_all is_system _ Hev2) as H2.
  destruct (runner w do_pull (snd files) s1) as [[[[]|e] s2] t2]; unfold trace in *; cbn [snd] in *.
  2:{ rewrite List.filter_app, H1, H2. reflexivity. }
  pose proof (extract_obeys (fun _ => True) (fun _ => True) w (fst files)
                (answers_any w) s2 I) as (Hev3 & _).
  destruct (extract w (fst files) s2) as [[[cr|e] s3] t3]; unfold trace in *; cbn [snd] in *.
  2:{ rewrite !List.filter_app, H1, H2,
        (filter_none _ _ _ Hev3 extract_event_not_system). apply app_nil_r. }
  pose proof (publish_obeys (fun _ => True) w docker_username (fst files) job_id
                (fun _ _ => I) (answers_any w) s3 I) as (Hev4 & _).
  destruct (publish w docker_username (fst files) job_id s3) as [[[[]|e] s4] t4];
    unfold trace in *; cbn [snd] in *;
    rewrite !List.filter_app, H1, H2,
      (filter_none _ _ _ Hev3 extract_event_not_system),
      (filter_none _ _ _ Hev4 publish_event_not_system), !app_nil_r; reflexivity.
Qed.

Lemma acquisition_failure_quiet submission_id w e t :
  acquisition_failure K submission_id w = Some (e, t) ->
  List.filter is_system t = [] /\ List.filter is_docker t = [].
Proof.
  unfold acquisition_failure.
  destruct (w_config w) as [config|e0]; [|intros [= <- <-]; simpl; auto].
  destruct (config !! DT1_TOKEN_CONFIG_KEY K) as [token|];
    [|intros [= <- <-]; simpl; auto].
  destruct (w_work_submission w) as [res|e0]; [|intros [= <- <-]; simpl; auto].
  destruct (res !! "job_id") as [job_id|]; [discriminate|].
  destruct (res !! "msg") as [explanation|]; intros [= <- <-]; simpl; auto.
Qed.

Lemma after_try_quiet l :
  forallb after_try l = true ->
  List.filter is_system l = [] /\ List.filter is_docker l = [] /\ polled_ids l = [].
Proof.
  intros H. repeat split.
  - apply (filter_none _ _ _ H). intros [[]| | | | | | | | | | | | | | | | |]; simpl; auto; discriminate.
  - apply (filter_none _ _ _ H). intros [[]| | | | | | | | | | | | | | | | |]; simpl; auto; discriminate.
  - apply polled_ids_none, (filter_none _ _ _ H).
    intros [[]| | | | | | | | | | | | | | | | |]; simpl; auto; discriminate.
Qed.

(** A pass runs docker-compose only for a job it acquired: once at most
    without pulling, twice at most with it. *)
Lemma go_systems submission_id do_pull docker_username w st :
  let t := trace (go_ K submission_id do_pull docker_username w st) in
  (length (List.filter is_system t)
   <= (if do_pull then 2 else 1) * length (polled_ids t))%nat.
Proof.
  cbv zeta.
  destruct (acquisition_failure K submission_id w) as [[e t]|] eqn:Hf.
  - rewrite (go_not_acquired K _ do_pull docker_username _ _ _ st Hf), trace_mk.
    destruct (acquisition_failure_quiet _ _ _ _ Hf) as [-> _]. simpl. lia.
  - destruct (go_acquires K _ _ Hf) as (token & res & job_id & Hacq).
    destruct (go_acquired_trace submission_id do_pull docker_username w token res job_id
                st Hacq) as (l & -> & Hl & _).
    destruct (after_try_quiet l Hl) as (Hls & _ & Hlp).
    pose proof (go_try_obeys K (fun _ => True) w res job_id do_pull docker_username
                  (fun _ _ => I) (answers_any w) (fresh_locals st) I) as (Hev & _).
    rewrite !List.filter_app, !polled_ids_app, Hls, Hlp,
      (polled_ids_none _ (filter_none _ _ _ Hev try_event_not_poll)).
    rewrite go_try_systems. unfold acquisition. cbn [List.filter is_system polled_ids app length].
    rewrite app_nil_r.
    destruct (sandbox K w res job_id (fresh_locals st)) as [[[files|e] s1] t1];
      [|destruct do_pull; simpl; lia].
    destruct (runner_calls w do_pull (snd files) s1)
      as (_ & [[-> ->]|[(-> & -> & _)|(-> & -> & _)]]); simpl; lia.
Qed.
End Calls.

Section Program.

Context (K : constants).

(** What holds of the calls of every pass, and is kept when calls are put
    one after the other, holds of the calls of the two loops. *)
Lemma for_submissions_all (P : list event -> Prop) do_pull docker_username :
  P [] -> (forall a b, P a -> P b -> P (a ++ b)) ->
  (forall ev, driver_event ev = true -> P [ev]) ->
  (forall submission_id w st,
     P (trace (go_ K submission_id do_pull docker_username w st))) ->
  forall submissions ws k st,
    P (trace (for_submissions K do_pull docker_username submissions ws k st)).
Proof.
  intros Hnil Happ Hev Hgo submissions ws.
  induction submissions as [|sid subs IH]; intros k st; [exact Hnil|].
  rewrite for_submissions_cons. cbv zeta.
  pose proof (Hgo sid (ws k) st) as Hx.
  set (x := go_ K sid do_pull docker_username (ws k) st) in *.
  pose proof (IH (S k) (final x)) as Hy.
  destruct (outcome x) as [[]|e]; [rewrite trace_mk; auto|].
  destruct e; rewrite trace_mk; auto.
Qed.

Lemma continuous_loop_all (P : list event -> Prop) do_pull docker_username :
  P [] -> (forall a b, P a -> P b -> P (a ++ b)) ->
  (forall ev, driver_event ev = true -> P [ev]) ->
  (forall w st, P (trace (go_ K None do_pull docker_username w st))) ->
  forall ws m st,
    P (trace (continuous_loop K do_pull docker_username ws m st)).
Proof.
  intros Hnil Happ Hev Hgo ws.
  induction ws as [|w ws IH]; intros m st; [exact Hnil|].
  simpl. unfold bind. rewrite loop_body_eq. cbv zeta.
  pose proof (Hgo w st) as Hx.
  set (x := go_ K None do_pull docker_username w st) in *.
  set (m1 := next_multiplier (outcome x) (py_min m max_multiplier)).
  pose proof (IH m1 (final x)) as Hy.
  destruct (continuous_loop K do_pull docker_username ws m1 (final x)) as [[r2 s2] t2].
  rewrite trace_mk in *. apply Happ; [|exact Hy].
  apply Happ; [exact Hx|]. apply Happ; [|apply Hev; reflexivity].
  destruct (outcome x) as [[]|[]]; simpl; auto.
Qed.

Lemma evaluator_all (P : list event -> Prop) s parsed :
  P [] -> (forall a b, P a -> P b -> P (a ++ b)) ->
  (forall ev, driver_event ev = true -> P [ev]) ->
  (forall submission_id w st,
     P (trace (go_ K submission_id (negb (no_pull parsed)) (resolved_username s) w st))) ->
  forall ws turns st,
    P (trace (dt_challenges_evaluator K s parsed ws turns st)).
Proof.
  intros Hnil Happ Hev Hgo ws turns st.
  unfold dt_challenges_evaluator, resolved_username in *.
  unfold bind at 1. unfold emit at 1, call at 1.
  unfold bind at 1. unfold lift at 1.
  destruct (s_check_docker_environment s) as [[]|e];
    [|rewrite trace_mk; apply Hev; reflexivity].
  unfold bind at 1. unfold try_except at 1, lift at 1.
  destruct (s_check_executable_exists s) as [[]|e].
  2:{ destruct e; cbn; apply Hev; reflexivity. }
  unfold bind at 1. unfold try_except at 1. unfold bind at 1. unfold lift at 1.
  destruct (s_get_dockerhub_username s) as [username|e].
  - unfold ret at 1. destruct (continuous parsed).
    + pose proof (continuous_loop_all P (negb (no_pull parsed)) (Some username)
                    Hnil Happ Hev (Hgo None) (map ws (seq 0 turns)) 1.0%Q st) as Hl.
      unfold bind, ret.
      destruct (continuous_loop K _ _ _ _ st) as [[[m|e] s2] t2]; rewrite trace_mk in *;
        cbn [app]; rewrite ?app_nil_r;
        apply (Happ [_]); auto.
    + pose proof (for_submissions_all P (negb (no_pull parsed)) (Some username)
                    Hnil Happ Hev Hgo
                    (match extra parsed with [] => [None] | ids => map Some ids end)
                    ws 0%nat st) as Hl.
      destruct (for_submissions K _ _ _ _ _ st) as [[r2 s2] t2]; rewrite trace_mk in *.
      cbn [app]. apply (Happ [_]); auto.
  - unfold bind at 1. unfold emit at 1, call at 1. unfold ret at 1.
    destruct (continuous parsed).
    + pose proof (continuous_loop_all P (negb (no_pull parsed)) None
                    Hnil Happ Hev (Hgo None) (map ws (seq 0 turns)) 1.0%Q st) as Hl.
      unfold bind, ret.
      destruct (continuous_loop K _ _ _ _ st) as [[[m|e'] s2] t2]; rewrite trace_mk in *;
        cbn [app]; rewrite ?app_nil_r;
        apply (Happ [_]); auto; apply (Happ [_]); auto.
    + pose proof (for_submissions_all P (negb (no_pull parsed)) None
                    Hnil Happ Hev Hgo
                    (match extra parsed with [] => [None] | ids => map Some ids end)
                    ws 0%nat st) as Hl.
      destruct (for_submissions K _ _ _ _ _ st) as [[r2 s2] t2]; rewrite trace_mk in *.
      cbn [app]. apply (Happ [_]); auto. apply (Happ [_]); auto.
Qed.

Lemma driver_event_quiet ev :
  driver_event ev = true ->
  is_docker ev = false /\ is_system ev = false /\ is_poll ev = false /\ is_report ev = false.
Proof. destruct ev; simpl; auto; discriminate. Qed.

(** A pass without a docker user name makes no call on the docker client. *)
Lemma go_without_username submission_id do_pull w st :
  List.filter is_docker (trace (go_ K submission_id do_pull None w st)) = [].
Proof.
  destruct (acquisition_failure K submission_id w) as [[e t]|] eqn:Hf.
  - rewrite (go_not_acquired K _ do_pull None _ _ _ st Hf), trace_mk.
    apply (acquisition_failure_quiet K _ _ _ _ Hf).
  - destruct (go_acquires K _ _ Hf) as (token & res & job_id & Hacq).
    destruct (go_acquired_trace K submission_id do_pull None w token res job_id
                st Hacq) as (l & -> & Hl & _).
    destruct (after_try_quiet l Hl) as (_ & Hld & _).
    destruct (go_try_artifacts K w res job_id do_pull None (fresh_locals st) eq_refl)
      as [(_ & _ & Hd)|(u & image & wd & Hu & _)]; [|discriminate Hu].
    rewrite !List.filter_app, Hld, (Hd eq_refl). reflexivity.
Qed.

(** X5.  When no docker user name is found at the start, the program never
    calls the docker client, in either mode and whatever its passes meet. *)
Theorem no_username_no_docker_call s parsed ws turns st e :
  s_get_dockerhub_username s = Raise e ->
  List.filter is_docker (trace (dt_challenges_evaluator K s parsed ws turns st)) = [].
Proof.
  intros Hu.
  apply (evaluator_all (fun t => List.filter is_docker t = [])).
  - reflexivity.
  - intros a b Ha Hb. rewrite List.filter_app, Ha, Hb. reflexivity.
  - intros ev Hev. simpl. destruct (driver_event_quiet ev Hev) as (-> & _). reflexivity.
  - intros submission_id w st1. unfold resolved_username. rewrite Hu.
    apply go_without_username.
Qed.

(** X6.  The program runs docker-compose only for work it asked for: at
    most twice for each call for work, and at most once with --no-pull. *)
Theorem compose_calls_per_poll s parsed ws turns st :
  let t := trace (dt_challenges_evaluator K s parsed ws turns st) in
  (length (List.filter is_system t)
   <= (if no_pull parsed then 1 else 2) * length (polled_ids t))%nat.
Proof.
  cbv zeta.
  apply (evaluator_all (fun t => (length (List.filter is_system t)
           <= (if no_pull parsed then 1 else 2) * length (polled_ids t))%nat)).
  - simpl. lia.
  - intros a b Ha Hb. rewrite List.filter_app, polled_ids_app, !length_app. lia.
  - intros ev Hev. simpl. destruct (driver_event_quiet ev Hev) as (_ & -> & _). simpl. lia.
  - intros submission_id w st1.
    pose proof (go_systems K submission_id (negb (no_pull parsed)) (resolved_username s) w st1)
      as H. cbv zeta in H. destruct (no_pull parsed); exact H.
Qed.

End Program.

(** ** Reading a computation that returned *)

Lemma bind_ok_inv {A B} (c : M A) (k : A -> M B) st b s2 t :
  bind c k st = (Ok b, s2, t) ->
  exists a s1 t1 t2, c st = (Ok a, s1, t1) /\ k a s1 = (Ok b, s2, t2) /\ t = t1 ++ t2.
Proof.
  unfold bind. destruct (c st) as [[[a|e] s1] t1]; [|discriminate].
  destruct (k a s1) as [[r s2'] t2] eqn:Hk. intros [= -> -> <-].
  exists a, s1, t1, t2. auto.
Qed.

Lemma call_ok_inv {A} ev (r : result A) st a s t :
  call ev r st = (Ok a, s, t) -> r = Ok a /\ s = st /\ t = [ev].
Proof. unfold call. intros [= -> <- <-]. auto. Qed.

Lemma lift_ok_inv {A} (r : result A) st a s t :
  lift r st = (Ok a, s, t) -> r = Ok a /\ s = st /\ t = [].
Proof. unfold lift. intros [= -> <- <-]. auto. Qed.

Lemma getitem_d_ok_inv d k st v s t :
  getitem_d d k st = (Ok v, s, t) -> d !! k = Some v /\ s = st /\ t = [].
Proof.
  unfold getitem_d. destruct (d !! k) as [v'|]; [|discriminate].
  intros [= -> <- <-]. auto.
Qed.

Lemma getitem_ok_inv x k st v s t :
  getitem x k st = (Ok v, s, t) ->
  exists d, x = PDict d /\ d !! k = Some v /\ s = st /\ t = [].
Proof.
  destruct x; try discriminate. simpl. intros H.
  apply getitem_d_ok_inv in H. eauto.
Qed.

Section Sandbox.
Context (K : constants).

Lemma sandbox_returned w res job_id st wd dcfn s1 t1 :
  sandbox K w res job_id st = (Ok (wd, dcfn), s1, t1) ->
  w_mkdtemp w = Ok wd /\
  dcfn = path_join wd "docker-compose.yaml" /\
  exists cp proto container compose,
    res !! "challenge_parameters" = Some (PDict cp) /\
    cp !! "protocol" = Some proto /\ py_eq_str proto "p1" = true /\
    cp !! "container" = Some container /\
    w_write w dcfn compose = Ok tt /\
    s1 = mkState (Some wd) container (artifacts_image st) (size st) /\
    t1 = sandbox_calls K w st wd (PDict cp) compose job_id.
Proof.
  unfold sandbox. intros H.
  apply bind_ok_inv in H as (wd0 & ? & ? & ? & Hc & H & ->).
  apply call_ok_inv in Hc as (Hmk & -> & ->).
  apply bind_ok_inv in H as (st' & ? & ? & ? & Hc & H & ->).
  unfold get in Hc. injection Hc as <- <- <-.
  apply bind_ok_inv in H as ([] & ? & ? & ? & Hlink & H & ->).
  apply bind_ok_inv in H as ([] & ? & ? & ? & Hc & H & ->).
  apply call_ok_inv in Hc as (Hsym & -> & ->).
  apply bind_ok_inv in H as ([] & ? & ? & ? & Hc & H & ->).
  unfold set_last_link, modify in Hc. injection Hc as <- <-.
  apply bind_ok_inv in H as (cn & ? & ? & ? & Hc & H & ->).
  apply getitem_d_ok_inv in Hc as (Hcn & -> & ->).
  apply bind_ok_inv in H as (ps & ? & ? & ? & Hc & H & ->).
  apply getitem_d_ok_inv in Hc as (Hps & -> & ->).
  apply bind_ok_inv in H as (sc & ? & ? & ? & Hc & H & ->).
  apply getitem_ok_inv in Hc as (psd & -> & Hh & -> & ->).
  apply bind_ok_inv in H as (cpv & ? & ? & ? & Hc & H & ->).
  apply getitem_d_ok_inv in Hc as (Hcp & -> & ->).
  apply bind_ok_inv in H as ([] & ? & ? & ? & Hc & H & ->).
  unfold emit in Hc. apply call_ok_inv in Hc as (_ & -> & ->).
  apply bind_ok_inv in H as (proto & ? & ? & ? & Hc & H & ->).
  apply getitem_ok_inv in Hc as (cp & -> & Hproto & -> & ->).
  apply bind_ok_inv in H as ([] & ? & ? & ? & Hc & H & ->).
  destruct (py_eq_str proto "p1") eqn:Hp1; [|discriminate Hc].
  unfold ret in Hc. injection Hc as <- <-.
  apply bind_ok_inv in H as (container & ? & ? & ? & Hc & H & ->).
  simpl in Hc. apply getitem_d_ok_inv in Hc as (Hcont & -> & ->).
  apply bind_ok_inv in H as ([] & ? & ? & ? & Hc & H & ->).
  unfold set_evaluation_container, modify in Hc. injection Hc as <- <-.
  apply bind_ok_inv in H as (USERNAME & ? & ? & ? & Hc & H & ->).
  apply lift_ok_inv in Hc as (Huser & -> & ->).
  apply bind_ok_inv in H as ([] & ? & ? & ? & Hdirs & H & ->).
  apply bind_ok_inv in H as ([] & ? & ? & ? & Hc & H & ->).
  apply call_ok_inv in Hc as (Hdf & -> & ->).
  apply bind_ok_inv in H as ([] & ? & ? & ? & Hc & H & ->).
  unfold emit in Hc. apply call_ok_inv in Hc as (_ & -> & ->).
  apply bind_ok_inv in H as ([] & ? & ? & ? & Hc & H & ->).
  apply call_ok_inv in Hc as (Hdc & -> & ->).
  unfold ret in H. injection H as <- <- <- <-.
  (* the four directories *)
  simpl in Hdirs.
  apply bind_ok_inv in Hdirs as ([] & ? & ? & ? & Hc & Hdirs & ->).
  apply call_ok_inv in Hc as (_ & -> & ->).
  apply bind_ok_inv in Hdirs as ([] & ? & ? & ? & Hc & Hdirs & ->).
  apply call_ok_inv in Hc as (_ & -> & ->).
  apply bind_ok_inv in Hdirs as ([] & ? & ? & ? & Hc & Hdirs & ->).
  apply call_ok_inv in Hc as (_ & -> & ->).
  apply bind_ok_inv in Hdirs as ([] & ? & ? & ? & Hc & Hdirs & ->).
  apply call_ok_inv in Hc as (_ & -> & ->).
  unfold ret in Hdirs. injection Hdirs as <- <-.
  split; [exact Hmk|]. split; [reflexivity|].
  exists cp, proto, container. eexists.
  split; [exact Hcp|]. split; [exact Hproto|]. split; [exact Hp1|].
  split; [exact Hcont|]. split; [exact Hdc|].
  (* the link *)
  unfold sandbox_calls.
  destruct (last_link st) as [old|] eqn:Hl.
  - apply bind_ok_inv in Hlink as ([] & ? & ? & ? & Hc & Hlink & ->).
    apply call_ok_inv in Hc as (_ & -> & ->).
    unfold set_last_link, modify in Hlink. injection Hlink as <- <-.
    simpl. split; reflexivity.
  - unfold ret in Hlink. injection Hlink as <- <-.
    simpl. split; reflexivity.
Qed.

End Sandbox.

Lemma final_bind {A B} (c : M A) (k : A -> M B) st :
  final (bind c k st) =
  match outcome (c st) with
  | Ok a => final (k a (final (c st)))
  | Raise _ => final (c st)
  end.
Proof.
  unfold bind, final, outcome. destruct (c st) as [[[a|e] s1] t1]; cbn [fst snd]; auto.
  destruct (k a s1) as [[r s2] t2]. reflexivity.
Qed.

Lemma final_bind_keeps {A B} Pev Pex (Inv : state -> Prop) (c : M A) (k : A -> M B) st :
  (forall a, obeys Pev Pex Inv (k a)) -> Inv (final (c st)) -> Inv (final (bind c k st)).
Proof.
  intros Hk Hc. rewrite final_bind. destruct (outcome (c st)) as [a|e]; [|exact Hc].
  apply (Hk a _ Hc).
Qed.

Lemma final_step_call {A B} ev (r : result A) (k : A -> M B) st :
  final (bind (call ev r) k st) = match r with Ok a => final (k a st) | Raise _ => st end.
Proof. rewrite final_bind. destruct r; reflexivity. Qed.

Lemma final_step_get {B} (k : state -> M B) st : final (bind get k st) = final (k st st).
Proof. rewrite final_bind. reflexivity. Qed.

Lemma final_step_modify {B} f (k : unit -> M B) st :
  final (bind (modify f) k st) = final (k tt (f st)).
Proof. rewrite final_bind. reflexivity. Qed.

Lemma final_step_ret {A B} (a : A) (k : A -> M B) st :
  final (bind (ret a) k st) = final (k a st).
Proof. rewrite final_bind. reflexivity. Qed.

Lemma final_bind_assoc {A B C} (c : M A) (k1 : A -> M B) (k2 : B -> M C) st :
  final (bind (bind c k1) k2 st) = final (bind c (fun a => bind (k1 a) k2) st).
Proof.
  unfold bind, final. destruct (c st) as [[[a|e] s1] t1]; cbn [fst snd]; auto.
  destruct (k1 a s1) as [[[b|e] s2] t2]; cbn [fst snd]; auto.
  destruct (k2 b s2) as [[r s3] t3]; reflexivity.
Qed.

Section Sandbox_state.
Context (K : constants).

Lemma sandbox_link w res job_id st :
  last_link (final (sandbox K w res job_id st)) = link_after w (last_link st).
Proof.
  assert (Hsp : forall e, spared e -> (fun _ : exn => True) e) by auto.
  destruct (answers_any w).
  assert (Hrest : forall wd s,
    last_link
      (final
         ((call (Symlink wd LAST) (w_symlink w) ;;;
           set_last_link (Some wd) ;;;
           challenge_name <- getitem_d res "challenge_name" ;;
           parameters <- getitem_d res "parameters" ;;
           solution_container <- getitem parameters "hash" ;;
           challenge_parameters <- getitem_d res "challenge_parameters" ;;
           emit (Stdout (py_str w challenge_parameters)) ;;;
           evaluation_protocol <- getitem challenge_parameters "protocol" ;;
           (if py_eq_str evaluation_protocol "p1" then ret tt
            else raise (AssertionError "evaluation_protocol == 'p1'")) ;;;
           container <- getitem challenge_parameters "container" ;;
           set_evaluation_container container ;;;
           USERNAME <- lift (w_getuser w) ;;
           for_each [path_join wd (CHALLENGE_SOLUTION_OUTPUT_DIR K);
                     path_join wd (CHALLENGE_RESULTS_DIR K);
                     path_join wd (CHALLENGE_DESCRIPTION_DIR K);
                     path_join wd (CHALLENGE_EVALUATION_OUTPUT_DIR K)]
                    (fun d => call (Makedirs d) (w_makedirs w d)) ;;;
           call (WriteFile (path_join wd "Dockerfile") (dockerfile_text w job_id))
             (w_write w (path_join wd "Dockerfile") (dockerfile_text w job_id)) ;;;
           emit (Stdout (compose_text K w solution_container container USERNAME (w_getuid w)
                   (path_join wd (CHALLENGE_SOLUTION_OUTPUT_DIR K))
                   (path_join wd (CHALLENGE_RESULTS_DIR K))
                   (path_join wd (CHALLENGE_DESCRIPTION_DIR K))
                   (path_join wd (CHALLENGE_EVALUATION_OUTPUT_DIR K)))) ;;;
           call (WriteFile (path_join wd "docker-compose.yaml")
                   (compose_text K w solution_container container USERNAME (w_getuid w)
                   (path_join wd (CHALLENGE_SOLUTION_OUTPUT_DIR K))
                   (path_join wd (CHALLENGE_RESULTS_DIR K))
                   (path_join wd (CHALLENGE_DESCRIPTION_DIR K))
                   (path_join wd (CHALLENGE_EVALUATION_OUTPUT_DIR K))))
                (w_write w (path_join wd "docker-compose.yaml")
                   (compose_text K w solution_container container USERNAME (w_getuid w)
                   (path_join wd (CHALLENGE_SOLUTION_OUTPUT_DIR K))
                   (path_join wd (CHALLENGE_RESULTS_DIR K))
                   (path_join wd (CHALLENGE_DESCRIPTION_DIR K))
                   (path_join wd (CHALLENGE_EVALUATION_OUTPUT_DIR K)))) ;;;
           ret (wd, path_join wd "docker-compose.yaml")) s))
    = match w_symlink w with Ok _ => Some wd | Raise _ => last_link s end).
  { intros wd s. rewrite final_step_call.
    destruct (w_symlink w) as [[]|e]; [|reflexivity].
    apply (final_bind_keeps sandbox_event (fun _ => True) (fun s => last_link s = Some wd)).
    - intros _. obey.
    - reflexivity. }
  unfold link_after, sandbox.
  rewrite final_step_call.
  destruct (w_mkdtemp w) as [wd|e]; [|reflexivity].
  rewrite final_step_get.
  destruct (last_link st) as [old|] eqn:Hl.
  - rewrite final_bind_assoc, final_step_call.
    destruct (w_unlink w) as [[]|e]; [|exact Hl].
    unfold set_last_link at 1. rewrite final_step_modify, Hrest.
    destruct (w_symlink w); reflexivity.
  - rewrite final_step_ret, Hrest, Hl. destruct (w_symlink w); reflexivity.
Qed.

End Sandbox_state.

Lemma final_step_getitem_d {B} d key (k : pyval -> M B) st :
  final (bind (getitem_d d key) k st)
  = match d !! key with Some v => final (k v st) | None => st end.
Proof. rewrite final_bind. unfold getitem_d. destruct (d !! key); reflexivity. Qed.

Lemma final_step_getitem {B} x key (k : pyval -> M B) st :
  final (bind (getitem x key) k st)
  = match x with
    | PDict d => match d !! key with Some v => final (k v st) | None => st end
    | _ => st
    end.
Proof. destruct x; try reflexivity. apply final_step_getitem_d. Qed.

Lemma job_container_accepted res container :
  job_container res = Some container -> accepted res container.
Proof.
  unfold job_container, accepted.
  destruct (res !! "challenge_name"); [|discriminate].
  destruct (res !! "parameters") as [[]|]; try discriminate.
  destruct (_ !! "hash"); [|discriminate].
  destruct (res !! "challenge_parameters") as [[| | | |cp]|]; try discriminate.
  destruct (cp !! "protocol") as [proto|] eqn:Hp; [|discriminate].
  destruct (py_eq_str proto "p1") eqn:Hp1; [|discriminate].
  intros Hc. exists cp, proto. auto.
Qed.

Lemma unlink_step w st :
  (call (Unlink LAST) (w_unlink w) ;;; set_last_link None) st
  = match w_unlink w with
    | Ok _ => (Ok tt, mkState None (evaluation_container st) (artifacts_image st) (size st),
               [Unlink LAST])
    | Raise e => (Raise e, st, [Unlink LAST])
    end.
Proof. unfold bind, call. destruct (w_unlink w) as [[]|e]; reflexivity. Qed.

Section Container.
Context (K : constants).

Lemma sandbox_container_after w res job_id st :
  evaluation_container (final (sandbox K w res job_id st))
  = match assigned_container w res (last_link st) with
    | Some container => container
    | None => evaluation_container st
    end.
Proof.
  assert (Hsp : forall e, spared e -> (fun _ : exn => True) e) by auto.
  destruct (answers_any w).
  unfold assigned_container, sandbox.
  rewrite final_step_call.
  destruct (w_mkdtemp w) as [wd|e]; [|reflexivity].
  rewrite final_step_get.
  match goal with
  | |- context [final (bind _ ?k st)] => set (tail := k)
  end.
  assert (Htail : forall u s,
            evaluation_container (final (tail u s))
            = match w_symlink w with
              | Ok _ => match job_container res with
                        | Some container => container
                        | None => evaluation_container s
                        end
              | Raise _ => evaluation_container s
              end).
  { intros u s. subst tail. cbv beta.
    rewrite final_step_call. destruct (w_symlink w) as [[]|e]; [|reflexivity].
    unfold set_last_link at 1. rewrite final_step_modify. unfold job_container.
    rewrite final_step_getitem_d.
    destruct (res !! "challenge_name") as [cn|]; [|reflexivity].
    rewrite final_step_getitem_d.
    destruct (res !! "parameters") as [ps|]; [|reflexivity].
    rewrite final_step_getitem.
    destruct ps as [| | | |ps]; try reflexivity.
    destruct (ps !! "hash") as [h|]; [|reflexivity].
    rewrite final_step_getitem_d.
    destruct (res !! "challenge_parameters") as [cpv|]; [|reflexivity].
    unfold emit at 1. rewrite final_step_call.
    rewrite final_step_getitem.
    destruct cpv as [| | | |cp]; try reflexivity.
    destruct (cp !! "protocol") as [proto|]; [|reflexivity].
    rewrite final_bind.
    destruct (py_eq_str proto "p1"); [|reflexivity].
    unfold ret at 1 2. unfold outcome at 1, final at 2. cbn [fst snd].
    change (getitem (PDict cp) "container") with (getitem_d cp "container").
    rewrite final_step_getitem_d.
    destruct (cp !! "container") as [container|]; [|reflexivity].
    unfold set_evaluation_container at 1. rewrite final_step_modify.
    apply (final_bind_keeps sandbox_event (fun _ => True)
             (fun s => evaluation_container s = container)).
    - intros USERNAME. obey.
    - reflexivity. }
  rewrite final_bind.
  destruct (last_link st) as [old|] eqn:Hl; cbv beta iota.
  - rewrite unlink_step. destruct (w_unlink w) as [[]|e];
      rewrite outcome_mk, final_mk; [rewrite Htail|reflexivity].
    destruct (w_symlink w); [destruct (job_container res)|]; reflexivity.
  - unfold ret at 1 2. rewrite outcome_mk, final_mk, Htail.
    destruct (w_symlink w); [destruct (job_container res)|]; reflexivity.
Qed.

End Container.

Lemma assigned_container_accepted w res link container :
  assigned_container w res link = Some container -> accepted res container.
Proof.
  unfold assigned_container.
  destruct (w_mkdtemp w); [|discriminate].
  destruct (match link with Some _ => w_unlink w | None => Ok tt end); [|discriminate].
  destruct (w_symlink w); [|discriminate].
  apply job_container_accepted.
Qed.

Lemma in_stage (P : event -> bool) t ev :
  forallb P t = true -> In ev t -> P ev = true.
Proof. intros H Hin. rewrite forallb_forall in H. auto. Qed.

Lemma in_filtered (P : event -> bool) t ev :
  In ev t -> P ev = true -> In ev (List.filter P t).
Proof. intros. apply filter_In. auto. Qed.

Lemma extract_calls w wd st :
  final (extract w wd st) = st /\
  exists l, trace (extract w wd st) = ReadChallengeResults wd :: l /\
            List.filter is_read l = [] /\ List.filter is_docker l = [] /\
            List.filter is_system l = [].
Proof.
  destruct (w_read_challenge_results w wd) as [cr|e] eqn:Hr.
  - rewrite (extract_read w wd st cr Hr). split; [reflexivity|]. exists []. auto.
  - destruct (w_format_exc_limit w e) as [t|e'] eqn:Hf.
    + rewrite (extract_unreadable w wd st e t Hr Hf). split; [reflexivity|].
      eexists. split; [reflexivity|]. auto.
    + rewrite (extract_unrendered w wd st e e' Hr Hf). split; [reflexivity|].
      exists []. auto.
Qed.

Lemma publish_frame w docker_username wd job_id st :
  last_link (final (publish w docker_username wd job_id st)) = last_link st /\
  evaluation_container (final (publish w docker_username wd job_id st))
    = evaluation_container st /\
  List.filter is_read (trace (publish w docker_username wd job_id st)) = [] /\
  List.filter is_system (trace (publish w docker_username wd job_id st)) = [].
Proof.
  pose proof (publish_obeys (fun _ => True) w docker_username wd job_id
                (fun _ _ => I) (answers_any w) st I) as (Hev & _).
  assert (Hr : List.filter is_read (trace (publish w docker_username wd job_id st)) = []).
  { apply (filter_none _ _ _ Hev).
    intros [[]| | | | | | | | | | | | | | | | |]; simpl; auto; discriminate. }
  assert (Hs : List.filter is_system (trace (publish w docker_username wd job_id st)) = []).
  { apply (filter_none _ _ _ Hev publish_event_not_system). }
  destruct docker_username as [username|]; [|rewrite publish_None in *; auto].
  revert Hr Hs. rewrite publish_Some. cbv zeta.
  destruct (w_docker_from_env w); [|auto].
  destruct (w_images_build w); [|auto].
  destruct (w_images_get w) as [image|]; [|auto].
  destruct (image_attrs image !! "Size"); auto.
Qed.

Section Stage_traces.
Context (K : constants).

(** The calls of the body of the [try] statement, stage by stage: each
    stage runs only if the one before it returned, in the state that one
    left. *)
Lemma go_try_trace w res job_id do_pull docker_username st :
  let sb := sandbox K w res job_id st in
  trace (go_try K w res job_id do_pull docker_username st) =
  trace sb ++
  match outcome sb with
  | Raise _ => []
  | Ok files =>
      let rn := runner w do_pull (snd files) (final sb) in
      trace rn ++
      match outcome rn with
      | Raise _ => []
      | Ok _ =>
          let ex := extract w (fst files) (final sb) in
          trace ex ++
          match outcome ex with
          | Raise _ => []
          | Ok _ => trace (publish w docker_username (fst files) job_id (final sb))
          end
      end
  end.
Proof.
  cbv zeta. rewrite go_try_stages.
  destruct (sandbox K w res job_id st) as [[[files|e] s1] t1];
    rewrite ?outcome_mk, ?final_mk, ?trace_mk; [|rewrite app_nil_r; reflexivity].
  destruct (runner_calls w do_pull (snd files) s1) as (Hrn & _).
  destruct (runner w do_pull (snd files) s1) as [[[[]|e] s2] t2];
    rewrite ?outcome_mk, ?final_mk, ?trace_mk in *; [|rewrite app_nil_r; reflexivity].
  subst s2.
  destruct (extract_calls w (fst files) s1) as (Hex & _).
  destruct (extract w (fst files) s1) as [[[cr|e] s3] t3];
    rewrite ?outcome_mk, ?final_mk, ?trace_mk in *; [|rewrite app_nil_r; reflexivity].
  subst s3.
  destruct (publish w docker_username (fst files) job_id s1) as [[[[]|e] s4] t4];
    rewrite ?trace_mk; reflexivity.
Qed.

Lemma go_try_frame w res job_id do_pull docker_username st :
  last_link (final (go_try K w res job_id do_pull docker_username st))
    = last_link (final (sandbox K w res job_id st)) /\
  evaluation_container (final (go_try K w res job_id do_pull docker_username st))
    = evaluation_container (final (sandbox K w res job_id st)).
Proof.
  rewrite go_try_stages.
  destruct (sandbox K w res job_id st) as [[[files|e] s1] t1];
    rewrite ?final_mk; [|auto].
  destruct (runner_calls w do_pull (snd files) s1) as (Hrn & _).
  destruct (runner w do_pull (snd files) s1) as [[[[]|e] s2] t2];
    rewrite ?final_mk in *; subst s2; [|auto].
  destruct (extract_calls w (fst files) s1) as (Hex & _).
  destruct (extract w (fst files) s1) as [[[cr|e] s3] t3];
    rewrite ?final_mk in *; subst s3; [|auto].
  destruct (publish_frame w docker_username (fst files) job_id s1) as (Hl & Hc & _).
  destruct (publish w docker_username (fst files) job_id s1) as [[[[]|e] s4] t4];
    rewrite ?final_mk in *; auto.
Qed.

End Stage_traces.

Lemma not_in_stage (P : event -> bool) t ev :
  forallb P t = true -> P ev = false -> ~ In ev t.
Proof. intros H Hev Hin. rewrite (in_stage P t ev H Hin) in Hev. discriminate. Qed.

Lemma sandbox_event_not_stage_call ev : sandbox_event ev = true -> stage_call ev = false.
Proof. destruct ev; simpl; auto; discriminate. Qed.

Lemma after_try_not_stage_call ev : after_try ev = true -> stage_call ev = false.
Proof. destruct ev as [[]| | | | | | | | | | | | | | | | |]; simpl; auto; discriminate. Qed.

Lemma runner_returned w do_pull dcfn st :
  outcome (runner w do_pull dcfn st) = Ok tt ->
  w_system w (up_cmd dcfn) = 0%Z /\
  (do_pull = true -> w_system w (pull_cmd dcfn) = 0%Z) /\
  In (System (up_cmd dcfn)) (trace (runner w do_pull dcfn st)).
Proof.
  destruct do_pull.
  - destruct (Z.eq_dec (w_system w (pull_cmd dcfn)) 0%Z) as [Hp|Hp].
    + rewrite (runner_pulled w dcfn st Hp), outcome_mk, trace_mk.
      destruct (Z.eqb_spec (w_system w (up_cmd dcfn)) 0); [|discriminate].
      intros _. simpl. auto.
    + rewrite (runner_pull_failed w dcfn st Hp). discriminate.
  - rewrite runner_without_pull, outcome_mk, trace_mk.
    destruct (Z.eqb_spec (w_system w (up_cmd dcfn)) 0); [|discriminate].
    intros _. simpl. split; [auto|]. split; [discriminate|auto].
Qed.

Section Order.
Context (K : constants).

(** Where a call of a later stage comes from: the sandbox build returned,
    and the call is one of the runner, or the runner returned and it is the
    reading of the results, or the extractor returned too and it is a call
    of the publisher. *)
Lemma go_stage_call submission_id do_pull docker_username w st ev :
  In ev (trace (go_ K submission_id do_pull docker_username w st)) ->
  stage_call ev = true ->
  exists token res job_id wd dcfn s1 t1 after,
    acquired K w token res job_id /\
    sandbox K w res job_id (fresh_locals st) = (Ok (wd, dcfn), s1, t1) /\
    trace (go_ K submission_id do_pull docker_username w st)
      = acquisition K submission_id w token job_id ++ t1 ++ after /\
    In ev after /\
    (In ev (trace (runner w do_pull dcfn s1)) \/
     outcome (runner w do_pull dcfn s1) = Ok tt /\
     In (ReadChallengeResults wd) after /\
     (ev = ReadChallengeResults wd \/
      exists cr, outcome (extract w wd s1) = Ok cr /\
                 In ev (trace (publish w docker_username wd job_id s1)))).
Proof.
  intros Hin Hev.
  destruct (acquisition_failure K submission_id w) as [[e t]|] eqn:Hf.
  { exfalso. rewrite (go_not_acquired K _ do_pull docker_username _ _ _ st Hf), trace_mk in Hin.
    revert Hin Hev. unfold acquisition_failure in Hf.
    destruct (w_config w) as [config|e0]; [|injection Hf as <- <-; simpl; intros [<-|[]]; discriminate].
    destruct (config !! DT1_TOKEN_CONFIG_KEY K) as [token|];
      [|injection Hf as <- <-; simpl; intros [<-|[]]; discriminate].
    destruct (w_work_submission w) as [res|e0];
      [|injection Hf as <- <-; simpl; intros [<-|[<-|[]]]; discriminate].
    destruct (res !! "job_id") as [job_id|]; [discriminate|].
    destruct (res !! "msg") as [explanation|]; injection Hf as <- <-; simpl;
      intros [<-|[<-|[]]]; discriminate. }
  destruct (go_acquires K _ _ Hf) as (token & res & job_id & Hacq).
  destruct (go_acquired_trace K submission_id do_pull docker_username w token res job_id
              st Hacq) as (l & Htr & Hl & _).
  rewrite go_try_trace in Htr. cbv zeta in Htr.
  pose proof (sandbox_obeys K (fun _ => True) (fun _ _ => True) w res job_id
                (fun _ _ => I) (answers_any w) (fresh_locals st) I) as (Hev1 & _).
  assert (Hacqev : ~ In ev (acquisition K submission_id w token job_id)).
  { simpl. intros [<-|[<-|[<-|[]]]]; discriminate. }
  assert (Hlev : ~ In ev l).
  { intros Hin1. pose proof (in_stage _ _ _ Hl Hin1) as H.
    apply after_try_not_stage_call in H. congruence. }
  assert (H1ev : ~ In ev (trace (sandbox K w res job_id (fresh_locals st)))).
  { intros Hin1. pose proof (in_stage _ _ _ Hev1 Hin1) as H.
    apply sandbox_event_not_stage_call in H. congruence. }
  destruct (sandbox K w res job_id (fresh_locals st)) as [[[[wd dcfn]|e] s1] t1] eqn:Hsb;
    rewrite ?outcome_mk, ?final_mk, ?trace_mk in *; cbn [fst snd] in Htr.
  2:{ exfalso. rewrite Htr in Hin. rewrite !in_app_iff in Hin.
      destruct Hin as [Hin|[[Hin|[]]|Hin]]; tauto. }
  exists token, res, job_id, wd, dcfn, s1, t1. eexists.
  split; [exact Hacq|]. split; [exact Hsb|].
  rewrite <- app_assoc in Htr. split; [exact Htr|].
  rewrite Htr in Hin.
  apply in_app_iff in Hin as [Hin|Hin]; [tauto|].
  apply in_app_iff in Hin as [Hin|Hin]; [tauto|].
  split; [exact Hin|].
  assert (Hafter : forall x, In x (match outcome (runner w do_pull dcfn s1) with
                    | Ok _ =>
                        trace (extract w wd s1) ++
                        match outcome (extract w wd s1) with
                        | Ok _ => trace (publish w docker_username wd job_id s1)
                        | Raise _ => []
                        end
                    | Raise _ => []
                    end) ->
            In x ((trace (runner w do_pull dcfn s1) ++
                   match outcome (runner w do_pull dcfn s1) with
                   | Ok _ =>
                       trace (extract w wd s1) ++
                       match outcome (extract w wd s1) with
                       | Ok _ => trace (publish w docker_username wd job_id s1)
                       | Raise _ => []
                       end
                   | Raise _ => []
                   end) ++ l)).
  { intros x Hx. rewrite !in_app_iff. auto. }
  apply in_app_iff in Hin as [Hin|Hin]; [|tauto].
  apply in_app_iff in Hin as [Hin|Hin]; [left; exact Hin|].
  right. destruct (outcome (runner w do_pull dcfn s1)) as [[]|e]; [|destruct Hin].
  split; [reflexivity|].
  destruct (extract_calls w wd s1) as (_ & l' & Hex & Hr' & Hd' & Hs').
  rewrite Hex in *. split; [apply Hafter, in_app_iff; left; apply in_eq|].
  apply in_app_iff in Hin as [[Hin|Hin]|Hin].
  - left. symmetry. exact Hin.
  - exfalso. unfold stage_call in Hev.
    apply orb_true_iff in Hev as [Hev|Hev]; [apply orb_true_iff in Hev as [Hev|Hev]|].
    + pose proof (in_filtered is_system _ _ Hin Hev) as H. rewrite Hs' in H. destruct H.
    + pose proof (in_filtered is_read _ _ Hin Hev) as H. rewrite Hr' in H. destruct H.
    + pose proof (in_filtered is_docker _ _ Hin Hev) as H. rewrite Hd' in H. destruct H.
  - right. destruct (outcome (extract w wd s1)) as [cr|e]; [|destruct Hin]. eauto.
Qed.

End Order.

Section Manifest.
Context (K : constants).

(** X8.  docker-compose is only ever run on the manifest the pass has just
    written: whenever a pass calls [os.system], it has acquired a job, made
    its working directory, its four directories and its two files, all
    before that call, and the command is the pull (only when pulling is
    enabled) or the up of that manifest. *)
Theorem compose_runs_on_written_manifest submission_id do_pull docker_username w st cmd :
  In (System cmd) (trace (go_ K submission_id do_pull docker_username w st)) ->
  exists token res job_id wd challenge_parameters compose after,
    acquired K w token res job_id /\
    w_mkdtemp w = Ok wd /\
    res !! "challenge_parameters" = Some challenge_parameters /\
    w_write w (path_join wd "docker-compose.yaml") compose = Ok tt /\
    trace (go_ K submission_id do_pull docker_username w st)
      = acquisition K submission_id w token job_id ++
        sandbox_calls K w st wd challenge_parameters compose job_id ++ after /\
    In (System cmd) after /\
    (cmd = up_cmd (path_join wd "docker-compose.yaml") \/
     do_pull = true /\ cmd = pull_cmd (path_join wd "docker-compose.yaml")).
Proof.
  intros Hin.
  destruct (go_stage_call K submission_id do_pull docker_username w st _ Hin eq_refl)
    as (token & res & job_id & wd & dcfn & s1 & t1 & after & Hacq & Hsb & Htr & Hafter & Hfrom).
  destruct (sandbox_returned K w res job_id _ wd dcfn s1 t1 Hsb)
    as (Hmk & -> & cp & proto & container & compose & Hcp & _ & _ & _ & Hw & -> & ->).
  exists token, res, job_id, wd, (PDict cp), compose, after.
  split; [exact Hacq|]. split; [exact Hmk|]. split; [exact Hcp|]. split; [exact Hw|].
  split; [exact Htr|]. split; [exact Hafter|].
  destruct Hfrom as [Hrn|(_ & _ & [Hread|(cr & _ & Hpub)])].
  - destruct (runner_calls w do_pull (path_join wd "docker-compose.yaml")
                (mkState (Some wd) container (artifacts_image (fresh_locals st))
                   (size (fresh_locals st))))
      as (_ & [[Ht _]|[(Ht & Hp & _)|(Ht & Hp & _)]]); rewrite Ht in Hrn; simpl in Hrn.
    + destruct Hrn as [[= <-]|[]]. auto.
    + destruct Hrn as [[= <-]|[]]. auto.
    + destruct Hrn as [[= <-]|[[= <-]|[]]]; auto.
  - discriminate Hread.
  - exfalso.
    destruct (publish_frame w docker_username wd job_id
                (mkState (Some wd) container (artifacts_image (fresh_locals st))
                   (size (fresh_locals st)))) as (_ & _ & _ & Hs).
    pose proof (in_filtered is_system _ _ Hpub eq_refl) as H. rewrite Hs in H. destruct H.
Qed.

(** The calls of a pass whose runner returned: the results are read next,
    and neither read again nor followed by a docker-compose call. *)
Lemma go_after_runner submission_id do_pull docker_username w token res job_id st
    wd dcfn s1 t1 :
  acquired K w token res job_id ->
  sandbox K w res job_id (fresh_locals st) = (Ok (wd, dcfn), s1, t1) ->
  outcome (runner w do_pull dcfn s1) = Ok tt ->
  exists rest,
    trace (go_ K submission_id do_pull docker_username w st)
      = (acquisition K submission_id w token job_id ++ t1 ++
         trace (runner w do_pull dcfn s1)) ++ ReadChallengeResults wd :: rest /\
    List.filter is_read rest = [] /\ List.filter is_system rest = [].
Proof.
  intros Hacq Hsb Hrn.
  destruct (go_acquired_trace K submission_id do_pull docker_username w token res job_id
              st Hacq) as (l & Htr & Hl & _).
  rewrite go_try_trace in Htr. cbv zeta in Htr.
  rewrite Hsb, outcome_mk, final_mk, trace_mk in Htr. cbn [fst snd] in Htr.
  rewrite Hrn in Htr.
  destruct (extract_calls w wd s1) as (_ & l' & Hex & Hr' & _ & Hs').
  rewrite Hex in Htr.
  destruct (publish_frame w docker_username wd job_id s1) as (_ & _ & Hpr & Hps).
  assert (Hlr : List.filter is_read l = [])
    by (apply (filter_none _ _ _ Hl);
        intros [[]| | | | | | | | | | | | | | | | |]; simpl; auto; discriminate).
  destruct (after_try_quiet l Hl) as (Hls & _).
  eexists. split.
  { rewrite Htr. rewrite <- !app_assoc. cbn [app]. reflexivity. }
  rewrite !List.filter_app, Hr', Hs', Hlr, Hls.
  destruct (outcome (extract w wd s1)); rewrite ?Hpr, ?Hps; auto.
Qed.

(** X14.  The results are read at most once in a pass, from the working
    directory of that pass, and only after docker-compose up (and the pull,
    when enabled) returned the status 0. *)
Theorem results_read_after_successful_run submission_id do_pull docker_username w st wd :
  In (ReadChallengeResults wd) (trace (go_ K submission_id do_pull docker_username w st)) ->
  w_mkdtemp w = Ok wd /\
  w_system w (up_cmd (path_join wd "docker-compose.yaml")) = 0%Z /\
  (do_pull = true -> w_system w (pull_cmd (path_join wd "docker-compose.yaml")) = 0%Z) /\
  exists before after,
    trace (go_ K submission_id do_pull docker_username w st)
      = before ++ ReadChallengeResults wd :: after /\
    In (System (up_cmd (path_join wd "docker-compose.yaml"))) before /\
    List.filter is_read before = [] /\ List.filter is_read after = [].
Proof.
  intros Hin.
  destruct (go_stage_call K submission_id do_pull docker_username w st _ Hin eq_refl)
    as (token & res & job_id & wd0 & dcfn & s1 & t1 & after & Hacq & Hsb & Htr & Hafter & Hfrom).
  pose proof (runner_obeys (fun _ => True) (fun _ => True) w do_pull dcfn
                (fun _ _ => I) s1 I) as (Hrev & _).
  pose proof (sandbox_obeys K (fun _ => True) (fun _ _ => True) w res job_id
                (fun _ _ => I) (answers_any w) (fresh_locals st) I) as (Hsev & _).
  rewrite Hsb, trace_mk in Hsev.
  destruct Hfrom as [Hrn|(Hrn & _ & Hev)].
  { pose proof (in_stage _ _ _ Hrev Hrn) as H. discriminate H. }
  assert (wd0 = wd) as ->.
  { destruct Hev as [[= ->]|(cr & _ & Hpub)]; [reflexivity|]. exfalso.
    destruct (publish_frame w docker_username wd0 job_id s1) as (_ & _ & Hpr & _).
    pose proof (in_filtered is_read _ _ Hpub eq_refl) as H. rewrite Hpr in H. destruct H. }
  destruct (sandbox_returned K w res job_id _ wd dcfn s1 t1 Hsb) as (Hmk & -> & _).
  destruct (runner_returned w do_pull _ s1 Hrn) as (Hup & Hpull & Hinup).
  split; [exact Hmk|]. split; [exact Hup|]. split; [exact Hpull|].
  destruct (go_after_runner submission_id do_pull docker_username w token res job_id st
              wd _ s1 t1 Hacq Hsb Hrn) as (rest & Hgo & Hrr & _).
  eexists _, rest. split; [exact Hgo|]. split; [|split; [|exact Hrr]].
  - rewrite !in_app_iff. auto.
  - rewrite !List.filter_app.
    rewrite (filter_none _ _ _ Hsev), (filter_none _ _ _ Hrev); [reflexivity| |].
    + intros ev H. destruct ev; simpl in *; auto; discriminate.
    + intros ev H. destruct ev; simpl in *; auto; discriminate.
Qed.

End Manifest.

Section Edges.
Context (K : constants).


(** X9.  The [last] link after a pass: untouched when no job was acquired;
    otherwise that of the new working directory once it is linked, none if
    the linking failed, and the old one if the working directory could not
    be made or the old link could not be removed.  No later stage touches
    it. *)
Theorem last_link_after_pass submission_id do_pull docker_username w st :
  last_link (final (go_ K submission_id do_pull docker_username w st))
  = match acquisition_failure K submission_id w with
    | Some _ => last_link st
    | None => link_after w (last_link st)
    end.
Proof.
  destruct (acquisition_failure K submission_id w) as [[e t]|] eqn:Hf.
  - rewrite (go_not_acquired K _ do_pull docker_username _ _ _ st Hf). reflexivity.
  - destruct (go_acquires K _ _ Hf) as (token & res & job_id & Hacq).
    destruct (go_acquired_trace K submission_id do_pull docker_username w token res job_id
                st Hacq) as (l & _ & _ & ->).
    destruct (go_try_frame K w res job_id do_pull docker_username (fresh_locals st))
      as (-> & _).
    rewrite sandbox_link. reflexivity.
Qed.

(** X11.  The evaluation container of a report is the one of the challenge
    parameters exactly when the pass came to line 143: the working directory
    was made and linked, the fields of the job that are read before that
    line are there, and the protocol is p1.  A pass that failed before that
    line reports [None].  So the container reported is [None] or that of a
    job whose protocol is p1, and never that of a rejected protocol. *)
Theorem reported_container_is_accepted submission_id do_pull docker_username w st :
  Forall (fun ev =>
            match ev with
            | ReportJob _ _ _ _ _ _ container _ =>
                exists res,
                  w_work_submission w = Ok res /\
                  container = match assigned_container w res (last_link st) with
                              | Some assigned => assigned
                              | None => PNone
                              end /\
                  (container = PNone \/ accepted res container)
            | _ => True
            end)
    (trace (go_ K submission_id do_pull docker_username w st)).
Proof.
  apply List.Forall_forall. intros ev Hin.
  destruct ev as [ ? ? | ? | ? | ? | ? ? ? ? ? | ? | ? | ? ? | ? | ? ? | ? | ? | | ? ? | ? | ?
                 | tok jid stats status mid pid ec ver | ? ]; try exact I.
  destruct (acquisition_failure K submission_id w) as [[e t]|] eqn:Hf.
  { exfalso. rewrite (go_not_acquired K _ do_pull docker_username _ _ _ st Hf), trace_mk in Hin.
    destruct (acquisition_failure_trace K _ _ _ _ Hf) as (_ & Hr & _).
    pose proof (in_filtered is_report _ _ Hin eq_refl) as H. rewrite Hr in H. destruct H. }
  destruct (go_acquires K _ _ Hf) as (token0 & res0 & job_id0 & Hacq).
  destruct (go_try_frame K w res0 job_id0 do_pull docker_username (fresh_locals st))
    as (_ & Hc).
  rewrite sandbox_container_after in Hc. change (last_link (fresh_locals st))
    with (last_link st) in Hc.
  change (evaluation_container (fresh_locals st)) with PNone in Hc.
  rewrite (go_acquired K submission_id do_pull docker_username w token0 res0 job_id0 st Hacq)
    in Hin. cbv zeta in Hin.
  pose proof (job_result_events K w res0 job_id0 do_pull docker_username
                (fresh_locals st) I) as (Hev & _).
  assert (Hfin : final (job_result K w res0 job_id0 do_pull docker_username (fresh_locals st))
                 = final (go_try K w res0 job_id0 do_pull docker_username (fresh_locals st))).
  { unfold job_result, try_except.
    destruct (go_try K w res0 job_id0 do_pull docker_username (fresh_locals st))
      as [[[cr|e] s] t]; [reflexivity|].
    destruct e; reflexivity. }
  rewrite <- Hfin in Hc.
  assert (Hno : ~ In (ReportJob tok jid stats status mid pid ec ver)
                  (acquisition K submission_id w token0 job_id0 ++
                   trace (job_result K w res0 job_id0 do_pull docker_username
                            (fresh_locals st)))).
  { intros H. apply in_app_iff in H as [H|H].
    - simpl in H. destruct H as [[=]|[[=]|[[=]|[]]]].
    - pose proof (in_stage _ _ _ Hev H) as H'. discriminate H'. }
  destruct (outcome (job_result K w res0 job_id0 do_pull docker_username (fresh_locals st)))
    as [cr|e]; rewrite trace_mk in Hin; [|contradiction].
  rewrite app_assoc in Hin. apply in_app_iff in Hin as [Hin|[Hin|[]]]; [contradiction|].
  unfold report_of in Hin. injection Hin as <- <- <- <- <- <- <- <-.
  exists res0. split; [apply Hacq|]. split; [exact Hc|].
  rewrite Hc.
  destruct (assigned_container w res0 (last_link st)) as [assigned|] eqn:Ha; [|auto].
  right. apply (assigned_container_accepted _ _ _ _ Ha).
Qed.

(** X12.  A [NothingLeft] raised inside the [try] statement goes through
    it: the pass ends with it and reports nothing, although a job was
    acquired, and the loop takes the turn for one without work. *)
Theorem nothing_left_inside_goes_through submission_id do_pull docker_username w
    token res job_id st msg m :
  acquired K w token res job_id ->
  outcome (go_try K w res job_id do_pull docker_username (fresh_locals st))
    = Raise (NothingLeft msg) ->
  let x := go_try K w res job_id do_pull docker_username (fresh_locals st) in
  go_ K submission_id do_pull docker_username w st
    = (Raise (NothingLeft msg), final x,
       acquisition K submission_id w token job_id ++ trace x) /\
  List.filter is_report (trace (go_ K submission_id do_pull docker_username w st)) = [] /\
  loop_body K do_pull docker_username w m st
    = (Ok (py_min m max_multiplier),
       final (go_try K w res job_id do_pull docker_username (fresh_locals st)),
       (acquisition K None w token job_id ++
        trace (go_try K w res job_id do_pull docker_username (fresh_locals st))) ++
       [Stderr "."; Sleep (timeout * py_min m max_multiplier)%Q]).
Proof.
  intros Hacq Hx x.
  assert (Hgo : forall sid, go_ K sid do_pull docker_username w st
                 = (Raise (NothingLeft msg), final x,
                    acquisition K sid w token job_id ++ trace x)).
  { intros sid.
    rewrite (go_acquired K sid do_pull docker_username w token res job_id st Hacq).
    cbv zeta. unfold job_result, try_except. subst x.
    destruct (go_try K w res job_id do_pull docker_username (fresh_locals st))
      as [[r s] t]. rewrite outcome_mk in Hx. subst r.
    cbn. rewrite app_nil_r. reflexivity. }
  split; [apply Hgo|]. split.
  - rewrite Hgo, trace_mk, List.filter_app.
    pose proof (go_try_obeys K (fun _ => True) w res job_id do_pull docker_username
                  (fun _ _ => I) (answers_any w) (fresh_locals st) I) as (Hev & _).
    fold x in Hev. rewrite (filter_none _ _ _ Hev try_event_not_report). reflexivity.
  - rewrite loop_body_eq. cbv zeta. rewrite Hgo, outcome_mk, final_mk, trace_mk.
    reflexivity.
Qed.

(** X7.  Without a token in the configuration file a pass stops at once,
    before any call on the server; the explicit list ends there with the
    request to set a token, while the continuous loop logs it, backs off and
    goes on. *)
Theorem missing_token_stops_pass submission_id do_pull docker_username w st config
    rest ws k m :
  w_config w = Ok config ->
  config !! DT1_TOKEN_CONFIG_KEY K = None ->
  ws k = w ->
  let e := Exception "Please set a Duckietown Token using the command `dts tok set`." in
  let read := ReadConfig (path_join (ROOT K) "config") in
  go_ K submission_id do_pull docker_username w st = (Raise e, st, [read]) /\
  for_submissions K do_pull docker_username (submission_id :: rest) ws k st
    = (Raise e, st, [read]) /\
  loop_body K do_pull docker_username w m st
    = (Ok (py_min m max_multiplier * 1.5)%Q, st,
       [read;
        Log LogError ("Uncaught exception: " +:+
          "Please set a Duckietown Token using the command `dts tok set`.");
        Sleep (timeout * (py_min m max_multiplier * 1.5))%Q]).
Proof.
  intros Hc Hk Hw e read.
  assert (Hgo : forall sid, go_ K sid do_pull docker_username w st = (Raise e, st, [read])).
  { intros sid. apply go_not_acquired. unfold acquisition_failure. rewrite Hc, Hk.
    reflexivity. }
  split; [apply Hgo|]. split.
  - rewrite for_submissions_cons. cbv zeta. rewrite Hw, Hgo. reflexivity.
  - rewrite loop_body_eq. cbv zeta. rewrite Hgo. reflexivity.
Qed.

(** X15.  A failed check at the start ends the program before any pass:
    nothing but the version is logged.  The exception is the one of the
    check, except that an [InvalidEnvironment] of the search for
    docker-compose is replaced by one that tells how to install it. *)
Theorem startup_failure_runs_no_pass s parsed ws turns st e :
  s_check_docker_environment s = Raise e \/
  s_check_docker_environment s = Ok tt /\ s_check_executable_exists s = Raise e ->
  let advice := "Could not find docker-compose. Please install it." +:+ nl +:+ nl +:+
                "See: https://docs.docker.com/compose/install/#install-compose" in
  let e' := match s_check_docker_environment s, e with
            | Ok _, InvalidEnvironment _ => InvalidEnvironment advice
            | _, _ => e
            end in
  dt_challenges_evaluator K s parsed ws turns st
    = (Raise e', st, [Log LogInfo ("dt-challenges-evaluator " +:+ version K)]).
Proof.
  intros [Hd|[Hd Hc]]; cbv zeta; unfold dt_challenges_evaluator; rewrite Hd.
  - reflexivity.
  - unfold bind at 1. unfold emit at 1, call at 1.
    unfold bind at 1. unfold lift at 1.
    unfold bind at 1. unfold try_except at 1, lift at 1. rewrite Hc.
    destruct e; reflexivity.
Qed.

End Edges.

Section Faithful.
Context (K : constants).


End Faithful.

Section No_pull.
Context (K : constants).

Lemma go_system_cmd submission_id do_pull docker_username w st cmd :
  In (System cmd) (trace (go_ K submission_id do_pull docker_username w st)) ->
  exists dcfn, cmd = up_cmd dcfn \/ do_pull = true /\ cmd = pull_cmd dcfn.
Proof.
  intros Hin.
  destruct (go_stage_call K submission_id do_pull docker_username w st _ Hin eq_refl)
    as (token & res & job_id & wd & dcfn & s1 & t1 & after & _ & _ & _ & _ & Hfrom).
  exists dcfn.
  destruct Hfrom as [Hrn|(_ & _ & [Hread|(cr & _ & Hpub)])].
  - destruct (runner_calls w do_pull dcfn s1)
      as (_ & [[Ht _]|[(Ht & Hp & _)|(Ht & Hp & _)]]); rewrite Ht in Hrn; simpl in Hrn.
    + destruct Hrn as [[= <-]|[]]. auto.
    + destruct Hrn as [[= <-]|[]]. auto.
    + destruct Hrn as [[= <-]|[[= <-]|[]]]; auto.
  - discriminate Hread.
  - exfalso.
    destruct (publish_frame w docker_username wd job_id s1) as (_ & _ & _ & Hs).
    pose proof (in_filtered is_system _ _ Hpub eq_refl) as H. rewrite Hs in H. destruct H.
Qed.

(** X16.  With --no-pull the program never runs a pull: every [os.system]
    call it makes, in either mode, is the up of a manifest. *)
Theorem no_pull_never_pulls s parsed ws turns st :
  no_pull parsed = true ->
  Forall no_pull_event (trace (dt_challenges_evaluator K s parsed ws turns st)).
Proof.
  intros Hnp.
  apply (evaluator_all K (fun t => Forall no_pull_event t)).
  - constructor.
  - intros a b Ha Hb. apply Forall_app. auto.
  - intros ev Hev. constructor; [|constructor]. destruct ev; try exact I. discriminate Hev.
  - intros submission_id w st1. rewrite Hnp. apply List.Forall_forall. intros ev Hin.
    destruct ev; try exact I.
    destruct (go_system_cmd _ _ _ _ _ _ Hin) as (dcfn & [->|[[=] _]]).
    exists dcfn. reflexivity.
Qed.

(** X17.  An answer of the server with neither a job nor an explanation is
    a fault, not an idle turn: the pass raises the [KeyError] of the missing
    explanation, reports nothing, and the loop logs it and backs off. *)
Theorem answer_without_explanation_is_a_fault submission_id do_pull docker_username
    w st config token res m :
  w_config w = Ok config ->
  config !! DT1_TOKEN_CONFIG_KEY K = Some token ->
  w_work_submission w = Ok res ->
  res !! "job_id" = None ->
  res !! "msg" = None ->
  let polled sid :=
    [ReadConfig (path_join (ROOT K) "config");
     WorkSubmission token sid (w_hostname w) (pretty (w_pid w)) (version K)] in
  go_ K submission_id do_pull docker_username w st
    = (Raise (KeyError "msg"), st, polled submission_id) /\
  loop_body K do_pull docker_username w m st
    = (Ok (py_min m max_multiplier * 1.5)%Q, st,
       polled None ++
       [Log LogError "Uncaught exception: 'msg'";
        Sleep (timeout * (py_min m max_multiplier * 1.5))%Q]).
Proof.
  intros Hc Ht Hs Hj Hm polled.
  assert (Hgo : forall sid, go_ K sid do_pull docker_username w st
                 = (Raise (KeyError "msg"), st, polled sid)).
  { intros sid. apply go_not_acquired. unfold acquisition_failure.
    rewrite Hc, Ht, Hs, Hj, Hm. reflexivity. }
  split; [apply Hgo|].
  rewrite loop_body_eq. cbv zeta. rewrite Hgo. reflexivity.
Qed.

End No_pull.

(** ** The further properties on the sample inputs *)

Lemma no_username_no_docker_call_witness :
  List.filter is_docker
    (trace (dt_challenges_evaluator K0 no_docker_user (mkArguments true false [])
              (fun _ => w_good) 2 st0)) = [].
Proof.
  apply (no_username_no_docker_call K0 no_docker_user (mkArguments true false [])
           (fun _ => w_good) 2 st0 (Exception "docker user name not found")).
  reflexivity.
Defined.

Lemma missing_token_stops_pass_witness :
  go_ K0 (Some "12") true None (with_config (Ok ∅) w_good) st0
    = (Raise (Exception "Please set a Duckietown Token using the command `dts tok set`."),
       st0, [ReadConfig (path_join (ROOT K0) "config")]).
Proof.
  apply (missing_token_stops_pass K0 (Some "12") true None (with_config (Ok ∅) w_good) st0
           ∅ [Some "13"] (fun _ => with_config (Ok ∅) w_good) 0 1%Q).
  - reflexivity.
  - reflexivity.
  - reflexivity.
Defined.

Lemma compose_runs_on_written_manifest_witness :
  exists token res job_id wd challenge_parameters compose after,
    acquired K0 w_good token res job_id /\
    w_mkdtemp w_good = Ok wd /\
    res !! "challenge_parameters" = Some challenge_parameters /\
    w_write w_good (path_join wd "docker-compose.yaml") compose = Ok tt /\
    trace (go_ K0 None true None w_good st0)
      = acquisition K0 None w_good token job_id ++
        sandbox_calls K0 w_good st0 wd challenge_parameters compose job_id ++ after /\
    In (System (up_cmd sample_dcfn)) after /\
    (up_cmd sample_dcfn = up_cmd (path_join wd "docker-compose.yaml") \/
     true = true /\ up_cmd sample_dcfn = pull_cmd (path_join wd "docker-compose.yaml")).
Proof.
  apply (compose_runs_on_written_manifest K0 None true None w_good st0 (up_cmd sample_dcfn)).
  vm_compute. auto 20.
Defined.

Lemma results_read_after_successful_run_witness :
  w_mkdtemp w_good = Ok sample_wd /\
  w_system w_good (up_cmd (path_join sample_wd "docker-compose.yaml")) = 0%Z /\
  (true = true ->
   w_system w_good (pull_cmd (path_join sample_wd "docker-compose.yaml")) = 0%Z) /\
  exists before after,
    trace (go_ K0 None true None w_good st0)
      = before ++ ReadChallengeResults sample_wd :: after /\
    In (System (up_cmd (path_join sample_wd "docker-compose.yaml"))) before /\
    List.filter is_read before = [] /\ List.filter is_read after = [].
Proof.
  apply (results_read_after_successful_run K0 None true None w_good st0 sample_wd).
  vm_compute. auto 20.
Defined.


Lemma nothing_left_inside_goes_through_witness :
  List.filter is_report (trace (go_ K0 None true (Some "duckie") w_no_work_left st0)) = [].
Proof.
  apply (nothing_left_inside_goes_through K0 None true (Some "duckie") w_no_work_left
           (PStr "secret") (job "p1") (PInt 7) st0 "nothing to build" 1%Q).
  - apply sample_world_acquired. reflexivity.
  - vm_compute. reflexivity.
Defined.

Lemma startup_failure_runs_no_pass_witness :
  dt_challenges_evaluator K0 no_docker_compose (mkArguments true false [])
    (fun _ => w_good) 3 st0
  = (Raise (InvalidEnvironment
       ("Could not find docker-compose. Please install it." +:+ nl +:+ nl +:+
        "See: https://docs.docker.com/compose/install/#install-compose")),
     st0, [Log LogInfo "dt-challenges-evaluator 1.0"]).
Proof.
  apply (startup_failure_runs_no_pass K0 no_docker_compose (mkArguments true false [])
           (fun _ => w_good) 3 st0 (InvalidEnvironment "docker-compose not found")).
  right. split; reflexivity.
Defined.


Lemma no_pull_never_pulls_witness :
  Forall no_pull_event
    (trace (dt_challenges_evaluator K0 no_docker_user (mkArguments false true ["12"])
              (fun _ => w_good) 0 st0)).
Proof.
  apply (no_pull_never_pulls K0 no_docker_user (mkArguments false true ["12"])
           (fun _ => w_good) 0 st0).
  reflexivity.
Defined.

Lemma answer_without_explanation_is_a_fault_witness :
  go_ K0 None true None w_mute st0
    = (Raise (KeyError "msg"), st0,
       [ReadConfig (path_join (ROOT K0) "config");
        WorkSubmission (PStr "secret") None (w_hostname w_mute) (pretty (w_pid w_mute))
          (version K0)]).
Proof.
  apply (answer_without_explanation_is_a_fault K0 None true None w_mute st0
           {["token_dt1" := PStr "secret"]} (PStr "secret") ∅ 1%Q); reflexivity.
Defined.

(** A job of protocol p1 in a world where the working directory cannot be
    made: the pass reports no container. *)
Example no_container_without_workdir :
  List.filter is_report
    (trace (go_ K0 None true None
              (mkWorld (w_config w_good) (w_hostname w_good) (w_pid w_good)
                 (w_work_submission w_good) (Raise (LibraryError "OSError" "disk full"))
                 (w_unlink w_good) (w_symlink w_good) (w_getuid w_good) (w_getuser w_good)
                 (w_makedirs w_good) (w_write w_good) (w_system w_good)
                 (w_read_challenge_results w_good) (w_docker_from_env w_good)
                 (w_images_build w_good) (w_images_get w_good) (w_images_push w_good)
                 (w_report w_good) (w_repr w_good) (w_format_exc w_good)
                 (w_format_exc_limit w_good)) st0))
  = [ReportJob (PStr "secret") (PInt 7) ∅ ERROR "host" "4242" PNone "1.0"].
Proof. vm_compute. reflexivity. Qed.
